(** * diff-insight: structural change extraction, embedded in Rocq

    Shallow embedding of the JavaScript sources of diff-insight:

    - [src/parser/cssParser.js] (the "Fixed version with correctness
      improvements"): selector paths, declaration diffing, the value
      normalizer, grid column counting, the stylesheet entry point,
      the at-rule diff, the reconstruction of file contents from a diff,
      the SCSS variable, mixin and nesting checks;
    - [src/parser/astParser.js]: the extraction and grouping of changed
      line ranges and the structural diffs of [ASTParser] (functions,
      classes and methods, imports, exports, variables, components and
      hooks) behind [performSemanticDiff];
    - [src/changeAnalyzer.js]: the per-artifact fallback controller
      [analyzeChanges], [detectFileType], [parseGeneric] and the
      complexity metric;
    - [src/utils.js]: [assessRisk]; [src/summaryFormatter.js]:
      [groupByRisk].

    Conventions.  JavaScript strings are modelled as [string] (sequences
    of 8-bit characters; non-ASCII text is carried as its UTF-8 bytes and
    is never case-mapped or treated as white space).  JavaScript integers
    that stay below 2^53 are modelled as [nat] or [Z].  A thrown exception
    is an explicit [Throw] outcome.  Objects used as dictionaries
    ([props[decl.prop]], [counts[value]]) are modelled as insertion-ordered
    association lists; keys are assumed not to collide with the members of
    [Object.prototype] and not to be integer-like (which JavaScript would
    enumerate first).  Where the code looks up names taken from its input
    in a plain object and the inherited members matter (SCSS variable
    names, risk levels), the lookup goes through [JsObject], which models
    both. *)

From Stdlib Require Import String Ascii List Bool Arith ZArith Lia Permutation.
From Stdlib Require Import Numbers.DecimalString Numbers.DecimalNat.
Import ListNotations.
Open Scope string_scope.
Open Scope list_scope.
Open Scope nat_scope.
Set Warnings "-register-all".

(** String concatenation, as in a template literal. *)
Infix "+++" := String.append (right associativity, at level 60).

(* ===================================================================== *)
(** ** JavaScript string primitives *)
(* ===================================================================== *)

Module JsString.

(** White space recognised by [String.prototype.trim] and by [\s], on the
    ASCII range: TAB, LF, VT, FF, CR and SPACE. *)
Definition is_space (c : ascii) : bool :=
  let n := nat_of_ascii c in
  ((9 <=? n) && (n <=? 13)) || (n =? 32).

Definition is_digit (c : ascii) : bool :=
  let n := nat_of_ascii c in (48 <=? n) && (n <=? 57).

Definition is_upper (c : ascii) : bool :=
  let n := nat_of_ascii c in (65 <=? n) && (n <=? 90).

Definition is_lower (c : ascii) : bool :=
  let n := nat_of_ascii c in (97 <=? n) && (n <=? 122).

(** [\w] is [A-Za-z0-9_]. *)
Definition is_word (c : ascii) : bool :=
  is_digit c || is_upper c || is_lower c || (nat_of_ascii c =? 95).

Definition lower_char (c : ascii) : ascii :=
  if is_upper c then ascii_of_nat (nat_of_ascii c + 32) else c.

Fixpoint toLowerCase (s : string) : string :=
  match s with
  | EmptyString => EmptyString
  | String c s' => String (lower_char c) (toLowerCase s')
  end.

Definition isEmpty (s : string) : bool :=
  match s with EmptyString => true | _ => false end.

(** A string is truthy iff it is not empty. *)
Definition truthy (s : string) : bool := negb (isEmpty s).

Fixpoint trimStart (s : string) : string :=
  match s with
  | EmptyString => EmptyString
  | String c s' => if is_space c then trimStart s' else s
  end.

Fixpoint trimEnd (s : string) : string :=
  match s with
  | EmptyString => EmptyString
  | String c s' =>
      let t := trimEnd s' in
      if is_space c && isEmpty t then EmptyString else String c t
  end.

Definition trim (s : string) : string := trimEnd (trimStart s).

Definition startsWith (s p : string) : bool := String.prefix p s.

(** [s.includes(p)] *)
Fixpoint includes (s p : string) : bool :=
  String.prefix p s ||
  match s with
  | EmptyString => false
  | String _ s' => includes s' p
  end.

(** [s.substring(n)] *)
Fixpoint substring_from (n : nat) (s : string) : string :=
  match n, s with
  | O, _ => s
  | S n', String _ s' => substring_from n' s'
  | S _, EmptyString => EmptyString
  end.

(** [s.split(c)] for a one-character separator: always at least one piece. *)
Fixpoint split_on (sep : ascii) (s : string) : list string :=
  match s with
  | EmptyString => [EmptyString]
  | String c s' =>
      if Ascii.eqb c sep then EmptyString :: split_on sep s'
      else match split_on sep s' with
           | [] => [String c EmptyString]
           | p :: ps => String c p :: ps
           end
  end.

(** [parts.join(sep)] *)
Fixpoint join (sep : string) (parts : list string) : string :=
  match parts with
  | [] => EmptyString
  | [p] => p
  | p :: ps => p +++ sep +++ join sep ps
  end.

(** [s.replace(/\s+/g, '')] *)
Fixpoint removeSpaces (s : string) : string :=
  match s with
  | EmptyString => EmptyString
  | String c s' => if is_space c then removeSpaces s' else String c (removeSpaces s')
  end.

(** [s.split(/\s+/)] followed by [.filter(p => p)]: the maximal runs of
    non-blank characters.  ([split] itself may add empty strings at both
    ends; every caller in the sources filters them out.) *)
Fixpoint words_aux (cur : string) (s : string) : list string :=
  match s with
  | EmptyString => if isEmpty cur then [] else [cur]
  | String c s' =>
      if is_space c
      then (if isEmpty cur then words_aux EmptyString s'
            else cur :: words_aux EmptyString s')
      else words_aux (cur +++ String c EmptyString) s'
  end.

Definition words (s : string) : list string := words_aux EmptyString s.

(** Template-literal rendering of a non-negative integer. *)
Definition nat_to_string (n : nat) : string :=
  NilEmpty.string_of_uint (Nat.to_uint n).

Definition Z_to_string (z : Z) : string :=
  NilEmpty.string_of_int (Z.to_int z).

(** [arr.includes(x)] on strings. *)
Definition mem (x : string) (l : list string) : bool :=
  existsb (String.eqb x) l.

(** [Array.from(new Set(arr))]: the first occurrence of every value, in
    order of appearance. *)
Fixpoint unique (l : list string) : list string :=
  match l with
  | [] => []
  | x :: l' => x :: filter (fun y => negb (String.eqb y x)) (unique l')
  end.

(** Insertion-ordered dictionaries ([Map], or a plain object used as one). *)
Definition dict (V : Type) : Type := list (string * V).

Fixpoint dict_get {V} (m : dict V) (k : string) : option V :=
  match m with
  | [] => None
  | (k', v) :: m' => if String.eqb k k' then Some v else dict_get m' k
  end.

Definition dict_has {V} (m : dict V) (k : string) : bool :=
  match dict_get m k with Some _ => true | None => false end.

(** [m.set(k, v)]: an existing key keeps its position. *)
Fixpoint dict_set {V} (m : dict V) (k : string) (v : V) : dict V :=
  match m with
  | [] => [(k, v)]
  | (k', v') :: m' =>
      if String.eqb k k' then (k', v) :: m' else (k', v') :: dict_set m' k v
  end.

Definition dict_keys {V} (m : dict V) : list string := map fst m.

(** [m[k] = (m[k] || 0) + 1] *)
Definition dict_incr (m : dict nat) (k : string) : dict nat :=
  dict_set m k (match dict_get m k with Some c => c | None => 0 end + 1).

(** [vals.forEach(v => counts[v] = (counts[v] || 0) + 1)] *)
Definition countValues (vals : list string) : dict nat :=
  fold_left dict_incr vals [].

(** [count > 1], where [count] may be [undefined]. *)
Definition gt1 (count : option nat) : bool :=
  match count with Some c => 1 <? c | None => false end.

End JsString.

(* ===================================================================== *)
(** ** JavaScript numbers: [parseFloat] and [Number.prototype.toFixed] *)
(* ===================================================================== *)

(** The normalizer formats bare decimals with [parseFloat(val).toFixed(2)].
    Both are built-ins of the language; they are modelled after ECMAScript
    on non-negative IEEE 754 binary64 values, with exact integer
    arithmetic: a finite value is [m * 2^e] with [0 <= m < 2^53]. *)
Module JsNumber.
Import JsString.
Local Open Scope Z_scope.

Inductive number : Type :=
| Finite (m e : Z)
| Infinity.

Definition digit_value (c : ascii) : Z := Z.of_nat (nat_of_ascii c) - 48.

(** The integer written by a string of decimal digits. *)
Definition digits_value (s : string) : Z :=
  fold_left (fun acc c => 10 * acc + digit_value c) (list_ascii_of_string s) 0.

(** Round [num / den] to the nearest integer, ties to even. *)
Definition div_round_even (num den : Z) : Z :=
  let q := num / den in
  let r := num mod den in
  if (den <? 2 * r) || ((den =? 2 * r) && Z.odd q) then q + 1 else q.

(** Round [num / den] to the nearest integer, ties upwards. *)
Definition div_round_up (num den : Z) : Z := (2 * num + den) / (2 * den).

(** [num / (den * 2^e)] as a fraction of integers. *)
Definition scale (num den e : Z) : Z * Z :=
  if e <? 0 then (num * 2 ^ (- e), den) else (num, den * 2 ^ e).

(** The binary64 value nearest to [num / den] (round to nearest, ties to
    even; overflow to [Infinity]; gradual underflow), for [0 <= num] and
    [0 < den]. *)
Definition round_binary64 (num den : Z) : number :=
  if num =? 0 then Finite 0 0 else
  let e1 := Z.log2 num - Z.log2 den - 52 in
  let '(n1, d1) := scale num den e1 in
  let f1 := n1 / d1 in
  let e2 := if 2 ^ 53 <=? f1 then e1 + 1 else if f1 <? 2 ^ 52 then e1 - 1 else e1 in
  let e := Z.max e2 (-1074) in
  let '(n, d) := scale num den e in
  let m := div_round_even n d in
  let '(m', e') := if m =? 2 ^ 53 then (2 ^ 52, e + 1) else (m, e) in
  if 971 <? e' then Infinity else Finite m' e'.

(** [parseFloat] on a string of the shape [digits* "." digits+]. *)
Definition parseFloat (intPart fracPart : string) : number :=
  round_binary64 (digits_value (intPart +++ fracPart))
                 (10 ^ Z.of_nat (String.length fracPart)).

Definition number_eqb (x y : number) : bool :=
  match x, y with
  | Finite m e, Finite m' e' =>
      let k := Z.min e e' in (m * 2 ^ (e - k) =? m' * 2 ^ (e' - k))
  | Infinity, Infinity => true
  | _, _ => false
  end.

(** Number of decimal digits of a positive integer. *)
Definition decimal_length (z : Z) : Z :=
  Z.of_nat (String.length (Z_to_string z)).

(** One candidate of [Number::toString]: the [k]-digit integer [s] and the
    exponent [n] with [s * 10^(n-k)] closest to the integer [x], if it
    reads back as [x]. *)
Definition shortest_candidate (x k : Z) : option (Z * Z) :=
  let n0 := decimal_length x in
  let p := 10 ^ (n0 - k) in
  let lo := x / p in
  let ok s := number_eqb (round_binary64 (s * p) 1) (round_binary64 x 1) in
  let norm s := if s =? 10 ^ k then (10 ^ (k - 1), n0 + 1) else (s, n0) in
  let dlo := x - lo * p in
  let dhi := (lo + 1) * p - x in
  let prefer_lo := (dlo <? dhi) || ((dlo =? dhi) && Z.even lo) in
  match ok lo, ok (lo + 1) with
  | true, true => Some (norm (if prefer_lo then lo else lo + 1))
  | true, false => Some (norm lo)
  | false, true => Some (norm (lo + 1))
  | false, false => None
  end.

Fixpoint shortest_digits (x : Z) (k : Z) (fuel : nat) : Z * Z :=
  match fuel with
  | O => (x, decimal_length x)
  | S fuel' =>
      match shortest_candidate x k with
      | Some sn => sn
      | None => shortest_digits x (k + 1) fuel'
      end
  end.

(** [Number::toString] for an integer value of at least [10^21]:
    exponential notation with the fewest digits that identify the value. *)
Definition toString_large (x : Z) : string :=
  let '(s, n) := shortest_digits x 1 17 in
  let digits := Z_to_string s in
  let expo := "e+" +++ Z_to_string (n - 1) in
  match digits with
  | String d EmptyString => String d expo
  | String d rest => String d ("." +++ rest +++ expo)
  | EmptyString => expo
  end.

(** Left-pad with zeros to at least three digits and put the point before
    the last two. *)
Definition insert_point (digits : string) : string :=
  let padded :=
    match String.length digits with
    | 0%nat => "000" | 1%nat => "00" +++ digits | 2%nat => "0" +++ digits
    | _ => digits
    end in
  let k := String.length padded in
  String.substring 0 (k - 2) padded +++ "." +++ String.substring (k - 2) 2 padded.

(** [x.toFixed(2)] *)
Definition toFixed2 (x : number) : string :=
  match x with
  | Infinity => "Infinity"
  | Finite m e =>
      if (e >=? 0) && (10 ^ 21 <=? m * 2 ^ e) then toString_large (m * 2 ^ e)
      else
        let n := if e <? 0 then div_round_up (100 * m) (2 ^ (- e))
                 else 100 * m * 2 ^ e in
        insert_point (Z_to_string n)
  end.

End JsNumber.

(* ===================================================================== *)
(** ** Exceptions *)
(* ===================================================================== *)

(** The result of running a piece of JavaScript that may throw (or of
    awaiting a promise that may reject). *)
Inductive outcome (A : Type) : Type :=
| Return (a : A)
| Throw (message : string).
Arguments Return {A} a.
Arguments Throw {A} message.

Module Js.

Definition bind {A B} (x : outcome A) (k : A -> outcome B) : outcome B :=
  match x with
  | Return a => k a
  | Throw m => Throw m
  end.

(** [try { body } catch (e) { handler(e) }] *)
Definition try_catch {A} (body : outcome A) (handler : string -> outcome A) : outcome A :=
  match body with
  | Return a => Return a
  | Throw m => handler m
  end.

(** A value returned where the sources expect an array of strings. *)
Inductive value : Type :=
| Arr (items : list string)
| NotArray (truthy : bool) (text : string).

End Js.

Notation "x <- c ;; k" := (Js.bind c (fun x => k))
  (at level 61, c at next level, right associativity).

(* ===================================================================== *)
(** ** Plain objects used as dictionaries *)
(* ===================================================================== *)

Module JsObject.
Import JsString.

(** The members of [Object.prototype] in Node.js.  Reading one of these
    keys from a plain object that does not define it finds the inherited
    member, which is truthy and is not an array. *)
Definition objectPrototypeKeys : list string :=
  ["constructor"; "__defineGetter__"; "__defineSetter__"; "hasOwnProperty";
   "__lookupGetter__"; "__lookupSetter__"; "isPrototypeOf"; "propertyIsEnumerable";
   "toString"; "valueOf"; "__proto__"; "toLocaleString"].

(** An array index: the canonical decimal form of an integer below
    [2^32 - 1]. *)
Definition is_array_index (k : string) : bool :=
  truthy k && forallb is_digit (list_ascii_of_string k)
  && (String.eqb k "0" || negb (startsWith k "0"))
  && (JsNumber.digits_value k <? 2 ^ 32 - 1)%Z.

Fixpoint insert_index (k : string) (sorted : list string) : list string :=
  match sorted with
  | [] => [k]
  | x :: rest =>
      if (JsNumber.digits_value k <? JsNumber.digits_value x)%Z
      then k :: sorted else x :: insert_index k rest
  end.

(** [Object.keys(obj)]: the array indices in ascending order, then the
    other keys in the order of their creation. *)
Definition ownKeys {V} (obj : dict V) : list string :=
  fold_right insert_index [] (filter is_array_index (dict_keys obj))
  ++ filter (fun k => negb (is_array_index k)) (dict_keys obj).

End JsObject.

(* ===================================================================== *)
(** ** Stylesheet grammar: [src/parser/cssParser.js] *)
(* ===================================================================== *)

Module Css.
Import JsString.

(** *** The PostCSS tree

    Only what the extractor reads: a rule's [selector], an at-rule's [name]
    and [params], a declaration's [prop] and [value], and the [nodes] of
    containers.  The root is the list of its children; a missing tree
    ([null]) is [None]. *)
Inductive node : Type :=
| Rule (selector : string) (nodes : list node)
| AtRule (name params : string) (nodes : list node)
| Decl (prop value : string)
| Comment (text : string).

Definition root : Type := list node.

(** What [buildSelectorPath] reads of a node while it follows the [parent]
    links. *)
Inductive container : Type :=
| CRoot
| CRule (selector : string)
| CAtRule (name params : string).

(** A node together with its chain of [parent] links: the node itself
    first, the root last. *)
Definition chain : Type := list container.

(** *** Change records

    The sources push template strings; the embedding keeps the fields of
    each template in a constructor and [render] produces the string.  The
    [suffix] of a record is [Some count] exactly when the source appends
    the occurrence-count suffix, that is when [count > 1]. *)
Inductive change : Type :=
| SelectorAdded (fullPath : string) (suffix : option nat)
| SelectorRemoved (fullPath : string) (suffix : option nat)
| PropAdded (prop value : string) (suffix : option nat)
| PropRemoved (prop value : string) (suffix : option nat)
| PropChanged (prop oldValue newValue : string) (suffix : option nat)
| OverrideWarning (prop selector : string) (distinct : nat)
| ChangedToFlexbox (was : string)
| ChangedToGrid (was : string)
| ImplementedFlexbox
| ImplementedGrid
| HiddenWarning (prop value : string) (suffix : option nat)
| SubDetail (text : string).

Definition suffix_of (count : option nat) : option nat :=
  if gt1 count then count else None.

Definition render_suffix (unit : string) (suffix : option nat) : string :=
  match suffix with
  | Some c => " (" +++ nat_to_string c +++ " " +++ unit +++ ")"
  | None => EmptyString
  end.

Definition render (c : change) : string :=
  match c with
  | SelectorAdded p s => "Property added: selector " +++ p +++ render_suffix "instances" s
  | SelectorRemoved p s => "Property removed: selector " +++ p +++ render_suffix "instances" s
  | PropAdded p v s => "Property added: " +++ p +++ ": " +++ v +++ render_suffix "elements" s
  | PropRemoved p v s => "Property removed: " +++ p +++ ": " +++ v +++ render_suffix "elements" s
  | PropChanged p o n s =>
      "Property changed: " +++ p +++ " from " +++ o +++ " → " +++ n +++ render_suffix "elements" s
  | OverrideWarning p sel n =>
      "⚠ Property override detected: " +++ p +++ " in " +++ sel +++ " (" +++
      nat_to_string n +++ " different values, last wins)"
  | ChangedToFlexbox was => "Changed to Flexbox layout (was: " +++ was +++ ")"
  | ChangedToGrid was => "Changed to CSS Grid layout (was: " +++ was +++ ")"
  | ImplementedFlexbox => "Implemented Flexbox layout"
  | ImplementedGrid => "Implemented CSS Grid layout"
  | HiddenWarning p v s =>
      "⚠ Element hidden via " +++ p +++ ": " +++ v +++ render_suffix "elements" s
  | SubDetail t => "  └─ " +++ t
  end.

(** The change type of a record, in the vocabulary of the data model. *)
Inductive changeType : Type := Added | Removed | Modified | Overridden | Detail.

Definition changeType_of (c : change) : changeType :=
  match c with
  | SelectorAdded _ _ | PropAdded _ _ _ | ImplementedFlexbox | ImplementedGrid
  | HiddenWarning _ _ _ => Added
  | SelectorRemoved _ _ | PropRemoved _ _ _ => Removed
  | PropChanged _ _ _ _ | ChangedToFlexbox _ | ChangedToGrid _ => Modified
  | OverrideWarning _ _ _ => Overridden
  | SubDetail _ => Detail
  end.

Definition changeType_eqb (a b : changeType) : bool :=
  match a, b with
  | Added, Added | Removed, Removed | Modified, Modified
  | Overridden, Overridden | Detail, Detail => true
  | _, _ => false
  end.

(** The declaration property a record is about, if any. *)
Definition prop_of (c : change) : option string :=
  match c with
  | PropAdded p _ _ | PropRemoved p _ _ | PropChanged p _ _ _
  | OverrideWarning p _ _ | HiddenWarning p _ _ => Some p
  | ChangedToFlexbox _ | ChangedToGrid _ | ImplementedFlexbox | ImplementedGrid =>
      Some "display"
  | SelectorAdded _ _ | SelectorRemoved _ _ | SubDetail _ => None
  end.

Definition about (p : string) (c : change) : bool :=
  match prop_of c with Some q => String.eqb q p | None => false end.

Definition is_diff_record (c : change) : bool :=
  match changeType_of c with
  | Added | Removed | Modified => true
  | Overridden | Detail => false
  end.

(** *** Selector identity: [buildSelectorPath], [extractSelectorsWithContext] *)

(** One turn of the [while (current)] loop: [parts.unshift(...)]. *)
Definition unshiftPart (current : container) (parts : list string) : list string :=
  match current with
  | CRule selector => if truthy selector then trim selector :: parts else parts
  | CAtRule name params => ("@" +++ name +++ " " +++ params) :: parts
  | CRoot => parts
  end.

Fixpoint buildParts (current : chain) (parts : list string) : list string :=
  match current with
  | [] => parts
  | c :: parent => buildParts parent (unshiftPart c parts)
  end.

Definition buildSelectorPath (rule : chain) : string :=
  join " > " (buildParts rule []).

(** The identity key in the words of the specification: every enclosing
    rule's own selector text and every enclosing at-rule's name and
    parameters, from the root to the rule, joined by the path separator. *)
Definition contextText (c : container) : list string :=
  match c with
  | CRule selector => if truthy selector then [trim selector] else []
  | CAtRule name params => ["@" +++ name +++ " " +++ params]
  | CRoot => []
  end.

Definition ancestorPath (rule : chain) : string :=
  join " > " (flat_map contextText (rev rule)).

(** A rule met by [walkRules]: its selector, its children and its chain of
    parents (the rule itself first). *)
Record ruleRef : Type := mkRule {
  r_selector : string;
  r_nodes : list node;
  r_chain : chain
}.

(** [walkRules]: every rule below a node, depth first. *)
Fixpoint walkRules (parents : chain) (n : node) : list ruleRef :=
  match n with
  | Rule selector nodes =>
      mkRule selector nodes (CRule selector :: parents)
        :: flat_map (walkRules (CRule selector :: parents)) nodes
  | AtRule name params nodes =>
      flat_map (walkRules (CAtRule name params :: parents)) nodes
  | Decl _ _ | Comment _ => []
  end.

Definition rulesOf (ast : root) : list ruleRef :=
  flat_map (walkRules [CRoot]) ast.

Record selectorEntry : Type := mkSelector {
  selector : string;
  fullPath : string
}.

Definition extractSelectorsWithContext (ast : root) : list selectorEntry :=
  flat_map
    (fun rule =>
       if truthy (r_selector rule)
       then [mkSelector (trim (r_selector rule)) (buildSelectorPath (r_chain rule))]
       else [])
    (rulesOf ast).

(** *** [compareSelectorsWithContext] *)

Definition selectorMap (sels : list selectorEntry) : dict nat :=
  fold_left (fun m sel => dict_incr m (fullPath sel)) sels [].

(** One of the two [forEach] loops over a selector map: a record for
    every path the other map does not have. *)
Definition selectorRecords (mk : string -> option nat -> change)
    (other m : dict nat) : list change :=
  flat_map (fun '(fullPath, count) =>
              if negb (dict_has other fullPath)
              then [mk fullPath (suffix_of (Some count))] else [])
           m.

Definition compareSelectorsWithContext (oldAST newAST : option root) : list change :=
  let oldSelectors := match oldAST with Some a => extractSelectorsWithContext a | None => [] end in
  let newSelectors := match newAST with Some a => extractSelectorsWithContext a | None => [] end in
  let oldSelectorMap := selectorMap oldSelectors in
  let newSelectorMap := selectorMap newSelectors in
  selectorRecords SelectorAdded oldSelectorMap newSelectorMap
  ++ selectorRecords SelectorRemoved newSelectorMap oldSelectorMap.

(** *** The value normalizer: [normalizeValue] *)

Definition is_hex_digit (c : ascii) : bool :=
  let n := nat_of_ascii c in
  is_digit c || ((97 <=? n) && (n <=? 102)) || ((65 <=? n) && (n <=? 70)).

Fixpoint all_chars (f : ascii -> bool) (s : string) : bool :=
  match s with
  | EmptyString => true
  | String c s' => f c && all_chars f s'
  end.

(** [/^#([0-9a-f]{3})$/i] *)
Definition is_hex3 (val : string) : bool :=
  match val with
  | String "#" rgb => (String.length rgb =? 3) && all_chars is_hex_digit rgb
  | _ => false
  end.

(** [/^#[0-9a-f]{6}$/i] *)
Definition is_hex6 (val : string) : bool :=
  match val with
  | String "#" rgb => (String.length rgb =? 6) && all_chars is_hex_digit rgb
  | _ => false
  end.

(** The text before the first ".", and the text after it. *)
Fixpoint split_point (s : string) : option (string * string) :=
  match s with
  | EmptyString => None
  | String c s' =>
      if Ascii.eqb c "." then Some (EmptyString, s')
      else match split_point s' with
           | Some (a, b) => Some (String c a, b)
           | None => None
           end
  end.

(** [/^\d*\.\d+$/]: the integer and fraction digits of a bare decimal. *)
Definition decimal_parts (val : string) : option (string * string) :=
  match split_point val with
  | Some (a, b) =>
      if all_chars is_digit a && all_chars is_digit b && truthy b
      then Some (a, b) else None
  | None => None
  end.

(** [/^0(px|em|rem|%|vh|vw)?$/] *)
Definition is_zero (val : string) : bool :=
  match val with
  | String "0" u => mem u [EmptyString; "px"; "em"; "rem"; "%"; "vh"; "vw"]
  | _ => false
  end.

(** [`#${rgb[0]}${rgb[0]}${rgb[1]}${rgb[1]}${rgb[2]}${rgb[2]}`] *)
Fixpoint double_chars (rgb : string) : string :=
  match rgb with
  | EmptyString => EmptyString
  | String c s' => String c (String c (double_chars s'))
  end.

Definition normalizeValue (value : string) (prop : string) : string :=
  if isEmpty value then value else
  let val := toLowerCase (trim value) in
  if is_hex3 val then "#" +++ double_chars (substring_from 1 val)
  else if is_hex6 val then toLowerCase val
  else match decimal_parts val with
       | Some (a, b) => JsNumber.toFixed2 (JsNumber.parseFloat a b)
       | None =>
           if is_zero val then "0"
           else if startsWith val "rgb" then removeSpaces val
           else val
       end.

(** What the first step of the normalizer, [value.trim().toLowerCase()],
    leaves unchanged. *)
Definition canonical (val : string) : Prop :=
  trim val = val /\ toLowerCase val = val.

(** *** Declarations: [extractDeclarations], [detectDuplicateProperties] *)

(** [walkDecls]: every declaration below a node, depth first. *)
Fixpoint walkDecls (n : node) : list (string * string) :=
  match n with
  | Rule _ nodes => flat_map walkDecls nodes
  | AtRule _ _ nodes => flat_map walkDecls nodes
  | Decl prop value => [(prop, value)]
  | Comment _ => []
  end.

Definition declsOf (ast : root) : list (string * string) := flat_map walkDecls ast.

(** [props[prop] || []] *)
Definition valuesOf (props : dict (list string)) (prop : string) : list string :=
  match dict_get props prop with Some l => l | None => [] end.

(** [props[decl.prop].push(decl.value)], creating the array when missing. *)
Definition pushValue (props : dict (list string)) (d : string * string)
  : dict (list string) :=
  dict_set props (fst d) (valuesOf props (fst d) ++ [snd d]).

Definition extractDeclarations (ast : root) : dict (list string) :=
  fold_left pushValue (declsOf ast) [].

(** The body of [rule.walkDecls] in [detectDuplicateProperties]: [propMap]
    keeps the first value of a property, [duplicates] the first value
    followed by every later one. *)
Definition noteDecl (st : dict string * dict (list string)) (d : string * string)
  : dict string * dict (list string) :=
  let '(propMap, duplicates) := st in
  let '(prop, value) := d in
  match dict_get propMap prop with
  | Some first =>
      let duplicates' :=
        if dict_has duplicates prop then duplicates
        else dict_set duplicates prop [first] in
      (propMap, dict_set duplicates' prop (valuesOf duplicates' prop ++ [value]))
  | None => (dict_set propMap prop value, duplicates)
  end.

Definition duplicatesOfRule (rule : ruleRef) : list change :=
  let duplicates := snd (fold_left noteDecl (flat_map walkDecls (r_nodes rule)) ([], [])) in
  flat_map
    (fun '(prop, values) =>
       let selector := buildSelectorPath (r_chain rule) in
       let uniqueValues := unique (map (fun v => normalizeValue v prop) values) in
       if 1 <? List.length uniqueValues
       then [OverrideWarning prop selector (List.length uniqueValues)]
       else [])
    duplicates.

Definition detectDuplicateProperties (ast : root) : list change :=
  flat_map duplicatesOfRule (rulesOf ast).

(** *** Layout sub-details: [analyzeFlexboxProperties], [analyzeGridProperties] *)

Definition isFlexProp (prop : string) : bool :=
  startsWith prop "flex-" ||
  mem prop ["justify-content"; "align-items"; "align-content"; "gap"].

Definition flexPropsOf (ast : root) : dict string :=
  fold_left (fun m '(prop, value) => if isFlexProp prop then dict_set m prop value else m)
            (declsOf ast) [].

(** [if (flexProps[k])]: the key is present and its value is not empty. *)
Definition truthyAt (m : dict string) (k : string) : option string :=
  match dict_get m k with
  | Some v => if truthy v then Some v else None
  | None => None
  end.

Definition analyzeFlexboxProperties (ast : root) : list change :=
  let flexProps := flexPropsOf ast in
  (match dict_get flexProps "flex-direction" with
   | Some v => if String.eqb v "column" then [SubDetail "Column layout"] else []
   | None => []
   end) ++
  (match truthyAt flexProps "justify-content" with
   | Some v => [SubDetail ("Justify: " +++ v)] | None => [] end) ++
  (match truthyAt flexProps "align-items" with
   | Some v => [SubDetail ("Align: " +++ v)] | None => [] end) ++
  (match truthyAt flexProps "gap" with
   | Some v => [SubDetail ("Gap: " +++ v)] | None => [] end).

(** *** Grid column counting: [countGridColumns], [countColumnsInTemplate] *)

(** The rest of [s] after the prefix [p], if [s] starts with [p]. *)
Fixpoint strip_prefix (p s : string) : option string :=
  match p, s with
  | EmptyString, _ => Some s
  | String a p', String b s' => if Ascii.eqb a b then strip_prefix p' s' else None
  | String _ _, EmptyString => None
  end.

(** The longest prefix whose characters satisfy [f], and the rest. *)
Fixpoint span (f : ascii -> bool) (s : string) : string * string :=
  match s with
  | EmptyString => (EmptyString, EmptyString)
  | String c s' =>
      if f c then let '(a, b) := span f s' in (String c a, b)
      else (EmptyString, s)
  end.

(** [.] matches any character but a line terminator. *)
Definition is_line_terminator (c : ascii) : bool :=
  (nat_of_ascii c =? 10) || (nat_of_ascii c =? 13).

Definition not_rparen (c : ascii) : bool := negb (Ascii.eqb c ")").

(** [(.+?)\)]: the shortest non-empty run of [.] that is followed by ")". *)
Fixpoint lazy_template (s : string) : option string :=
  match s with
  | EmptyString => None
  | String c s' =>
      if is_line_terminator c then None
      else match s' with
           | String ")" _ => Some (String c EmptyString)
           | _ => match lazy_template s' with
                  | Some t => Some (String c t)
                  | None => None
                  end
           end
  end.

(** [\s*(.+?)\)]: the greedy [\s*] gives characters back when the rest
    cannot match otherwise. *)
Fixpoint ws_template (s : string) : option string :=
  match s with
  | EmptyString => None
  | String c s' =>
      if is_space c
      then match ws_template s' with
           | Some t => Some t
           | None => lazy_template s
           end
      else lazy_template s
  end.

(** [(\d+|auto-fill|auto-fit)] *)
Definition repeat_count (s : string) : option (string * string) :=
  let '(digits, rest) := span is_digit s in
  if truthy digits then Some (digits, rest)
  else match strip_prefix "auto-fill" s with
       | Some rest => Some ("auto-fill", rest)
       | None =>
           match strip_prefix "auto-fit" s with
           | Some rest => Some ("auto-fit", rest)
           | None => None
           end
       end.

Definition match_repeat_at (s : string) : option (string * string) :=
  match strip_prefix "repeat(" s with
  | Some s1 =>
      match repeat_count s1 with
      | Some (count, s2) =>
          match strip_prefix "," s2 with
          | Some s3 =>
              match ws_template s3 with
              | Some template => Some (count, template)
              | None => None
              end
          | None => None
          end
      | None => None
      end
  | None => None
  end.

(** [val.match(/repeat\((\d+|auto-fill|auto-fit),\s*(.+?)\)/)]: the groups
    of the leftmost match. *)
Fixpoint find_repeat (s : string) : option (string * string) :=
  match match_repeat_at s with
  | Some r => Some r
  | None => match s with
            | EmptyString => None
            | String _ s' => find_repeat s'
            end
  end.

(** A match of [name\([^)]+\)] at the head of [s]: what follows it. *)
Definition after_call (name s : string) : option string :=
  match strip_prefix (name +++ "(") s with
  | Some s1 =>
      let '(body, s2) := span not_rparen s1 in
      if truthy body then strip_prefix ")" s2 else None
  | None => None
  end.

(** [val.replace(/repeat\([^)]+\)/, '')]: the leftmost match is removed. *)
Fixpoint remove_first_repeat (s : string) : string :=
  match after_call "repeat" s with
  | Some rest => rest
  | None => match s with
            | EmptyString => EmptyString
            | String c s' => String c (remove_first_repeat s')
            end
  end.

(** [s.replace(/name\([^)]+\)/g, 'COL')]; [skip] counts the characters of
    the current match that are still to be passed over. *)
Fixpoint replace_calls (name : string) (skip : nat) (s : string) : string :=
  match s with
  | EmptyString => EmptyString
  | String c s' =>
      match skip with
      | S k => replace_calls name k s'
      | O =>
          match after_call name s with
          | Some rest =>
              "COL" +++ replace_calls name (String.length s - String.length rest - 1) s'
          | None => String c (replace_calls name 0 s')
          end
      end
  end.

Definition countColumnsInTemplate (template : string) : nat :=
  if isEmpty template || isEmpty (trim template) then 0
  else
    let cleaned := replace_calls "minmax" 0 template in
    let cleaned := replace_calls "fit-content" 0 cleaned in
    let cleaned := replace_calls "clamp" 0 cleaned in
    List.length (filter (fun p => negb (String.eqb p "|")) (words cleaned)).

(** A character of a template without nested functions, and a string
    whose head fails [f] (or that is empty). *)
Definition plain_char (c : ascii) : bool :=
  negb (is_line_terminator c) && not_rparen c.

Definition stops (f : ascii -> bool) (s : string) : Prop :=
  match s with
  | EmptyString => True
  | String c _ => f c = false
  end.

(** The value returned for [auto-fill] and [auto-fit]. *)
Definition indeterminate : Z := (-1)%Z.

(** [parseInt(count, 10) * templateColumns] is computed in [Z]: the value
    of the code as long as the factor and the product stay below 2^53,
    where the arithmetic of binary64 is exact. *)
Definition countGridColumns (value : string) : Z :=
  if isEmpty value then 0%Z else
  let val := trim value in
  match find_repeat val with
  | Some (count, template) =>
      if String.eqb count "auto-fill" || String.eqb count "auto-fit"
      then indeterminate
      else
        let repeatCount := JsNumber.digits_value count in
        let templateColumns := countColumnsInTemplate template in
        let remaining := trim (remove_first_repeat val) in
        (repeatCount * Z.of_nat templateColumns
         + (if truthy remaining then Z.of_nat (countColumnsInTemplate remaining) else 0))%Z
  | None => Z.of_nat (countColumnsInTemplate val)
  end.

Definition analyzeGridProperties (ast : root) : list change :=
  flat_map
    (fun '(prop, value) =>
       (if String.eqb prop "grid-template-columns"
        then let columns := countGridColumns value in
             if (0 <? columns)%Z
             then [SubDetail (Z_to_string columns +++ " column grid")]
             else [SubDetail ("Grid columns: " +++ value)]
        else []) ++
       (if String.eqb prop "gap" || String.eqb prop "grid-gap"
        then [SubDetail ("With gap spacing: " +++ value)] else []) ++
       (if String.eqb prop "grid-template-rows"
        then [SubDetail ("Row template: " +++ value)] else []))
    (declsOf ast).

(** *** Special-cased properties: [handleDisplayChanges], [handleSpecialProperty] *)

(** [oldVals.length === 1 && newVals.length === 1 && oldVals[0] !== newVals[0]] *)
Definition oneToOne (oldVals newVals : list string) : option (string * string) :=
  match oldVals, newVals with
  | [o], [n] => if String.eqb o n then None else Some (o, n)
  | _, _ => None
  end.

(** [counts] is the dictionary the caller passes: [compareDeclarations]
    passes the counts of the new values. *)
Definition handleDisplayChanges (newVals oldVals : list string) (counts : dict nat)
    (ast : root) : list change :=
  match oneToOne oldVals newVals with
  | Some (o, n) =>
      if String.eqb n "flex" then ChangedToFlexbox o :: analyzeFlexboxProperties ast
      else if String.eqb n "grid" then ChangedToGrid o :: analyzeGridProperties ast
      else [PropChanged "display" o n None]
  | None =>
      flat_map
        (fun value =>
           if negb (mem value oldVals) then
             let count := dict_get counts value in
             if String.eqb value "flex" then ImplementedFlexbox :: analyzeFlexboxProperties ast
             else if String.eqb value "grid" then ImplementedGrid :: analyzeGridProperties ast
             else if String.eqb value "none" then [HiddenWarning "display" "none" (suffix_of count)]
             else [PropAdded "display" value (suffix_of count)]
           else [])
        newVals
      ++
      flat_map
        (fun value =>
           if negb (mem value newVals) then
             let count := dict_get counts value in
             [PropRemoved "display" value (suffix_of count)]
           else [])
        oldVals
  end.

Definition handleSpecialProperty (prop : string) (newVals oldVals : list string)
    (newCounts oldCounts : dict nat) : list change :=
  match oneToOne oldVals newVals with
  | Some (o, n) => [PropChanged prop o n None]
  | None =>
      flat_map
        (fun value =>
           if negb (mem value oldVals) then
             let count := dict_get newCounts value in
             if String.eqb prop "visibility" && String.eqb value "hidden"
             then [HiddenWarning "visibility" "hidden" (suffix_of count)]
             else [PropAdded prop value (suffix_of count)]
           else [])
        newVals
      ++
      flat_map
        (fun value =>
           if negb (mem value newVals) then
             let count := dict_get oldCounts value in
             [PropRemoved prop value (suffix_of count)]
           else [])
        oldVals
  end.

(** *** Animation and typography passes: [analyzeAnimations], [analyzeTypography]

    Both compare the raw declaration values (no normalization), with the
    same loop body. *)

Definition isAnimationProp (prop : string) : bool :=
  startsWith prop "animation" || String.eqb prop "transition" || String.eqb prop "transform".

Definition typographyProps : list string :=
  ["font-family"; "font-size"; "font-weight"; "line-height";
   "letter-spacing"; "text-align"; "text-transform"; "text-decoration"].

(** [extractAnimationProps] and [extractTypographyProps]: the declarations
    whose property satisfies [keep], grouped by property. *)
Definition extractProps (keep : string -> bool) (ast : root) : dict (list string) :=
  fold_left pushValue (filter (fun d => keep (fst d)) (declsOf ast)) [].

Definition extractAnimationProps : root -> dict (list string) :=
  extractProps isAnimationProp.

Definition extractTypographyProps (ast : root) (props : list string) : dict (list string) :=
  extractProps (fun p => mem p props) ast.

(** [vals.filter(v => v === value).length] *)
Definition occurrences (value : string) (vals : list string) : nat :=
  List.length (filter (String.eqb value) vals).

Definition rawValueChanges (prop : string) (newVals oldVals : list string) : list change :=
  let newUnique := unique newVals in
  let oldUnique := unique oldVals in
  match oneToOne oldUnique newUnique with
  | Some (o, n) => [PropChanged prop o n None]
  | None =>
      let addedVals := filter (fun v => negb (mem v oldUnique)) newUnique in
      let removedVals := filter (fun v => negb (mem v newUnique)) oldUnique in
      map (fun value => PropAdded prop value (suffix_of (Some (occurrences value newVals))))
          addedVals
      ++
      map (fun value => PropRemoved prop value (suffix_of (Some (occurrences value oldVals))))
          removedVals
  end.

Definition analyzeAnimations (newAST : root) (oldAST : option root) : list change :=
  let newAnimProps := extractAnimationProps newAST in
  let oldAnimProps := match oldAST with Some a => extractAnimationProps a | None => [] end in
  let allProps := unique (dict_keys newAnimProps ++ dict_keys oldAnimProps) in
  flat_map
    (fun prop => rawValueChanges prop (valuesOf newAnimProps prop) (valuesOf oldAnimProps prop))
    allProps.

Definition analyzeTypography (newAST : root) (oldAST : option root) : list change :=
  let newTypo := extractTypographyProps newAST typographyProps in
  let oldTypo := match oldAST with
                 | Some a => extractTypographyProps a typographyProps
                 | None => []
                 end in
  flat_map
    (fun prop => rawValueChanges prop (valuesOf newTypo prop) (valuesOf oldTypo prop))
    (dict_keys newTypo).

(** *** [compareDeclarations] *)

Definition specialProps : list string := ["position"; "visibility"; "opacity"; "z-index"].

(** The records with their occurrence count, for added or removed values. *)
Definition countedRecords (mk : string -> option nat -> change)
    (counts : dict nat) (values : list string) : list change :=
  map (fun value => mk value (suffix_of (dict_get counts value))) values.

(** The body of [allProps.forEach]. *)
Definition compareProperty (oldProps newProps : dict (list string))
    (newAST : option root) (prop : string) : list change :=
  if isAnimationProp prop then [] else
  let oldVals := map (fun v => normalizeValue v prop) (valuesOf oldProps prop) in
  let newVals := map (fun v => normalizeValue v prop) (valuesOf newProps prop) in
  let oldUnique := unique oldVals in
  let newUnique := unique newVals in
  let oldCounts := countValues oldVals in
  let newCounts := countValues newVals in
  if String.eqb prop "display" then
    handleDisplayChanges newUnique oldUnique newCounts
      (match newAST with Some a => a | None => [] end)
  else if mem prop specialProps then
    handleSpecialProperty prop newUnique oldUnique newCounts oldCounts
  else
    let addedValues := filter (fun v => negb (mem v oldUnique)) newUnique in
    let removedValues := filter (fun v => negb (mem v newUnique)) oldUnique in
    match oneToOne oldUnique newUnique with
    | Some (o, n) =>
        let totalCount := Nat.max (List.length oldVals) (List.length newVals) in
        [PropChanged prop o n (suffix_of (Some totalCount))]
    | None =>
        if (List.length oldUnique =? 0) && (0 <? List.length newUnique) then
          countedRecords (PropAdded prop) newCounts newUnique
        else if (List.length newUnique =? 0) && (0 <? List.length oldUnique) then
          countedRecords (PropRemoved prop) oldCounts oldUnique
        else
          countedRecords (PropAdded prop) newCounts addedValues ++
          countedRecords (PropRemoved prop) oldCounts removedValues
    end.

Definition compareDeclarations (oldAST newAST : option root) : list change :=
  let duplicateWarnings :=
    match newAST with Some a => detectDuplicateProperties a | None => [] end in
  let oldProps := match oldAST with Some a => extractDeclarations a | None => [] end in
  let newProps := match newAST with Some a => extractDeclarations a | None => [] end in
  let allProps := unique (dict_keys oldProps ++ dict_keys newProps) in
  duplicateWarnings
  ++ flat_map (compareProperty oldProps newProps newAST) allProps
  ++ match newAST with
     | Some a => analyzeAnimations a oldAST ++ analyzeTypography a oldAST
     | None => []
     end.

(** The distinct normalized values a version declares for a property, and
    the Added, Removed and Modified records of a diff that are about a
    property. *)
Definition distinctValues (ast : root) (prop : string) : list string :=
  unique (map (fun v => normalizeValue v prop) (valuesOf (extractDeclarations ast) prop)).

Definition recordsAbout (prop : string) (changes : list change) : list change :=
  filter (fun c => is_diff_record c && about prop c) changes.

(** The single Modified record of a 1-to-1 value change from [x] to [y]:
    the handlers of [display] and of the special properties word it in
    their own way and give no count. *)
Definition collapsedRecord (prop x y : string) (total : nat) : change :=
  if String.eqb prop "display" then
    if String.eqb y "flex" then ChangedToFlexbox x
    else if String.eqb y "grid" then ChangedToGrid x
    else PropChanged "display" x y None
  else if mem prop specialProps then PropChanged prop x y None
  else PropChanged prop x y (suffix_of (Some total)).

(** The mirror image of a record: what the diff in the other direction
    should hold in its place. *)
Definition mirror (c : change) : change :=
  match c with
  | SelectorAdded p s => SelectorRemoved p s
  | SelectorRemoved p s => SelectorAdded p s
  | PropAdded p v s => PropRemoved p v s
  | PropRemoved p v s => PropAdded p v s
  | PropChanged p o n s => PropChanged p n o s
  | other => other
  end.

Definition hasType (t : changeType) (c : change) : bool :=
  changeType_eqb (changeType_of c) t.

(** *** The diff-text fallback: [parseCSSWithDiffFallback] *)

Definition newline : string := String (ascii_of_nat 10) EmptyString.

Definition is_prop_char (c : ascii) : bool := is_word c || Ascii.eqb c "-".

Definition not_semi_brace (c : ascii) : bool :=
  negb (Ascii.eqb c ";" || Ascii.eqb c "{").

(** A match of [([\w-]+)\s*:\s*([^;{]+)] at the head of [s]: the matched
    text.  White space also belongs to [[^;{]], so the second [\s*] never
    decides whether there is a match. *)
Definition match_property_at (s : string) : option string :=
  let '(name, s1) := span is_prop_char s in
  if truthy name then
    let '(ws, s2) := span is_space s1 in
    match strip_prefix ":" s2 with
    | Some s3 =>
        let '(body, _) := span not_semi_brace s3 in
        if truthy body then Some (name +++ ws +++ ":" +++ body) else None
    | None => None
    end
  else None.

(** [addedContent.match(/([\w-]+)\s*:\s*([^;{]+)/g)]: all matches, left to
    right, without overlap ([null] is modelled by the empty list). *)
Fixpoint propertyMatches (skip : nat) (s : string) : list string :=
  match s with
  | EmptyString => []
  | String _ s' =>
      match skip with
      | S k => propertyMatches k s'
      | O =>
          match match_property_at s with
          | Some text => text :: propertyMatches (String.length text - 1) s'
          | None => propertyMatches 0 s'
          end
      end
  end.

(** [match.match(/([\w-]+)\s*:/)[1].trim()] on a text matched above. *)
Definition propertyName (text : string) : string :=
  trim (fst (span is_prop_char text)).

Definition parseCSSWithDiffFallback (diffContent filepath : string) : list string :=
  let lines := split_on (ascii_of_nat 10) diffContent in
  let addedLines :=
    map (fun line => trim (substring_from 1 line))
        (filter (fun line => startsWith line "+" && negb (startsWith line "+++")) lines) in
  let addedContent := join newline addedLines in
  let matches := propertyMatches 0 addedContent in
  let changes1 :=
    if 0 <? List.length matches then
      let properties :=
        unique (filter (fun prop => negb (startsWith prop "@") && (0 <? String.length prop))
                       (map propertyName matches)) in
      if 0 <? List.length properties then
        if List.length properties <=? 5
        then map (fun prop => "Property modified: " +++ prop) properties
        else ["Component visual changes detected (" +++
              nat_to_string (List.length properties) +++ " properties modified)"]
      else ["Component visual changes detected"]
    else ["Component visual changes detected"] in
  let changes2 :=
    if includes addedContent "@media" then ["Responsive design changes detected"] else [] in
  let changes3 :=
    if includes addedContent "@keyframes" then ["Animation changes detected"] else [] in
  let changes4 :=
    if includes addedContent "display:" || includes addedContent "display :" then
      (if includes addedContent "flex" then ["Possible Flexbox layout changes"] else []) ++
      (if includes addedContent "grid" then ["Possible Grid layout changes"] else [])
    else [] in
  let changes := changes1 ++ changes2 ++ changes3 ++ changes4 in
  if 0 <? List.length changes then changes else ["Component visual changes detected"].

(** *** The stylesheet entry point: [parseCSS]

    The full-file pass reads the repository and runs PostCSS; it is a
    parameter of the controller.  [parseCSSWith] is the controller with
    both passes as parameters, [parseCSS] the one of the sources, where
    the fallback pass is [parseCSSWithDiffFallback]. *)
Section EntryPoint.

Variable parseCSSWithFullFileAST :
  string -> string -> string -> outcome (list string).

Definition parseCSSWith (fallback : string -> string -> outcome (list string))
    (diff filepath targetBranch : string) : outcome (list string) :=
  if isEmpty diff then Return [] else
  let diffContent := diff in
  if isEmpty diffContent then Return [] else
  Js.try_catch
    (changes <- parseCSSWithFullFileAST diffContent filepath targetBranch ;;
     if 0 <? List.length changes then Return changes
     else Throw "No changes detected by full-file AST")
    (fun astError =>
       Js.try_catch
         (changes <- fallback diffContent filepath ;; Return changes)
         (fun fallbackError => Return ["Component visual changes detected"])).

Definition parseCSS : string -> string -> string -> outcome (list string) :=
  parseCSSWith (fun diffContent filepath =>
                  Return (parseCSSWithDiffFallback diffContent filepath)).

End EntryPoint.

Import JsObject.

(** *** At-rules: [extractAtRules], [compareAtRules] *)

(** [walkAtRules]: every at-rule below a node, depth first, as its [name]
    and [params]. *)
Fixpoint walkAtRules (n : node) : list (string * string) :=
  match n with
  | Rule _ nodes => flat_map walkAtRules nodes
  | AtRule name params nodes => (name, params) :: flat_map walkAtRules nodes
  | Decl _ _ | Comment _ => []
  end.

Record atRules : Type := mkAtRules {
  media : list string;
  keyframes : list string;
  import : list string;
  fontFace : list string;
  supports : list string;
  container_ : list string
}.

Definition noAtRules : atRules := mkAtRules [] [] [] [] [] [].

Definition is_quote (c : ascii) : bool :=
  Ascii.eqb c "'" || (nat_of_ascii c =? 34).

(** [params.replace] with the class of both quote characters, [g] flag:
    every quote is removed. *)
Fixpoint removeQuotes (s : string) : string :=
  match s with
  | EmptyString => EmptyString
  | String c s' => if is_quote c then removeQuotes s' else String c (removeQuotes s')
  end.

(** The body of [ast.walkAtRules]: the [switch] on the name. *)
Definition noteAtRule (rules : atRules) (r : string * string) : atRules :=
  let '(name, params) := r in
  if String.eqb name "media" then
    mkAtRules (media rules ++ [params]) (keyframes rules) (import rules)
              (fontFace rules) (supports rules) (container_ rules)
  else if String.eqb name "keyframes" then
    mkAtRules (media rules) (keyframes rules ++ [params]) (import rules)
              (fontFace rules) (supports rules) (container_ rules)
  else if String.eqb name "import" then
    mkAtRules (media rules) (keyframes rules) (import rules ++ [removeQuotes params])
              (fontFace rules) (supports rules) (container_ rules)
  else if String.eqb name "font-face" then
    mkAtRules (media rules) (keyframes rules) (import rules)
              (fontFace rules ++ ["font-face"]) (supports rules) (container_ rules)
  else if String.eqb name "supports" then
    mkAtRules (media rules) (keyframes rules) (import rules)
              (fontFace rules) (supports rules ++ [params]) (container_ rules)
  else if String.eqb name "container" then
    mkAtRules (media rules) (keyframes rules) (import rules)
              (fontFace rules) (supports rules) (container_ rules ++ [params])
  else rules.

Definition extractAtRules (ast : root) : atRules :=
  fold_left noteAtRule (flat_map walkAtRules ast) noAtRules.

(** [/prefers-color-scheme:\s*dark/.test(params)] *)
Fixpoint darkMode (params : string) : bool :=
  match strip_prefix "prefers-color-scheme:" params with
  | Some rest => startsWith (snd (span is_space rest)) "dark"
  | None => false
  end
  || match params with
     | EmptyString => false
     | String _ s' => darkMode s'
     end.

Definition compareAtRules (oldAST newAST : option root) : list string :=
  let oldAtRules := match oldAST with Some a => extractAtRules a | None => noAtRules end in
  let newAtRules := match newAST with Some a => extractAtRules a | None => noAtRules end in
  let addedMedia := filter (fun m => negb (mem m (media oldAtRules))) (media newAtRules) in
  let removedMedia := filter (fun m => negb (mem m (media newAtRules))) (media oldAtRules) in
  let addedKeyframes :=
    filter (fun k => negb (mem k (keyframes oldAtRules))) (keyframes newAtRules) in
  let removedKeyframes :=
    filter (fun k => negb (mem k (keyframes newAtRules))) (keyframes oldAtRules) in
  let addedImports := filter (fun i => negb (mem i (import oldAtRules))) (import newAtRules) in
  let removedImports := filter (fun i => negb (mem i (import newAtRules))) (import oldAtRules) in
  flat_map (fun params =>
              ("Property added: @media " +++ params)
                :: (if darkMode params then ["✓ Added dark mode support"] else []))
           addedMedia
  ++ map (fun params => "Property removed: @media " +++ params) removedMedia
  ++ map (fun name => "Property added: @keyframes " +++ name) addedKeyframes
  ++ map (fun name => "Property removed: @keyframes " +++ name) removedKeyframes
  ++ (if List.length (fontFace oldAtRules) <? List.length (fontFace newAtRules)
      then let diff := List.length (fontFace newAtRules) - List.length (fontFace oldAtRules) in
           ["Property added: @font-face (" +++ nat_to_string diff +++ " custom font" +++
            (if 1 <? diff then "s" else EmptyString) +++ ")"]
      else [])
  ++ map (fun url => "Property added: @import " +++ url) addedImports
  ++ map (fun url => "Property removed: @import " +++ url) removedImports.

(** *** Rebuilding both versions from the diff: [reconstructFromDiff] *)

(** What the function may be handed: the diff text, an object with a
    [diff] text, an object with [hunks] (each a list of [lines]), or
    anything else. *)
Inductive diffInput : Type :=
| DiffText (text : string)
| DiffObject (diff : option string) (hunks : option (list (list string)))
| DiffOther.

(** One turn of the loop over the lines; the state is [oldLines] and
    [newLines]. *)
Definition reconstructStep (st : list string * list string) (line : string)
  : list string * list string :=
  let '(oldLines, newLines) := st in
  if startsWith line "@@" then st
  else if startsWith line "+++" then st
  else if startsWith line "---" then st
  else if startsWith line "+" then (oldLines, newLines ++ [substring_from 1 line])
  else if startsWith line "-" then (oldLines ++ [substring_from 1 line], newLines)
  else
    let contextLine := if startsWith line " " then substring_from 1 line else line in
    (oldLines ++ [contextLine], newLines ++ [contextLine]).

(** The result is the pair [(oldContent, newContent)]. *)
Definition reconstructFromDiff (diff : diffInput) : string * string :=
  let diffText :=
    match diff with
    | DiffText text => Some text
    | DiffObject (Some text) hunks =>
        if truthy text then Some text
        else match hunks with
             | Some hs => Some (join newline (map (join newline) hs))
             | None => None
             end
    | DiffObject None (Some hs) => Some (join newline (map (join newline) hs))
    | DiffObject None None => None
    | DiffOther => None
    end in
  match diffText with
  | None => (EmptyString, EmptyString)
  | Some text =>
      let '(oldLines, newLines) :=
        fold_left reconstructStep (split_on (ascii_of_nat 10) text) ([], []) in
      (join newline oldLines, join newline newLines)
  end.

(** A line of the body of a unified diff, and the text it is written as. *)
Inductive diffLine : Type :=
| OldFileHeader (name : string)
| NewFileHeader (name : string)
| HunkHeader (header : string)
| ContextLine (text : string)
| AddedLine (text : string)
| RemovedLine (text : string).

Definition writeLine (l : diffLine) : string :=
  match l with
  | OldFileHeader name => "---" +++ name
  | NewFileHeader name => "+++" +++ name
  | HunkHeader header => "@@" +++ header
  | ContextLine text => " " +++ text
  | AddedLine text => "+" +++ text
  | RemovedLine text => "-" +++ text
  end.

(** The lines of the old and of the new version that a diff body spells out. *)
Definition oldSide (l : diffLine) : list string :=
  match l with ContextLine text | RemovedLine text => [text] | _ => [] end.

Definition newSide (l : diffLine) : list string :=
  match l with ContextLine text | AddedLine text => [text] | _ => [] end.

(** The lines of a diff body for which the reconstruction is exact: no
    line break inside a line, no removed line that starts with "--" and no
    added line that starts with "++" (written out they would read as file
    headers). *)
Definition faithfulLine (l : diffLine) : Prop :=
  (forall text, In text (oldSide l ++ newSide l) -> includes text newline = false)
  /\ match l with
     | OldFileHeader name | NewFileHeader name | HunkHeader name => includes name newline = false
     | AddedLine text => startsWith text "++" = false
     | RemovedLine text => startsWith text "--" = false
     | ContextLine _ => True
     end.

(** *** SCSS features: variables, mixins, nesting depth *)

Definition not_semicolon (c : ascii) : bool := negb (Ascii.eqb c ";").

(** A match of the variable pattern, [$name: value;], at the head of [s]:
    the name, the trimmed value and the length of the match.  The value
    runs up to the next semicolon and may not be empty; the white space
    after the colon belongs to it when nothing else does. *)
Definition match_variable_at (s : string) : option (string * string * nat) :=
  match strip_prefix "$" s with
  | Some s1 =>
      let '(name, s2) := span is_prop_char s1 in
      if truthy name then
        match strip_prefix ":" s2 with
        | Some s3 =>
            let '(body, s4) := span not_semicolon s3 in
            if truthy body && startsWith s4 ";"
            then Some (name, trim body, String.length name + String.length body + 3)
            else None
        | None => None
        end
      else None
  | None => None
  end.

(** The [while ((match = regex.exec(content)) !== null)] loop: all
    matches, left to right, without overlap; [skip] counts the characters
    of the current match that are still to be passed over. *)
Fixpoint variableMatches (skip : nat) (s : string) : list (string * string) :=
  match s with
  | EmptyString => []
  | String _ s' =>
      match skip with
      | S k => variableMatches k s'
      | O =>
          match match_variable_at s with
          | Some (name, value, len) => (name, value) :: variableMatches (len - 1) s'
          | None => variableMatches 0 s'
          end
      end
  end.

(** [if (!vars[varName]) vars[varName] = []; vars[varName].push(value)]:
    a name that [Object.prototype] defines is found there, and the member
    found has no [push]. *)
Definition addVariable (vars : dict (list string)) (m : string * string)
  : outcome (dict (list string)) :=
  let '(varName, value) := m in
  match dict_get vars varName with
  | Some values => Return (dict_set vars varName (values ++ [value]))
  | None =>
      if mem varName objectPrototypeKeys
      then Throw "TypeError: vars[varName].push is not a function"
      else Return (dict_set vars varName [value])
  end.

Fixpoint addVariables (vars : dict (list string)) (ms : list (string * string))
  : outcome (dict (list string)) :=
  match ms with
  | [] => Return vars
  | m :: rest => vars' <- addVariable vars m ;; addVariables vars' rest
  end.

Definition extractSCSSVariablesWithDuplicates (content : string)
  : outcome (dict (list string)) :=
  addVariables [] (variableMatches 0 content).

(** A match of [directive\s+([\w-]+)] at the head of [s]: the name and the
    length of the match. *)
Definition match_directive_at (directive s : string) : option (string * nat) :=
  match strip_prefix directive s with
  | Some s1 =>
      let '(ws, s2) := span is_space s1 in
      let '(name, _) := span is_prop_char s2 in
      if truthy ws && truthy name
      then Some (name, String.length directive + String.length ws + String.length name)
      else None
  | None => None
  end.

Fixpoint directiveMatches (directive : string) (skip : nat) (s : string) : list string :=
  match s with
  | EmptyString => []
  | String _ s' =>
      match skip with
      | S k => directiveMatches directive k s'
      | O =>
          match match_directive_at directive s with
          | Some (name, len) => name :: directiveMatches directive (len - 1) s'
          | None => directiveMatches directive 0 s'
          end
      end
  end.

Definition extractMixins (content : string) : list string :=
  directiveMatches "@mixin" 0 content.

Definition extractMixinIncludes (content : string) : list string :=
  directiveMatches "@include" 0 content.

(** The state of the scan of [detectNestingDepth]. *)
Record scan : Type := mkScan {
  maxDepth : Z;
  currentDepth : Z;
  inString : bool;
  inComment : bool;
  stringChar : option ascii
}.

Definition char_is (c : ascii) (o : option ascii) : bool :=
  match o with Some d => Ascii.eqb d c | None => false end.

(** The [for] loop over the characters: [prev] is [css[i - 1]], and
    [skip] tells that the turn before ended with [i++]. *)
Fixpoint scanDepth (st : scan) (prev : option ascii) (skip : bool) (css : string) : Z :=
  match css with
  | EmptyString => maxDepth st
  | String char rest =>
      if skip then scanDepth st (Some char) false rest else
      let nextChar := match rest with String c _ => Some c | EmptyString => None end in
      if is_quote char && negb (inComment st) then
        if negb (inString st) then
          scanDepth (mkScan (maxDepth st) (currentDepth st) true (inComment st) (Some char))
                    (Some char) false rest
        else if char_is char (stringChar st) && negb (char_is "\" prev) then
          scanDepth (mkScan (maxDepth st) (currentDepth st) false (inComment st) None)
                    (Some char) false rest
        else scanDepth st (Some char) false rest
      else if negb (inString st) && Ascii.eqb char "/" && char_is "*" nextChar then
        scanDepth (mkScan (maxDepth st) (currentDepth st) (inString st) true (stringChar st))
                  (Some char) true rest
      else if negb (inString st) && inComment st && Ascii.eqb char "*"
              && char_is "/" nextChar then
        scanDepth (mkScan (maxDepth st) (currentDepth st) (inString st) false (stringChar st))
                  (Some char) true rest
      else if negb (inString st) && negb (inComment st) then
        if Ascii.eqb char "{" then
          let depth := (currentDepth st + 1)%Z in
          scanDepth (mkScan (Z.max (maxDepth st) depth) depth
                            (inString st) (inComment st) (stringChar st))
                    (Some char) false rest
        else if Ascii.eqb char "}" then
          scanDepth (mkScan (maxDepth st) (currentDepth st - 1)%Z
                            (inString st) (inComment st) (stringChar st))
                    (Some char) false rest
        else scanDepth st (Some char) false rest
      else scanDepth st (Some char) false rest
  end.

Definition detectNestingDepth (css : string) : Z :=
  scanDepth (mkScan 0%Z 0%Z false false None) None false css.

(** The number of occurrences of a character, the excess of opening over
    closing braces, and the texts without quotes and slashes (no string
    literal and no comment can start in them). *)
Fixpoint countChar (c : ascii) (s : string) : nat :=
  match s with
  | EmptyString => 0
  | String d s' => (if Ascii.eqb d c then 1 else 0) + countChar c s'
  end.

Definition balance (s : string) : Z :=
  (Z.of_nat (countChar "{" s) - Z.of_nat (countChar "}" s))%Z.

Definition plainText (s : string) : bool :=
  all_chars (fun c => negb (is_quote c) && negb (Ascii.eqb c "/")) s.

(** [oldValues.length > 0 ? oldValues[oldValues.length - 1] : null] *)
Definition lastValue (values : list string) : option string :=
  match values with
  | [] => None
  | v :: rest => Some (last rest v)
  end.

(** Truthiness of a value that may be [null], and its text in a template
    literal. *)
Definition present (v : option string) : bool :=
  match v with Some s => truthy s | None => false end.

Definition text_of (v : option string) : string :=
  match v with Some s => s | None => "null" end.

Definition same_value (a b : option string) : bool :=
  match a, b with
  | Some x, Some y => String.eqb x y
  | None, None => true
  | _, _ => false
  end.

(** The body of [allVarNames.forEach]. *)
Definition compareVariable (oldVars newVars : dict (list string)) (varName : string)
  : list string :=
  let oldValues := valuesOf oldVars varName in
  let newValues := valuesOf newVars varName in
  (if (1 <? List.length newValues) && (1 <? List.length (unique newValues))
   then ["⚠ SCSS variable " +++ varName +++ " defined " +++
         nat_to_string (List.length newValues) +++
         " times with different values (last wins)"]
   else [])
  ++
  let oldValue := lastValue oldValues in
  let newValue := lastValue newValues in
  if negb (present oldValue) && present newValue then
    ["Property added: SCSS variable " +++ varName +++ ": " +++ text_of newValue]
  else if present oldValue && negb (present newValue) then
    ["Property removed: SCSS variable " +++ varName]
  else if present oldValue && present newValue && negb (same_value oldValue newValue) then
    ["Property changed: SCSS variable " +++ varName +++ " from " +++ text_of oldValue +++
     " → " +++ text_of newValue]
  else [].

Definition comparePreprocessorFeatures (oldContent newContent : string)
  : outcome (list string) :=
  oldVars <- extractSCSSVariablesWithDuplicates oldContent ;;
  newVars <- extractSCSSVariablesWithDuplicates newContent ;;
  let allVarNames := unique (ownKeys oldVars ++ ownKeys newVars) in
  let oldMixins := extractMixins oldContent in
  let newMixins := extractMixins newContent in
  let addedMixins := filter (fun m => negb (mem m oldMixins)) newMixins in
  let oldIncludes := extractMixinIncludes oldContent in
  let newIncludes := extractMixinIncludes newContent in
  let addedIncludes := filter (fun m => negb (mem m oldIncludes)) newIncludes in
  let newDepth := detectNestingDepth newContent in
  let oldDepth := detectNestingDepth oldContent in
  Return
    (flat_map (compareVariable oldVars newVars) allVarNames
     ++ map (fun mixin => "Defined mixin: " +++ mixin) addedMixins
     ++ map (fun include => "Used mixin: " +++ include) addedIncludes
     ++ (if (4 <? newDepth)%Z then
           if (oldDepth <? newDepth)%Z then
             ["⚠ Deep nesting detected (~" +++ Z_to_string newDepth +++
              " levels, increased from ~" +++ Z_to_string oldDepth +++
              ") - approximate count"]
           else if (oldDepth <=? 4)%Z then
             ["⚠ Deep nesting detected (~" +++ Z_to_string newDepth +++
              " levels) - approximate count"]
           else []
         else [])).

(** The full paths of the rules of a version, in document order, and
    the number of rules with a given path. *)
Definition pathsOf (ast : option root) : list string :=
  match ast with
  | Some a => map fullPath (extractSelectorsWithContext a)
  | None => []
  end.

Definition instances (path : string) (ast : option root) : nat :=
  List.length (filter (String.eqb path) (pathsOf ast)).

End Css.

(* ===================================================================== *)
(** ** The superseded stylesheet parser *)
(* ===================================================================== *)

(** [src/parser/cssParser.js] still holds the version that the fixed
    parser replaced ("PostCSS AST with regex fallback"), which parsed the
    added and the removed lines of the diff.  Its counterparts of the
    functions above are kept here for comparison. *)
Module Legacy.
Import JsString Css.

(** [extractSelectorsFromAST]: rules are keyed by their own selector. *)
Definition extractSelectorsFromAST (ast : root) : list string :=
  flat_map (fun rule => if truthy (r_selector rule) then [trim (r_selector rule)] else [])
           (rulesOf ast).

Definition analyzeSelectorChanges (addedAST : root) (removedAST : option root)
  : list string :=
  let addedSelectors := extractSelectorsFromAST addedAST in
  let removedSelectors :=
    match removedAST with Some a => extractSelectorsFromAST a | None => [] end in
  let newSelectors := filter (fun s => negb (mem s removedSelectors)) addedSelectors in
  let deletedSelectors := filter (fun s => negb (mem s addedSelectors)) removedSelectors in
  map (fun selector => "Property added: selector " +++ selector) newSelectors
  ++ map (fun selector => "Property removed: selector " +++ selector) deletedSelectors.

(** The column count of the old [analyzeGridProperties]:
    [decl.value.split(/\s+/).filter(v => v && v !== '|').length]. *)
Definition gridColumns (value : string) : nat :=
  List.length (filter (fun v => negb (String.eqb v "|")) (words value)).

(** The standard property handling of the old [analyzeDeclarationChanges],
    on the normalized values of the added and of the removed lines. *)
Definition standardPropertyChanges (prop : string) (addedVals removedVals : list string)
  : list string :=
  let addedUnique := unique addedVals in
  let removedUnique := unique removedVals in
  let addedCounts := countValues addedVals in
  let removedCounts := countValues removedVals in
  let newValues := filter (fun v => negb (mem v removedUnique)) addedUnique in
  let deletedValues := filter (fun v => negb (mem v addedUnique)) removedUnique in
  map render (countedRecords (PropAdded prop) addedCounts newValues)
  ++ map render (countedRecords (PropRemoved prop) removedCounts deletedValues)
  ++ match oneToOne removedUnique addedUnique with
     | Some (o, n) =>
         let totalCount := Nat.max (List.length addedVals) (List.length removedVals) in
         [render (PropChanged prop o n (suffix_of (Some totalCount)))]
     | None =>
         if (0 <? List.length removedUnique) && (0 <? List.length addedUnique)
            && (List.length newValues =? 0) && (List.length deletedValues =? 0)
         then
           let totalCount := Nat.max (List.length addedVals) (List.length removedVals) in
           if 2 <? totalCount
           then ["Property changed multiple times: " +++ prop +++ " (" +++
                 nat_to_string totalCount +++ " elements)"]
           else []
         else []
     end.

End Legacy.

(* ===================================================================== *)
(** ** Code grammar: [ASTParser] of [src/parser/astParser.js] *)
(* ===================================================================== *)

Module Ast.
Import JsString.

(** What [extractParamInfo] and [extractFunctionDetails] record of a
    function, as far as the diff reads it. *)
Record param : Type := mkParam {
  p_name : string;
  hasDefault : bool
}.

Record func : Type := mkFunc {
  name : string;
  async : bool;
  params : list param;
  hasReturn : bool;
  complexity : nat;
  callsAPI : bool
}.

(** [list.some(q => q.name === p.name)] *)
Definition hasParam (list : list param) (p : param) : bool :=
  existsb (fun q => String.eqb (p_name q) (p_name p)) list.

Definition compareFunctions (oldFunc newFunc : func) : list string :=
  (if Bool.eqb (async oldFunc) (async newFunc) then []
   else ["Changed to " +++ (if async newFunc then "async" else "sync")])
  ++
  (let oldParams := join "," (map p_name (params oldFunc)) in
   let newParams := join "," (map p_name (params newFunc)) in
   if String.eqb oldParams newParams then []
   else
     let added := filter (fun np => negb (hasParam (params oldFunc) np)) (params newFunc) in
     let removed := filter (fun op => negb (hasParam (params newFunc) op)) (params oldFunc) in
     map (fun p => "Added parameter: " +++ p_name p +++
                   (if hasDefault p then " (with default)" else EmptyString)) added
     ++ map (fun p => "Removed parameter: " +++ p_name p) removed)
  ++
  (if complexity oldFunc + 2 <? complexity newFunc
   then ["Complexity increased (" +++ nat_to_string (complexity oldFunc) +++ " → " +++
         nat_to_string (complexity newFunc) +++ ")"]
   else [])
  ++
  (if negb (callsAPI oldFunc) && callsAPI newFunc then ["Added API calls"] else [])
  ++
  (if Bool.eqb (hasReturn oldFunc) (hasReturn newFunc) then []
   else [if hasReturn newFunc then "Added return statement" else "Removed return statement"]).

(** [funcs.find(f => f.name === name)] *)
Definition findByName (funcs : list func) (n : string) : option func :=
  find (fun f => String.eqb (name f) n) funcs.

Definition diffFunctions (oldFuncs newFuncs : list func) : list string :=
  flat_map
    (fun newFunc =>
       match findByName oldFuncs (name newFunc) with
       | None =>
           let asyncStr := if async newFunc then "async " else EmptyString in
           let params := join ", " (map p_name (params newFunc)) in
           ["Added " +++ asyncStr +++ "function: " +++ name newFunc +++ "(" +++ params +++ ")"]
           ++ (if callsAPI newFunc
               then ["  └─ Function " +++ name newFunc +++ " makes API calls"] else [])
           ++ (if 5 <? complexity newFunc
               then ["  └─ High complexity (" +++ nat_to_string (complexity newFunc) +++ ")"]
               else [])
       | Some oldFunc =>
           let funcChanges := compareFunctions oldFunc newFunc in
           if 0 <? List.length funcChanges
           then ("Function " +++ name newFunc +++ " changed:")
                  :: map (fun c => "  └─ " +++ c) funcChanges
           else []
       end)
    newFuncs
  ++
  flat_map
    (fun oldFunc =>
       match findByName newFuncs (name oldFunc) with
       | None => ["Removed function: " +++ name oldFunc]
       | Some _ => []
       end)
    oldFuncs.

(** *** The other entities of the structural model

    What [extractClassDetails], [extractImportDetails],
    [extractExportDetails], [extractVariableDetails] and
    [extractHookDetails] record, as far as the diffs read it.  A method's
    [key.name] and a declarator's [id.name] are [undefined] for a computed
    key or a destructuring pattern; a template literal prints that as
    "undefined". *)
Definition show (n : option string) : string :=
  match n with Some s => s | None => "undefined" end.

(** [a === b] on two names. *)
Definition same_name (a b : option string) : bool :=
  match a, b with
  | Some x, Some y => String.eqb x y
  | None, None => true
  | _, _ => false
  end.

Record classMethod : Type := mkClassMethod {
  m_name : option string;
  static : bool
}.

Record classInfo : Type := mkClass {
  c_name : string;
  isComponent : bool;
  methods : list classMethod
}.

(** An import: its [source] and the [local] names of its specifiers. *)
Record importInfo : Type := mkImport {
  source : string;
  locals : list string
}.

(** An export of [type] 'default' with its name, or of [type] 'named'. *)
Inductive exportInfo : Type :=
| DefaultExport (exported : string)
| NamedExport.

Record variable : Type := mkVariable {
  v_name : option string;
  kind : string
}.

Record hook : Type := mkHook {
  h_name : string;
  arguments : nat
}.

Record structure : Type := mkStructure {
  functions : list func;
  classes : list classInfo;
  imports : list importInfo;
  exports : list exportInfo;
  variables : list variable;
  components : list classInfo;
  hooks : list hook;
  isReact : bool
}.

(** [methods.find(m => m.name === n)] *)
Definition findMethod (ms : list classMethod) (n : option string) : option classMethod :=
  find (fun m => same_name (m_name m) n) ms.

Definition compareClassMethods (oldClass newClass : classInfo) : list string :=
  flat_map
    (fun newMethod =>
       match findMethod (methods oldClass) (m_name newMethod) with
       | None => ["Added method: " +++ show (m_name newMethod) +++
                  (if static newMethod then " (static)" else EmptyString)]
       | Some _ => []
       end)
    (methods newClass)
  ++
  flat_map
    (fun oldMethod =>
       match findMethod (methods newClass) (m_name oldMethod) with
       | None => ["Removed method: " +++ show (m_name oldMethod)]
       | Some _ => []
       end)
    (methods oldClass).

(** [classes.find(c => c.name === n)] *)
Definition findClass (cs : list classInfo) (n : string) : option classInfo :=
  find (fun c => String.eqb (c_name c) n) cs.

Definition diffClasses (oldClasses newClasses : list classInfo) : list string :=
  flat_map
    (fun newClass =>
       match findClass oldClasses (c_name newClass) with
       | None =>
           let type := if isComponent newClass then "component class" else "class" in
           ["Added " +++ type +++ ": " +++ c_name newClass]
       | Some oldClass =>
           let methodChanges := compareClassMethods oldClass newClass in
           if 0 <? List.length methodChanges
           then ("Class " +++ c_name newClass +++ " changed:")
                  :: map (fun c => "  └─ " +++ c) methodChanges
           else []
       end)
    newClasses
  ++
  flat_map
    (fun oldClass =>
       match findClass newClasses (c_name oldClass) with
       | None => ["Removed class: " +++ c_name oldClass]
       | Some _ => []
       end)
    oldClasses.

(** [imports.find(i => i.source === s)] *)
Definition findImport (imps : list importInfo) (s : string) : option importInfo :=
  find (fun i => String.eqb (source i) s) imps.

Definition diffImports (oldImports newImports : list importInfo) : list string :=
  flat_map
    (fun newImp =>
       match findImport oldImports (source newImp) with
       | None =>
           let names := join ", " (locals newImp) in
           ["Added import: " +++ names +++ " from '" +++ source newImp +++ "'"]
       | Some _ => []
       end)
    newImports
  ++
  flat_map
    (fun oldImp =>
       match findImport newImports (source oldImp) with
       | None => ["Removed import from '" +++ source oldImp +++ "'"]
       | Some _ => []
       end)
    oldImports.

(** [exports.find(e => e.type === 'default')], as the name it carries. *)
Fixpoint findDefault (es : list exportInfo) : option string :=
  match es with
  | [] => None
  | DefaultExport exported :: _ => Some exported
  | NamedExport :: rest => findDefault rest
  end.

Definition diffExports (oldExports newExports : list exportInfo) : list string :=
  match findDefault newExports, findDefault oldExports with
  | Some newDefaultExport, None => ["Added default export: " +++ newDefaultExport]
  | None, Some oldDefaultExport => ["Removed default export: " +++ oldDefaultExport]
  | _, _ => []
  end.

(** [vars.find(v => v.name === n)] *)
Definition findVariable (vs : list variable) (n : option string) : option variable :=
  find (fun v => same_name (v_name v) n) vs.

Definition diffVariables (oldVars newVars : list variable) : list string :=
  flat_map
    (fun newVar =>
       match findVariable oldVars (v_name newVar) with
       | Some oldVar =>
           if negb (String.eqb (kind oldVar) (kind newVar))
           then ["Changed " +++ show (v_name newVar) +++ " from '" +++ kind oldVar +++
                 "' to '" +++ kind newVar +++ "'"]
           else []
       | None => []
       end)
    newVars.

Definition diffReactComponents (oldComps newComps : list classInfo) : list string :=
  flat_map
    (fun newComp =>
       match findClass oldComps (c_name newComp) with
       | None => ["Added component: " +++ c_name newComp]
       | Some _ => []
       end)
    newComps.

Definition hookTypes : list string :=
  ["useState"; "useEffect"; "useContext"; "useReducer"; "useCallback"; "useMemo"].

(** [hooks.filter(h => h.name === hookType).length] *)
Definition countHooks (hookType : string) (hs : list hook) : nat :=
  List.length (filter (fun h => String.eqb (h_name h) hookType) hs).

Definition diffHooks (oldHooks newHooks : list hook) : list string :=
  flat_map
    (fun hookType =>
       let oldCount := countHooks hookType oldHooks in
       let newCount := countHooks hookType newHooks in
       if oldCount <? newCount
       then ["Added " +++ nat_to_string (newCount - oldCount) +++ " " +++ hookType +++ " call(s)"]
       else if newCount <? oldCount
       then ["Removed " +++ nat_to_string (oldCount - newCount) +++ " " +++ hookType +++ " call(s)"]
       else [])
    hookTypes.

(** *** Changed line ranges: [extractDiffRanges], [groupRanges]

    Line numbers are the integers read by [parseInt] from a hunk header
    and counted up from there. *)
Record changedLine : Type := mkLine {
  line : Z;
  l_type : string;
  content : string
}.

Record range : Type := mkRange {
  start : Z;
  end_ : Z;
  g_type : string
}.

(** The [for] loop of [groupRanges]: [current] is the open group. *)
Fixpoint groupLoop (current : range) (ranges : list changedLine) (grouped : list range)
  : list range :=
  match ranges with
  | [] => grouped ++ [current]
  | r :: rest =>
      if (line r =? end_ current + 1)%Z && String.eqb (l_type r) (g_type current)
      then groupLoop (mkRange (start current) (line r) (g_type current)) rest grouped
      else groupLoop (mkRange (line r) (line r) (l_type r)) rest (grouped ++ [current])
  end.

Definition groupRanges (ranges : list changedLine) : list range :=
  match ranges with
  | [] => []
  | r :: rest => groupLoop (mkRange (line r) (line r) (l_type r)) rest []
  end.

(** The numbered lines a group stands for, and the number of lines of
    one type that a list of groups covers. *)
Definition expand (g : range) : list (Z * string) :=
  map (fun k => ((start g + Z.of_nat k)%Z, g_type g))
      (seq 0 (Z.to_nat (end_ g - start g + 1))).

Definition linesOfType (t : string) (groups : list range) : Z :=
  fold_right (fun g total =>
                if String.eqb (g_type g) t then (end_ g - start g + 1 + total)%Z else total)
             0%Z groups.

(** One side of a hunk header, [start,count] with an optional count:
    the digits of [start] and what follows the match. *)
Definition hunk_side (s : string) : option (string * string) :=
  let '(digits, s1) := Css.span is_digit s in
  if truthy digits then
    let s2 := match Css.strip_prefix "," s1 with Some r => r | None => s1 end in
    Some (digits, snd (Css.span is_digit s2))
  else None.

(** The hunk header pattern, [@@ -start,count +start,count @@] at the
    beginning of the line: the two [start] groups. *)
Definition match_hunk_header (text : string) : option (string * string) :=
  match Css.strip_prefix "@@ -" text with
  | Some s1 =>
      match hunk_side s1 with
      | Some (oldStart, s2) =>
          match Css.strip_prefix " +" s2 with
          | Some s3 =>
              match hunk_side s3 with
              | Some (newStart, s4) =>
                  if startsWith s4 " @@" then Some (oldStart, newStart) else None
              | None => None
              end
          | None => None
          end
      | None => None
      end
  | None => None
  end.

(** One turn of the loop over the lines of the diff; the state is
    [ranges], [newLineNum] and [oldLineNum]. *)
Definition diffStep (st : list changedLine * Z * Z) (text : string)
  : list changedLine * Z * Z :=
  let '(ranges, newLineNum, oldLineNum) := st in
  match match_hunk_header text with
  | Some (oldStart, newStart) =>
      (ranges, JsNumber.digits_value newStart, JsNumber.digits_value oldStart)
  | None =>
      if startsWith text "+" && negb (startsWith text "+++") then
        (ranges ++ [mkLine newLineNum "added" (substring_from 1 text)],
         (newLineNum + 1)%Z, oldLineNum)
      else if startsWith text "-" && negb (startsWith text "---") then
        (ranges ++ [mkLine oldLineNum "removed" (substring_from 1 text)],
         newLineNum, (oldLineNum + 1)%Z)
      else if negb (startsWith text "\") then
        (ranges, (newLineNum + 1)%Z, (oldLineNum + 1)%Z)
      else st
  end.

(** The changed lines with their numbers, before grouping. *)
Definition changedLines (diff : string) : list changedLine :=
  fst (fst (fold_left diffStep (split_on (ascii_of_nat 10) diff) ([], 0%Z, 0%Z))).

Definition extractDiffRanges (diff : string) : list range :=
  groupRanges (changedLines diff).

(** *** [performSemanticDiff]

    The extraction of a structure from a syntax tree is a parameter.
    Every record pushed is a string, so the final
    [changes.filter(c => c !== null)] keeps them all; [affectedRanges] and
    [filepath] are not read. *)
Section SemanticDiff.

Variable ast : Type.
Variable extractCodeStructure : ast -> structure.

Definition performSemanticDiff (oldAST newAST : ast) (affectedRanges : list range)
    (filepath : string) : list string :=
  let oldStructure := extractCodeStructure oldAST in
  let newStructure := extractCodeStructure newAST in
  diffFunctions (functions oldStructure) (functions newStructure)
  ++ diffClasses (classes oldStructure) (classes newStructure)
  ++ diffImports (imports oldStructure) (imports newStructure)
  ++ diffExports (exports oldStructure) (exports newStructure)
  ++ diffVariables (variables oldStructure) (variables newStructure)
  ++ (if isReact oldStructure || isReact newStructure
      then diffReactComponents (components oldStructure) (components newStructure)
           ++ diffHooks (hooks oldStructure) (hooks newStructure)
      else []).

End SemanticDiff.

End Ast.

(* ===================================================================== *)
(** ** The fallback controller: [analyzeChanges] of [src/changeAnalyzer.js] *)
(* ===================================================================== *)

Module Analyzer.
Import JsString.

(** One entry of the batch built by [getDiff]. *)
Record diffEntry : Type := mkDiff {
  path : string;
  oldPath : string;
  newPath : string;
  status : string;
  binary : bool;
  diff : string;
  insertions : nat;
  deletions : nat
}.

Record options : Type := mkOptions {
  risk : bool;
  targetBranch : option string
}.

(** ['N/A'] or a number. *)
Inductive metric : Type := NA | Score (n : Z).

(** One entry of the result; a field the sources leave out is [None]. *)
Record result : Type := mkResult {
  r_file : string;
  r_oldFile : option string;
  r_status : string;
  r_type : string;
  r_changes : list string;
  r_risk : option string;
  r_insertions : option nat;
  r_deletions : option nat;
  r_complexity : option metric;
  r_parseMethod : option string;
  r_parserType : option string;
  r_churnScore : option string
}.

(** What [ASTParser.analyzeFile] resolves to. *)
Record astResult : Type := mkAstResult {
  success : bool;
  a_changes : Js.value;
  a_parserType : option string;
  method : string
}.

(** A parser of the [parser/] directory: [(diff, filepath) => changes]. *)
Definition parser : Type := string -> string -> outcome Js.value.

(** [module.exports] of a module, and [const { name } = require(...)]:
    a name the module does not export is bound to [undefined]. *)
Definition exports : Type := list (string * parser).

Definition require_binding (m : exports) (name : string) : option parser :=
  dict_get m name.

(** Calling a binding; calling [undefined] throws a [TypeError]. *)
Definition call (name : string) (f : option parser) (diff filepath : string)
  : outcome Js.value :=
  match f with
  | Some g => g diff filepath
  | None => Throw ("TypeError: " +++ name +++ " is not a function")
  end.

Definition dquote : string := String (ascii_of_nat 34) EmptyString.

(** [filepath.split('.').pop().toLowerCase()] *)
Definition extension (filepath : string) : string :=
  toLowerCase (last (split_on "." filepath) EmptyString).

Definition detectFileType (filepath content : string) : string :=
  let ext := extension filepath in
  if String.eqb ext "jsx" || String.eqb ext "tsx" then "react"
  else if String.eqb ext "ts" then "typescript"
  else if String.eqb ext "js" then
    if includes content "$(" || includes content "jQuery" then "jquery"
    else if includes content "import React"
            || includes content ("from " +++ dquote +++ "react" +++ dquote)
            || includes content "from 'react'" then "react"
    else "javascript"
  else if String.eqb ext "mjs" || String.eqb ext "cjs" then "javascript"
  else if String.eqb ext "html" || String.eqb ext "htm" then "html"
  else if String.eqb ext "css" then "css"
  else if String.eqb ext "scss" || String.eqb ext "sass" then "scss"
  else if String.eqb ext "json" then "json"
  else if String.eqb ext "md" || String.eqb ext "markdown" then "markdown"
  else if String.eqb ext "py" then "python"
  else if String.eqb ext "java" then "java"
  else if String.eqb ext "go" then "go"
  else if String.eqb ext "rs" then "rust"
  else "unknown".

(** [lines.filter(l => l.startsWith(c) && !l.startsWith(ccc)).length] *)
Definition countLines (c ccc : string) (lines : list string) : nat :=
  List.length (filter (fun l => startsWith l c && negb (startsWith l ccc)) lines).

Definition parseGeneric (diff : string) : list string :=
  let lines := split_on (ascii_of_nat 10) diff in
  let added := countLines "+" "+++" lines in
  let removed := countLines "-" "---" lines in
  if (0 <? added) && (0 <? removed)
  then ["Modified: +" +++ nat_to_string added +++ " -" +++ nat_to_string removed +++ " lines"]
  else if 0 <? added then ["Added " +++ nat_to_string added +++ " lines"]
  else if 0 <? removed then ["Removed " +++ nat_to_string removed +++ " lines"]
  else [].

(** [assessRisk] of [src/utils.js]. *)
Definition assessRisk (filepath : string) (changes : list string) : string :=
  let criticalFiles := ["auth"; "login"; "password"; "token"; "api"; "database"; "config"] in
  let filename := toLowerCase filepath in
  if existsb (fun word => includes filename word) criticalFiles then "HIGH"
  else if existsb (fun c => includes c "Removed" || includes c "security"
                            || includes c "authentication") changes then "HIGH"
  else if (5 <? List.length changes)
          || existsb (fun c => includes c "Added import" || includes c "hook") changes
  then "MEDIUM"
  else "LOW".

(** The text after the first occurrence of [p] in [s]. *)
Fixpoint after_first (p s : string) : option string :=
  match Css.strip_prefix p s with
  | Some rest => Some rest
  | None => match s with
            | EmptyString => None
            | String _ s' => after_first p s'
            end
  end.

(** [changeText.match(/complexity[^\d]*(\d+)/)], then [parseInt(match[1])]. *)
Definition complexityNumber (changeText : string) : option Z :=
  match after_first "complexity" changeText with
  | Some rest =>
      let '(_, rest') := Css.span (fun c => negb (is_digit c)) rest in
      let '(digits, _) := Css.span is_digit rest' in
      if truthy digits then Some (JsNumber.digits_value digits) else None
  | None => None
  end.

(** [/function.*changed/.test(s)] *)
Fixpoint functionChanged (s : string) : bool :=
  match Css.strip_prefix "function" s with
  | Some rest =>
      includes (fst (Css.span (fun c => negb (Css.is_line_terminator c)) rest)) "changed"
  | None => false
  end
  || match s with
     | EmptyString => false
     | String _ s' => functionChanged s'
     end.

Definition calculateComplexityFromChanges (changes : list string) : metric :=
  let changeText := toLowerCase (join " " changes) in
  match (if includes changeText "complexity" then complexityNumber changeText else None) with
  | Some n => Score n
  | None =>
      let indicators :=
        [ (includes changeText "async" || includes changeText "await", 2);
          (includes changeText "conditional" || includes changeText "if statement", 1);
          (includes changeText "loop" || includes changeText "for"
           || includes changeText "while", 2);
          (includes changeText "try" || includes changeText "catch"
           || includes changeText "error handling", 1);
          (includes changeText "api call", 2);
          (functionChanged changeText, 1) ] in
      let score :=
        fold_left (fun score '(test, weight) => if test : bool then score + weight else score)
                  indicators 0 in
      if score =? 0 then NA
      else if score <=? 3 then Score 1
      else if score <=? 6 then Score 3
      else if score <=? 10 then Score 5
      else Score (Z.of_nat score)
  end.

Definition calculateChurnScore (d : diffEntry) : string :=
  let totalLines := insertions d + deletions d in
  if totalLines <? 10 then "LOW"
  else if totalLines <? 50 then "MEDIUM"
  else "HIGH".

(** *** [analyzeChanges]

    The parsers the controller calls are its parameters: the full-file
    analysis of [ASTParser] and the bindings imported from the [parser/]
    modules, any of which may be [undefined] and may throw. *)
Section Controller.

Variable analyzeFile : diffEntry -> string -> outcome astResult.
Variables parseHTML parseCSS parseJQuery parseJS parseReact : option parser.

(** What the body of the loop computes before the metrics:
    [changes], [parseMethod] and [parserType]. *)
Definition extraction : Type := Js.value * string * option string.

Definition fallbackToRegex (fileType : string) (d : diffEntry) : outcome extraction :=
  Js.try_catch
    (changes <- (if String.eqb fileType "react"
                 then call "parseReact" parseReact (diff d) (path d)
                 else call "parseJS" parseJS (diff d) (path d)) ;;
     Return (changes, "regex-fallback", None))
    (fun regexError =>
       Return (Js.Arr (parseGeneric (diff d)), "generic-fallback", None)).

Definition extractCode (opts : options) (fileType : string) (d : diffEntry)
  : outcome extraction :=
  Js.try_catch
    (astResult <- analyzeFile d (match targetBranch opts with
                                 | Some b => if truthy b then b else "main"
                                 | None => "main"
                                 end) ;;
     if success astResult
     then Return (a_changes astResult, method astResult, a_parserType astResult)
     else Return (Js.Arr [], "unknown", None))
    (fun astError => fallbackToRegex fileType d).

Definition extractOther (fileType : string) (d : diffEntry) : outcome extraction :=
  Js.try_catch
    (if String.eqb fileType "html" then
       changes <- call "parseHTML" parseHTML (diff d) (path d) ;;
       Return (changes, "regex", None)
     else if String.eqb fileType "css" || String.eqb fileType "scss" then
       changes <- call "parseCSS" parseCSS (diff d) (path d) ;;
       Return (changes, "postcss-ast", None)
     else if String.eqb fileType "jquery" then
       changes <- call "parseJQuery" parseJQuery (diff d) (path d) ;;
       Return (changes, "regex", None)
     else Return (Js.Arr (parseGeneric (diff d)), "generic", None))
    (fun parserError =>
       Return (Js.Arr (parseGeneric (diff d)), "generic-fallback", None)).

(** [if (!Array.isArray(changes)) changes = changes ? [String(changes)] : ['Code modified']] *)
Definition ensureArray (changes : Js.value) : list string :=
  match changes with
  | Js.Arr items => items
  | Js.NotArray truthy text => if truthy then [text] else ["Code modified"]
  end.

(** One turn of the loop: the entry pushed for one artifact. *)
Definition analyzeEntry (opts : options) (d : diffEntry) : outcome result :=
  if String.eqb (status d) "added" then
    Return (mkResult (path d) None "added" (detectFileType (path d) (diff d))
              ["File added"] (if risk opts then Some "LOW" else None)
              (Some (insertions d)) (Some (deletions d)) (Some NA) None None None)
  else if String.eqb (status d) "deleted" then
    Return (mkResult (path d) None "deleted" (detectFileType (path d) (diff d))
              ["File deleted"]
              (if risk opts then Some (assessRisk (path d) ["File deleted"]) else None)
              (Some (insertions d)) (Some (deletions d)) None None None None)
  else if String.eqb (status d) "renamed" then
    Return (mkResult (newPath d) (Some (oldPath d)) "renamed"
              (detectFileType (newPath d) (diff d))
              ["File renamed from: " +++ oldPath d]
              (if risk opts then Some "LOW" else None)
              (Some (insertions d)) (Some (deletions d)) None None None None)
  else if binary d then
    Return (mkResult (path d) None "modified" "binary" ["Binary file changed"]
              (Some "LOW") None None None None None None)
  else
    let fileType := detectFileType (path d) (diff d) in
    x <- (if mem fileType ["javascript"; "typescript"; "react"]
          then extractCode opts fileType d
          else extractOther fileType d) ;;
    let '(changes0, parseMethod, parserType) := x in
    let changes := ensureArray changes0 in
    let risk := if risk opts then Some (assessRisk (path d) changes) else None in
    let complexity := calculateComplexityFromChanges changes in
    Return (mkResult (path d) None "modified" fileType
              (if 0 <? List.length changes then changes else ["Code modified"])
              risk (Some (insertions d)) (Some (deletions d)) (Some complexity)
              (Some parseMethod) parserType (Some (calculateChurnScore d))).

(** The [for (const diff of diffs)] loop, pushing onto [results]. *)
Fixpoint analyzeLoop (opts : options) (diffs : list diffEntry) (results : list result)
  : outcome (list result) :=
  match diffs with
  | [] => Return results
  | d :: rest =>
      r <- analyzeEntry opts d ;;
      analyzeLoop opts rest (results ++ [r])
  end.

Definition analyzeChanges (diffs : list diffEntry) (opts : options)
  : outcome (list result) :=
  analyzeLoop opts diffs [].

End Controller.

(** *** The modules as the repository wires them

    [src/parser/jsParser.js] ends with
    [module.exports = { parseJSWithAST }], while [src/changeAnalyzer.js]
    binds [const { parseJS } = require('./parser/jsParser')]. *)
Section Wiring.

Variable parseJSWithAST : parser.

Definition jsParser_exports : exports := [("parseJSWithAST", parseJSWithAST)].

Definition parseJS_import : option parser := require_binding jsParser_exports "parseJS".

End Wiring.

(** The three risk levels in increasing order. *)
Definition riskLevel (risk : string) : nat :=
  if String.eqb risk "HIGH" then 2
  else if String.eqb risk "MEDIUM" then 1
  else 0.

End Analyzer.

(* ===================================================================== *)
(** ** The report: [groupByRisk] of [src/summaryFormatter.js] *)
(* ===================================================================== *)

Module Formatter.
Import JsString JsObject Analyzer.

(** [grouped = { HIGH: [], MEDIUM: [], LOW: [] }] *)
Record riskGroups : Type := mkGroups {
  HIGH : list result;
  MEDIUM : list result;
  LOW : list result
}.

(** [item.risk || 'LOW'] *)
Definition riskKey (item : result) : string :=
  match r_risk item with
  | Some risk => if truthy risk then risk else "LOW"
  | None => "LOW"
  end.

(** [grouped[risk].push(item)]: a key other than the three finds
    [undefined], or a member of [Object.prototype], and the call throws. *)
Definition pushItem (grouped : riskGroups) (item : result) : outcome riskGroups :=
  let risk := riskKey item in
  if String.eqb risk "HIGH" then
    Return (mkGroups (HIGH grouped ++ [item]) (MEDIUM grouped) (LOW grouped))
  else if String.eqb risk "MEDIUM" then
    Return (mkGroups (HIGH grouped) (MEDIUM grouped ++ [item]) (LOW grouped))
  else if String.eqb risk "LOW" then
    Return (mkGroups (HIGH grouped) (MEDIUM grouped) (LOW grouped ++ [item]))
  else if mem risk objectPrototypeKeys then
    Throw "TypeError: grouped[risk].push is not a function"
  else Throw "TypeError: Cannot read properties of undefined (reading 'push')".

(** [analysis.forEach(item => ...)] *)
Fixpoint pushItems (grouped : riskGroups) (analysis : list result) : outcome riskGroups :=
  match analysis with
  | [] => Return grouped
  | item :: rest => grouped' <- pushItem grouped item ;; pushItems grouped' rest
  end.

Definition groupByRisk (analysis : list result) : outcome riskGroups :=
  pushItems (mkGroups [] [] []) analysis.

End Formatter.

(* ===================================================================== *)
(** ** Scenarios of the specification *)
(* ===================================================================== *)

Module Scenarios.
Import Css Ast Analyzer.

(** [.title] nested under [.card] in the old version and under [.header]
    in the new one. *)
Definition cardSheet : root := [Rule ".card" [Rule ".title" [Decl "color" "red"]]].
Definition headerSheet : root := [Rule ".header" [Rule ".title" [Decl "color" "red"]]].

(** [login(username)] and [login(username, rememberMe = false)]; the
    scenario does not say whether the bodies return. *)
Definition oldLogin (returns : bool) : func :=
  mkFunc "login" false [mkParam "username" false] returns 1 false.
Definition newLogin (returns : bool) : func :=
  mkFunc "login" true [mkParam "username" false; mkParam "rememberMe" true]
         returns 3 true.

(** Two functions of the same name with different parameter lists. *)
Definition overloads : list func :=
  [ mkFunc "handler" false [mkParam "event" false] false 1 false;
    mkFunc "handler" false [mkParam "event" false; mkParam "context" false] false 1 false ].

(** A stylesheet that repeats a selector and redeclares a property. *)
Definition repeatedSheet : root :=
  [ Rule ".a" [Decl "color" "red"; Decl "color" "blue"; Decl "display" "flex"];
    Rule ".a" [Decl "color" "red"];
    AtRule "media" "print" [Rule ".a" [Decl "font-size" "12px"]] ].

(** [color: red] once in the old version, [color: blue] once in the new. *)
Definition redSheet : root := [Rule ".a" [Decl "color" "red"]].
Definition blueSheet : root := [Rule ".a" [Decl "color" "blue"]].

(** [transform] written in two letter cases in the old version. *)
Definition transformOld : root :=
  [Rule ".a" [Decl "transform" "NONE"]; Rule ".b" [Decl "transform" "none"]].
Definition transformNew : root :=
  [Rule ".a" [Decl "transform" "scale(2)"]; Rule ".b" [Decl "transform" "scale(2)"]].

(** A typography property changed once. *)
Definition smallFont : root := [Rule ".a" [Decl "font-size" "12px"]].
Definition largeFont : root := [Rule ".a" [Decl "font-size" "14px"]].

(** [display: block] on two elements in one version, on none in the other;
    the same with [position: fixed]. *)
Definition blocksSheet : root :=
  [Rule ".a" [Decl "display" "block"]; Rule ".b" [Decl "display" "block"]].
Definition fixedSheet : root :=
  [Rule ".a" [Decl "position" "fixed"]; Rule ".b" [Decl "position" "fixed"]].
Definition plainSheet : root := [Rule ".a" []; Rule ".b" []].

(** A plain JavaScript artifact whose full-file analysis fails. *)
Definition brokenScript : diffEntry :=
  mkDiff "src/app.js" "src/app.js" "src/app.js" "modified" false
         "+function load( {" 1 0.

(** A stylesheet artifact whose diff removes one line. *)
Definition brokenStyle : diffEntry :=
  mkDiff "src/app.css" "src/app.css" "src/app.css" "modified" false
         "-.a { color: red" 0 1.

Definition failingAnalysis : diffEntry -> string -> outcome astResult :=
  fun _ _ => Throw "Parser failed: Unexpected token".

(** A parser that answers with one record, and one that throws. *)
Definition oneRecord : parser := fun _ _ => Return (Js.Arr ["Added function: load"]).
Definition failingParser : parser := fun _ _ => Throw "failed".

Definition noRisk : options := mkOptions false None.

(** A one-line unified diff of a stylesheet. *)
Definition addedRule : string := "+.button { color: red; }".

(** A bare decimal beyond the range of binary64: 1 followed by 309 zeros,
    then [.0]. *)
Fixpoint zeros (n : nat) : string :=
  match n with
  | O => EmptyString
  | S k => String "0" (zeros k)
  end.

Definition hugeDecimal : string := "1" +++ zeros 309 +++ ".0".

(** A grid with three equal columns that may shrink to 100px. *)
Definition threeFlexibleColumns : string := "repeat(3, minmax(100px, 1fr))".

End Scenarios.

(* ===================================================================== *)
(** * Properties *)
(* ===================================================================== *)

(** ** Strings and dictionaries *)

Module StringFacts.
Import JsString.

Lemma append_empty_r (s : string) : s +++ EmptyString = s.
Proof. induction s as [|c s IH]; simpl; [reflexivity | now rewrite IH]. Qed.

Lemma append_assoc (a b c : string) : (a +++ b) +++ c = a +++ b +++ c.
Proof. induction a as [|x a IH]; simpl; [reflexivity | now rewrite IH]. Qed.

Lemma length_append (a b : string) :
  String.length (a +++ b) = String.length a + String.length b.
Proof. induction a as [|x a IH]; simpl; [reflexivity | now rewrite IH]. Qed.

Lemma append_cancel_r (a b s : string) : a +++ s = b +++ s -> a = b.
Proof.
  revert b; induction a as [|x a IH]; intros [|y b] H; simpl in H.
  - reflexivity.
  - apply (f_equal String.length) in H; simpl in H.
    rewrite length_append in H; lia.
  - apply (f_equal String.length) in H; simpl in H.
    rewrite length_append in H; lia.
  - injection H as -> H. f_equal. now apply IH.
Qed.

Lemma mem_In (x : string) (l : list string) : mem x l = true <-> In x l.
Proof.
  unfold mem. rewrite existsb_exists. split.
  - intros (y & Hy & E). apply String.eqb_eq in E. now subst.
  - intros H. exists x. split; [assumption | apply String.eqb_refl].
Qed.

Lemma mem_false (x : string) (l : list string) : mem x l = false <-> ~ In x l.
Proof.
  rewrite <- mem_In. destruct (mem x l); split; intros H; congruence.
Qed.

Lemma join_snoc (sep : string) (l : list string) (t : string) :
  join sep (l ++ [t]) =
  match l with [] => t | _ :: _ => join sep l +++ sep +++ t end.
Proof.
  induction l as [|a l IH]; [reflexivity|].
  destruct l as [|b l].
  - reflexivity.
  - change (join sep ((a :: b :: l) ++ [t]))
      with (a +++ sep +++ join sep ((b :: l) ++ [t])).
    rewrite IH.
    change (join sep (a :: b :: l)) with (a +++ sep +++ join sep (b :: l)).
    now rewrite !append_assoc.
Qed.

(** *** Dictionaries *)

Lemma dict_has_set {V} (m : dict V) (k k' : string) (v : V) :
  dict_has (dict_set m k' v) k = String.eqb k k' || dict_has m k.
Proof.
  unfold dict_has.
  induction m as [|[k0 v0] m IH]; simpl.
  - now destruct (String.eqb k k').
  - destruct (String.eqb k' k0) eqn:E0; simpl.
    + apply String.eqb_eq in E0; subst k0.
      destruct (String.eqb k k'); reflexivity.
    + destruct (String.eqb k k0) eqn:E1.
      * now rewrite orb_true_r.
      * exact IH.
Qed.

Lemma dict_get_In {V} (m : dict V) (k : string) (v : V) :
  dict_get m k = Some v -> In (k, v) m.
Proof.
  induction m as [|[k0 v0] m IH]; simpl; [discriminate|].
  destruct (String.eqb k k0) eqn:E.
  - apply String.eqb_eq in E; subst. intros [= ->]. now left.
  - intros H. right. now apply IH.
Qed.

Lemma In_dict_has {V} (m : dict V) (k : string) (v : V) :
  In (k, v) m -> dict_has m k = true.
Proof.
  unfold dict_has.
  induction m as [|[k0 v0] m IH]; simpl; [contradiction|].
  intros [[= -> ->] | H].
  - now rewrite String.eqb_refl.
  - destruct (String.eqb k k0); [reflexivity | now apply IH].
Qed.

Lemma dict_has_keys {V} (m : dict V) (k : string) :
  dict_has m k = mem k (dict_keys m).
Proof.
  unfold dict_has, dict_keys, mem.
  induction m as [|[k0 v0] m IH]; simpl; [reflexivity|].
  destruct (String.eqb k k0); [reflexivity | exact IH].
Qed.

End StringFacts.

(** ** Selector identity *)

Module SelectorFacts.
Import JsString Css StringFacts Scenarios.

Lemma unshiftPart_contextText (c : container) (parts : list string) :
  unshiftPart c parts = contextText c ++ parts.
Proof.
  destruct c as [|s|n p]; simpl; [reflexivity | | reflexivity].
  now destruct (truthy s).
Qed.

Lemma buildParts_contextText (rule : chain) (parts : list string) :
  buildParts rule parts = flat_map contextText (rev rule) ++ parts.
Proof.
  revert parts; induction rule as [|c parent IH]; intros parts; simpl.
  - reflexivity.
  - rewrite IH, unshiftPart_contextText, flat_map_app; simpl.
    now rewrite app_nil_r, <- app_assoc.
Qed.

(** The key computed by following the [parent] links is the path written
    from the root down. *)
Lemma buildSelectorPath_ancestorPath (rule : chain) :
  buildSelectorPath rule = ancestorPath rule.
Proof.
  unfold buildSelectorPath, ancestorPath.
  now rewrite buildParts_contextText, app_nil_r.
Qed.

Lemma ancestorPath_cons (c : container) (parent : chain) :
  ancestorPath (c :: parent) =
  join " > " (flat_map contextText (rev parent) ++ contextText c).
Proof.
  unfold ancestorPath; simpl. rewrite flat_map_app; simpl.
  now rewrite app_nil_r.
Qed.

(** Nesting the same local selector under parents with different keys
    gives different keys. *)
Lemma nested_keys_distinct (sel : string) (pa pb : chain) :
  buildSelectorPath pa <> buildSelectorPath pb ->
  buildSelectorPath (CRule sel :: pa) <> buildSelectorPath (CRule sel :: pb).
Proof.
  rewrite !buildSelectorPath_ancestorPath, !ancestorPath_cons.
  unfold ancestorPath.
  set (A := flat_map contextText (rev pa)).
  set (B := flat_map contextText (rev pb)).
  simpl contextText. destruct (truthy sel).
  - rewrite !join_snoc. intros Hne Heq.
    destruct A as [|a A], B as [|b B].
    + now apply Hne.
    + apply (f_equal String.length) in Heq.
      rewrite !length_append in Heq. simpl in Heq. lia.
    + apply (f_equal String.length) in Heq.
      rewrite !length_append in Heq. simpl in Heq. lia.
    + apply Hne.
      rewrite <- !append_assoc in Heq.
      apply append_cancel_r in Heq. now apply append_cancel_r in Heq.
  - now rewrite !app_nil_r.
Qed.

(** *** The selector maps *)

Lemma dict_has_incr (m : dict nat) (k k' : string) :
  dict_has (dict_incr m k') k = String.eqb k k' || dict_has m k.
Proof. unfold dict_incr. apply dict_has_set. Qed.

Lemma dict_has_selectorMap_from (sels : list selectorEntry) (m : dict nat) (k : string) :
  dict_has (fold_left (fun m sel => dict_incr m (fullPath sel)) sels m) k
  = mem k (map fullPath sels) || dict_has m k.
Proof.
  revert m; induction sels as [|e sels IH]; intros m; simpl.
  - reflexivity.
  - rewrite IH, dict_has_incr.
    destruct (String.eqb k (fullPath e)), (mem k (map fullPath sels)),
      (dict_has m k); reflexivity.
Qed.

(** A key is in the map exactly when some rule has that full path. *)
Lemma dict_has_selectorMap (sels : list selectorEntry) (k : string) :
  dict_has (selectorMap sels) k = mem k (map fullPath sels).
Proof.
  unfold selectorMap. rewrite dict_has_selectorMap_from.
  apply orb_false_r.
Qed.

(** C1.  A style rule's identity key is its full ancestor path: the key
    that [buildSelectorPath] computes for a rule is the selector text of
    every enclosing rule and the name and parameters of every enclosing
    at-rule, from the root to the rule, joined by [" > "].  Two rules with
    the same local selector [sel] whose parents have different keys
    therefore get different keys, and the lookup by which the selector diff
    matches a rule against the other version ([oldSelectorMap.has] and
    [newSelectorMap.has]) never answers for one of them because of the
    other. *)
Theorem selector_identity_is_ancestor_path
    (sel : string) (pa pb : chain) (others : list selectorEntry) :
  buildSelectorPath pa <> buildSelectorPath pb ->
  let a := CRule sel :: pa in
  let b := CRule sel :: pb in
  buildSelectorPath a = ancestorPath a
  /\ buildSelectorPath b = ancestorPath b
  /\ buildSelectorPath a <> buildSelectorPath b
  /\ dict_has (selectorMap (mkSelector (trim sel) (buildSelectorPath a) :: others))
              (buildSelectorPath b)
     = dict_has (selectorMap others) (buildSelectorPath b)
  /\ dict_has (selectorMap (mkSelector (trim sel) (buildSelectorPath b) :: others))
              (buildSelectorPath a)
     = dict_has (selectorMap others) (buildSelectorPath a).
Proof.
  intros Hparents a b.
  assert (Hab : buildSelectorPath a <> buildSelectorPath b)
    by now apply nested_keys_distinct.
  repeat split.
  - apply buildSelectorPath_ancestorPath.
  - apply buildSelectorPath_ancestorPath.
  - exact Hab.
  - rewrite !dict_has_selectorMap; simpl.
    destruct (String.eqb_spec (buildSelectorPath b) (buildSelectorPath a)) as [E|_];
      [now symmetry in E | reflexivity].
  - rewrite !dict_has_selectorMap; simpl.
    destruct (String.eqb_spec (buildSelectorPath a) (buildSelectorPath b)) as [E|_];
      [contradiction | reflexivity].
Qed.

Lemma selector_identity_witness :
  map fullPath (extractSelectorsWithContext cardSheet) = [".card"; ".card > .title"]
  /\ map fullPath (extractSelectorsWithContext headerSheet) = [".header"; ".header > .title"]
  /\ ".card > .title" <> ".header > .title"
  /\ map render (compareSelectorsWithContext (Some cardSheet) (Some headerSheet))
     = ["Property added: selector .header";
        "Property added: selector .header > .title";
        "Property removed: selector .card";
        "Property removed: selector .card > .title"].
Proof.
  pose proof (selector_identity_is_ancestor_path ".title"
                [CRule ".card"; CRoot] [CRule ".header"; CRoot] []) as H.
  assert (Hp : buildSelectorPath [CRule ".card"; CRoot]
               <> buildSelectorPath [CRule ".header"; CRoot])
    by (vm_compute; discriminate).
  destruct (H Hp) as (_ & _ & Hne & _).
  repeat split; try reflexivity.
  exact Hne.
Defined.

End SelectorFacts.

(** ** The function diff *)

Module FunctionFacts.
Import JsString Ast StringFacts Scenarios.

(** A function compared with itself has no field-level change. *)
Lemma compareFunctions_same (f : func) : compareFunctions f f = [].
Proof.
  unfold compareFunctions.
  rewrite !Bool.eqb_reflx, String.eqb_refl.
  replace (complexity f + 2 <? complexity f) with false
    by (symmetry; apply Nat.ltb_ge; lia).
  now destruct (callsAPI f).
Qed.

(** The complexity line is guarded by a threshold: it is pushed only when
    the new count exceeds the old one by more than two. *)
Lemma complexity_line_needs_threshold (oldFunc newFunc : func) :
  In ("Complexity increased (" +++ nat_to_string (complexity oldFunc) +++ " → " +++
      nat_to_string (complexity newFunc) +++ ")")
     (compareFunctions oldFunc newFunc)
  -> complexity oldFunc + 2 < complexity newFunc.
Proof.
  unfold compareFunctions. rewrite !in_app_iff.
  intros [H | [H | [H | [H | H]]]].
  - destruct (Bool.eqb _ _); simpl in H; [contradiction|].
    destruct H as [H|[]]. destruct (async newFunc); discriminate.
  - destruct (String.eqb _ _); [contradiction|].
    apply in_app_iff in H. destruct H as [H|H]; apply in_map_iff in H;
      destruct H as (p & E & _); discriminate.
  - destruct (complexity oldFunc + 2 <? complexity newFunc) eqn:E;
      [now apply Nat.ltb_lt | contradiction].
  - destruct (negb _ && _); simpl in H; [|contradiction].
    destruct H as [H|[]]; discriminate.
  - destruct (Bool.eqb _ _); simpl in H; [contradiction|].
    destruct H as [H|[]]. destruct (hasReturn newFunc); discriminate.
Qed.

(** C3, as stated, fails: for the [login] scenario the details are the
    three lines below; the line for complexity 1 → 3 is not among them. *)
Lemma login_complexity_not_reported :
  ~ (In "Added parameter: rememberMe (with default)"
        (compareFunctions (oldLogin true) (newLogin true))
     /\ In "Changed to async" (compareFunctions (oldLogin true) (newLogin true))
     /\ In "Complexity increased (1 → 3)"
           (compareFunctions (oldLogin true) (newLogin true))
     /\ In "Added API calls" (compareFunctions (oldLogin true) (newLogin true))).
Proof.
  intros (_ & _ & H & _).
  apply (complexity_line_needs_threshold (oldLogin true) (newLogin true)) in H.
  simpl in H. lia.
Qed.

(** C3, amended.  For old [login(username)] (complexity 1, sync, no API
    call) and new [login(username, rememberMe = false)] (complexity 3,
    async, calling [fetch]), whatever the two bodies return, the function
    diff produces one record for [login], "Function login changed:",
    followed by its details; they contain "Changed to async", "Added
    parameter: rememberMe (with default)" and "Added API calls", and no
    complexity line: an increase of two does not exceed the threshold,
    which the same change with complexity 4 does. *)
Theorem login_scenario (r1 r2 : bool) :
  let details := compareFunctions (oldLogin r1) (newLogin r2) in
  diffFunctions [oldLogin r1] [newLogin r2]
    = "Function login changed:" :: map (fun c => "  └─ " +++ c) details
  /\ In "Changed to async" details
  /\ In "Added parameter: rememberMe (with default)" details
  /\ In "Added API calls" details
  /\ ~ In "Complexity increased (1 → 3)" details
  /\ In "Complexity increased (1 → 4)"
        (compareFunctions (oldLogin r1)
           (mkFunc "login" true (params (newLogin r2)) r2 4 true)).
Proof.
  destruct r1, r2; cbv zeta; repeat split;
    try (vm_compute; tauto);
    try (intros H; apply (complexity_line_needs_threshold (oldLogin _) (newLogin _)) in H;
         simpl in H; lia).
Qed.

(** With pairwise distinct names, [find] by name returns the function
    itself. *)
Lemma findByName_self (funcs : list func) (f : func) :
  NoDup (map name funcs) -> In f funcs -> findByName funcs (name f) = Some f.
Proof.
  unfold findByName.
  induction funcs as [|g funcs IH]; simpl; [contradiction|].
  intros Hnd [-> | Hin].
  - now rewrite String.eqb_refl.
  - inversion Hnd as [|? ? Hnotin Hnd']; subst.
    destruct (String.eqb_spec (name g) (name f)) as [E|_].
    + exfalso. apply Hnotin. rewrite E. now apply in_map.
    + now apply IH.
Qed.

Lemma flat_map_nil {A B} (f : A -> list B) (l : list A) :
  (forall x, In x l -> f x = []) -> flat_map f l = [].
Proof.
  induction l as [|a l IH]; simpl; intros H; [reflexivity|].
  rewrite (H a) by now left. apply IH. intros x Hx. apply H. now right.
Qed.

Lemma diffFunctions_self (funcs : list func) :
  NoDup (map name funcs) -> diffFunctions funcs funcs = [].
Proof.
  intros Hnd. unfold diffFunctions.
  rewrite !flat_map_nil; [reflexivity | |].
  - intros f Hf. now rewrite (findByName_self funcs f Hnd Hf).
  - intros f Hf. rewrite (findByName_self funcs f Hnd Hf).
    now rewrite compareFunctions_same.
Qed.

(** With a repeated name the second function is compared with the first
    one of that name. *)
Lemma diffFunctions_overloads :
  diffFunctions overloads overloads
  = ["Function handler changed:"; "  └─ Added parameter: context"].
Proof. reflexivity. Qed.

End FunctionFacts.

(** ** The declaration diff against itself *)

Module DeclarationFacts.
Import JsString Css StringFacts.

Lemma In_unique (x : string) (l : list string) : In x (unique l) <-> In x l.
Proof.
  induction l as [|a l IH]; simpl; [tauto|].
  rewrite filter_In, IH, negb_true_iff, String.eqb_neq.
  destruct (String.eqb_spec a x) as [->|Hne]; [tauto|].
  split; [tauto|]. intros [H|H]; [tauto|]. right. split; [assumption|congruence].
Qed.

Lemma NoDup_unique (l : list string) : NoDup (unique l).
Proof.
  induction l as [|a l IH]; simpl; constructor.
  - rewrite filter_In, negb_true_iff, String.eqb_neq. tauto.
  - now apply NoDup_filter.
Qed.

Lemma mem_unique (x : string) (l : list string) : mem x (unique l) = mem x l.
Proof.
  destruct (mem x l) eqn:E.
  - apply mem_In, In_unique, mem_In, E.
  - apply mem_false. rewrite In_unique. now apply mem_false.
Qed.

Lemma oneToOne_same (vals : list string) : oneToOne vals vals = None.
Proof.
  destruct vals as [|v [|w vals]]; simpl; try reflexivity.
  now rewrite String.eqb_refl.
Qed.

Lemma filter_nil {A} (f : A -> bool) (l : list A) :
  (forall x, In x l -> f x = false) -> filter f l = [].
Proof.
  induction l as [|a l IH]; simpl; intros H; [reflexivity|].
  rewrite (H a) by now left. apply IH. intros x Hx. apply H. now right.
Qed.

Lemma filter_not_mem_self (vals : list string) :
  filter (fun v => negb (mem v vals)) vals = [].
Proof.
  apply filter_nil. intros v Hv.
  apply negb_false_iff. now apply mem_In.
Qed.

Lemma flat_map_mem_self {B} (vals : list string) (f : string -> list B) :
  flat_map (fun v => if negb (mem v vals) then f v else []) vals = [].
Proof.
  apply FunctionFacts.flat_map_nil. intros v Hv.
  replace (mem v vals) with true by (symmetry; now apply mem_In).
  reflexivity.
Qed.

Lemma handleDisplayChanges_same (vals : list string) (counts : dict nat) (ast : root) :
  handleDisplayChanges vals vals counts ast = [].
Proof.
  unfold handleDisplayChanges. rewrite oneToOne_same.
  now rewrite !flat_map_mem_self.
Qed.

Lemma handleSpecialProperty_same (prop : string) (vals : list string)
    (newCounts oldCounts : dict nat) :
  handleSpecialProperty prop vals vals newCounts oldCounts = [].
Proof.
  unfold handleSpecialProperty. rewrite oneToOne_same.
  now rewrite !flat_map_mem_self.
Qed.

Lemma rawValueChanges_same (prop : string) (vals : list string) :
  rawValueChanges prop vals vals = [].
Proof.
  unfold rawValueChanges. rewrite oneToOne_same.
  now rewrite !filter_not_mem_self.
Qed.

(** With the same declarations on both sides no property reports anything. *)
Lemma compareProperty_same (props : dict (list string)) (ast : option root)
    (prop : string) :
  compareProperty props props ast prop = [].
Proof.
  unfold compareProperty.
  destruct (isAnimationProp prop); [reflexivity|].
  destruct (String.eqb prop "display"); [apply handleDisplayChanges_same|].
  destruct (mem prop specialProps); [apply handleSpecialProperty_same|].
  rewrite oneToOne_same, !filter_not_mem_self.
  unfold countedRecords; simpl.
  destruct (List.length _) as [|n]; reflexivity.
Qed.

Lemma analyzeAnimations_same (ast : root) : analyzeAnimations ast (Some ast) = [].
Proof.
  unfold analyzeAnimations. apply FunctionFacts.flat_map_nil.
  intros prop _. apply rawValueChanges_same.
Qed.

Lemma analyzeTypography_same (ast : root) : analyzeTypography ast (Some ast) = [].
Proof.
  unfold analyzeTypography. apply FunctionFacts.flat_map_nil.
  intros prop _. apply rawValueChanges_same.
Qed.

(** [detectDuplicateProperties] only pushes override warnings. *)
Lemma detectDuplicateProperties_warnings (ast : root) (c : change) :
  In c (detectDuplicateProperties ast) -> changeType_of c = Overridden.
Proof.
  unfold detectDuplicateProperties. rewrite in_flat_map.
  intros (rule & _ & H). unfold duplicatesOfRule in H.
  apply in_flat_map in H. destruct H as ([prop values] & _ & H).
  destruct (1 <? _); [|contradiction].
  destruct H as [<-|[]]. reflexivity.
Qed.

(** Diffing a stylesheet against itself leaves the override warnings of
    that stylesheet and nothing else. *)
Lemma compareDeclarations_self (ast : option root) :
  compareDeclarations ast ast
  = match ast with Some a => detectDuplicateProperties a | None => [] end.
Proof.
  unfold compareDeclarations.
  rewrite (FunctionFacts.flat_map_nil (compareProperty _ _ ast))
    by (intros; apply compareProperty_same).
  destruct ast as [a|]; simpl; [|reflexivity].
  now rewrite analyzeAnimations_same, analyzeTypography_same, app_nil_r.
Qed.

Lemma selectorRecords_self (mk : string -> option nat -> change) (m : dict nat) :
  selectorRecords mk m m = [].
Proof.
  unfold selectorRecords. apply FunctionFacts.flat_map_nil. intros [k c] Hin.
  now rewrite (In_dict_has m k c Hin).
Qed.

Lemma compareSelectorsWithContext_self (ast : option root) :
  compareSelectorsWithContext ast ast = [].
Proof.
  unfold compareSelectorsWithContext. now rewrite !selectorRecords_self.
Qed.

End DeclarationFacts.

(** ** Idempotence of the diff *)

Module IdempotenceFacts.
Import JsString Css Ast StringFacts Scenarios.

(** C5, as stated, fails: with two functions of one name and different
    parameter lists, the model diffed against itself reports the second
    function as modified. *)
Lemma self_diff_of_overloads :
  diffFunctions overloads overloads
  = ["Function handler changed:"; "  └─ Added parameter: context"]
  /\ ~ (forall funcs : list func, diffFunctions funcs funcs = []).
Proof.
  split; [reflexivity|].
  intros H. specialize (H overloads). discriminate H.
Qed.

(** C5, amended.  For every model whose functions have pairwise distinct
    names, and for every stylesheet (rules and declarations may repeat),
    diffing the model against itself produces no Added, Removed or Modified
    record: the function diff and the selector diff are empty, and the
    declaration diff holds nothing but the override warnings of the
    stylesheet. *)
Theorem self_diff_reports_nothing (funcs : list func) (ast : option root) :
  NoDup (map Ast.name funcs) ->
  diffFunctions funcs funcs = []
  /\ compareSelectorsWithContext ast ast = []
  /\ filter is_diff_record (compareDeclarations ast ast) = [].
Proof.
  intros Hnd. split; [|split].
  - now apply FunctionFacts.diffFunctions_self.
  - apply DeclarationFacts.compareSelectorsWithContext_self.
  - rewrite DeclarationFacts.compareDeclarations_self.
    apply DeclarationFacts.filter_nil. intros c Hc.
    destruct ast as [a|]; [|contradiction].
    apply DeclarationFacts.detectDuplicateProperties_warnings in Hc.
    unfold is_diff_record. now rewrite Hc.
Qed.

Lemma self_diff_witness :
  NoDup (map Ast.name [oldLogin true; mkFunc "logout" false [] false 1 false])
  /\ diffFunctions [oldLogin true; mkFunc "logout" false [] false 1 false]
                   [oldLogin true; mkFunc "logout" false [] false 1 false] = []
  /\ compareSelectorsWithContext (Some repeatedSheet) (Some repeatedSheet) = []
  /\ filter is_diff_record (compareDeclarations (Some repeatedSheet) (Some repeatedSheet)) = [].
Proof.
  assert (Hnd : NoDup (map Ast.name
                         [oldLogin true; mkFunc "logout" false [] false 1 false])).
  { simpl. repeat constructor; simpl; intuition discriminate. }
  split; [exact Hnd|].
  exact (self_diff_reports_nothing _ (Some repeatedSheet) Hnd).
Defined.

End IdempotenceFacts.

(** ** The 1-to-1 collapse of the declaration diff *)

Module CollapseFacts.
Import JsString Css StringFacts DeclarationFacts.

Ltac break_in H :=
  repeat match type of H with
         | context [match ?x with _ => _ end] => destruct x eqn:?; simpl in H
         end.

(** *** Which properties a record can be about *)

Lemma In_keys_dict_set {V} (m : dict V) (k q : string) (v : V) :
  In q (dict_keys (dict_set m k v)) <-> q = k \/ In q (dict_keys m).
Proof.
  unfold dict_keys.
  induction m as [|[k0 v0] m IH]; simpl.
  - intuition congruence.
  - destruct (String.eqb_spec k k0) as [->|Hne]; simpl.
    + intuition congruence.
    + rewrite IH. intuition congruence.
Qed.

Lemma In_keys_pushed (ds : list (string * string)) (m : dict (list string)) (q : string) :
  In q (dict_keys (fold_left pushValue ds m))
  <-> In q (map fst ds) \/ In q (dict_keys m).
Proof.
  revert m; induction ds as [|d ds IH]; intros m; simpl.
  - tauto.
  - rewrite IH. unfold pushValue. rewrite In_keys_dict_set.
    intuition congruence.
Qed.

Lemma keys_extractProps (keep : string -> bool) (ast : root) (q : string) :
  In q (dict_keys (extractProps keep ast)) -> keep q = true.
Proof.
  unfold extractProps. rewrite In_keys_pushed. intros [H|[]].
  apply in_map_iff in H. destruct H as (d & <- & Hd).
  now apply filter_In in Hd.
Qed.

Lemma rawValueChanges_about (prop : string) (newVals oldVals : list string) (c : change) :
  In c (rawValueChanges prop newVals oldVals) -> prop_of c = Some prop.
Proof.
  unfold rawValueChanges. destruct (oneToOne _ _) as [[o n]|].
  - intros [<-|[]]. reflexivity.
  - rewrite in_app_iff, !in_map_iff.
    intros [(v & <- & _)|(v & <- & _)]; reflexivity.
Qed.

Lemma analyzeAnimations_about (newAST : root) (oldAST : option root) (c : change) :
  In c (analyzeAnimations newAST oldAST) ->
  exists q, prop_of c = Some q /\ isAnimationProp q = true.
Proof.
  unfold analyzeAnimations. rewrite in_flat_map.
  intros (q & Hq & Hc). exists q. split.
  - eapply rawValueChanges_about, Hc.
  - apply In_unique, in_app_iff in Hq. destruct Hq as [Hq|Hq].
    + eapply keys_extractProps, Hq.
    + destruct oldAST as [a|]; [eapply keys_extractProps, Hq | contradiction].
Qed.

Lemma analyzeTypography_about (newAST : root) (oldAST : option root) (c : change) :
  In c (analyzeTypography newAST oldAST) ->
  exists q, prop_of c = Some q /\ mem q typographyProps = true.
Proof.
  unfold analyzeTypography. rewrite in_flat_map.
  intros (q & Hq & Hc). exists q. split.
  - eapply rawValueChanges_about, Hc.
  - exact (keys_extractProps (fun p => mem p typographyProps) newAST q Hq).
Qed.

Lemma analyzeFlexboxProperties_details (ast : root) (c : change) :
  In c (analyzeFlexboxProperties ast) -> prop_of c = None.
Proof.
  unfold analyzeFlexboxProperties. rewrite !in_app_iff.
  intros [H|[H|[H|H]]]; break_in H; try contradiction;
    destruct H as [<-|[]]; reflexivity.
Qed.

Lemma analyzeGridProperties_details (ast : root) (c : change) :
  In c (analyzeGridProperties ast) -> prop_of c = None.
Proof.
  unfold analyzeGridProperties. rewrite in_flat_map.
  intros ([prop value] & _ & H). rewrite !in_app_iff in H.
  destruct H as [H|[H|H]]; break_in H; try contradiction;
    destruct H as [<-|[]]; reflexivity.
Qed.

Lemma handleDisplayChanges_about (newVals oldVals : list string) (counts : dict nat)
    (ast : root) (c : change) :
  In c (handleDisplayChanges newVals oldVals counts ast) ->
  prop_of c = Some "display" \/ prop_of c = None.
Proof.
  unfold handleDisplayChanges. destruct (oneToOne _ _) as [[o n]|].
  - intros H. break_in H.
    + destruct H as [<-|H]; [now left | right; eapply analyzeFlexboxProperties_details, H].
    + destruct H as [<-|H]; [now left | right; eapply analyzeGridProperties_details, H].
    + destruct H as [<-|[]]. now left.
  - rewrite in_app_iff, !in_flat_map.
    intros [(v & _ & H)|(v & _ & H)]; break_in H; try contradiction.
    + destruct H as [<-|H]; [now left | right; eapply analyzeFlexboxProperties_details, H].
    + destruct H as [<-|H]; [now left | right; eapply analyzeGridProperties_details, H].
    + destruct H as [<-|[]]. now left.
    + destruct H as [<-|[]]. now left.
    + destruct H as [<-|[]]. now left.
Qed.

Lemma handleSpecialProperty_about (prop : string) (newVals oldVals : list string)
    (newCounts oldCounts : dict nat) (c : change) :
  In c (handleSpecialProperty prop newVals oldVals newCounts oldCounts) ->
  prop_of c = Some prop.
Proof.
  unfold handleSpecialProperty. destruct (oneToOne _ _) as [[o n]|].
  - intros [<-|[]]. reflexivity.
  - rewrite in_app_iff, !in_flat_map.
    intros [(v & _ & H)|(v & _ & H)].
    + destruct (negb (mem v oldVals)); [|contradiction].
      destruct (String.eqb prop "visibility" && String.eqb v "hidden") eqn:E.
      * destruct H as [<-|[]]. apply andb_prop in E. destruct E as [E _].
        apply String.eqb_eq in E. now subst.
      * destruct H as [<-|[]]. reflexivity.
    + destruct (negb (mem v newVals)); [|contradiction].
      destruct H as [<-|[]]. reflexivity.
Qed.

Lemma countedRecords_about (mk : string -> option nat -> change) (prop : string)
    (counts : dict nat) (values : list string) (c : change) :
  (forall v s, prop_of (mk v s) = Some prop) ->
  In c (countedRecords mk counts values) -> prop_of c = Some prop.
Proof.
  intros Hmk. unfold countedRecords. rewrite in_map_iff.
  intros (v & <- & _). apply Hmk.
Qed.

(** Every record pushed while the loop handles [prop] is about [prop], or
    is a layout sub-detail. *)
Lemma compareProperty_about (oldProps newProps : dict (list string))
    (newAST : option root) (prop : string) (c : change) :
  In c (compareProperty oldProps newProps newAST prop) ->
  prop_of c = Some prop \/ prop_of c = None.
Proof.
  unfold compareProperty.
  destruct (isAnimationProp prop); [contradiction|].
  destruct (String.eqb_spec prop "display") as [->|_].
  { apply handleDisplayChanges_about. }
  destruct (mem prop specialProps).
  { intros H. left. eapply handleSpecialProperty_about, H. }
  destruct (oneToOne _ _) as [[o n]|].
  { intros [<-|[]]. now left. }
  intros H. left. break_in H.
  - eapply countedRecords_about, H. reflexivity.
  - eapply countedRecords_about, H. reflexivity.
  - apply in_app_iff in H. destruct H as [H|H];
      (eapply countedRecords_about; [|exact H]); reflexivity.
Qed.

Lemma filter_flat_map_one {A B} (P : B -> bool) (f : A -> list B) (l : list A) (a : A) :
  NoDup l -> In a l ->
  (forall b, In b l -> b <> a -> filter P (f b) = []) ->
  filter P (flat_map f l) = filter P (f a).
Proof.
  induction l as [|b l IH]; simpl; [contradiction|].
  intros Hnd Hin Hother. inversion Hnd as [|? ? Hnotin Hnd']; subst.
  rewrite filter_app. destruct Hin as [->|Hin].
  - rewrite (filter_nil P (flat_map f l)); [apply app_nil_r|].
    intros c Hc. apply in_flat_map in Hc. destruct Hc as (b & Hb & Hc).
    assert (Hne : b <> a) by (intros ->; contradiction).
    pose proof (Hother b (or_intror Hb) Hne) as Hnil.
    destruct (P c) eqn:E; [|reflexivity].
    assert (Hf : In c (filter P (f b))) by (apply filter_In; now split).
    rewrite Hnil in Hf. contradiction.
  - rewrite (Hother b); [| now left | intros ->; contradiction].
    apply IH; [assumption | assumption |].
    intros b' Hb'. apply Hother. now right.
Qed.

Lemma distinctValues_key (ast : root) (prop x : string) :
  distinctValues ast prop = [x] -> In prop (dict_keys (extractDeclarations ast)).
Proof.
  unfold distinctValues, valuesOf. intros H.
  apply mem_In. rewrite <- dict_has_keys. unfold dict_has.
  destruct (dict_get _ prop); [reflexivity | discriminate].
Qed.

Lemma about_other (p q : string) (c : change) :
  p <> q -> prop_of c = Some q \/ prop_of c = None -> about p c = false.
Proof.
  unfold about. intros Hne [-> | ->]; [|reflexivity].
  apply String.eqb_neq. congruence.
Qed.

(** C2, as stated, fails: [transform] belongs to the properties that the
    loop hands over to [analyzeAnimations], which compares raw values.  The
    old version has one distinct normalized value, [none], the new one
    [scale(2)], and the diff reports one addition and two removals. *)
Lemma collapse_fails_for_transform :
  distinctValues Scenarios.transformOld "transform" = ["none"]
  /\ distinctValues Scenarios.transformNew "transform" = ["scale(2)"]
  /\ map render (compareDeclarations (Some Scenarios.transformOld)
                                     (Some Scenarios.transformNew))
     = ["Property added: transform: scale(2) (2 elements)";
        "Property removed: transform: NONE";
        "Property removed: transform: none"]
  /\ ~ (exists suffix,
          recordsAbout "transform"
            (compareDeclarations (Some Scenarios.transformOld)
                                 (Some Scenarios.transformNew))
          = [PropChanged "transform" "none" "scale(2)" suffix]).
Proof.
  repeat split; try reflexivity.
  intros (suffix & H). vm_compute in H. discriminate H.
Qed.

(** C2, amended.  For every declaration property other than
    [animation*], [transition] and [transform] (which the loop leaves to
    [analyzeAnimations]), and leaving the typography properties aside:
    when the old version has exactly one distinct normalized value [x], the
    new version exactly one, [y], and they differ, the declaration diff
    holds exactly one record about the property among its Added, Removed
    and Modified records, and it is the Modified record of the change from
    [x] to [y]: "Property changed: p from x → y", with the number of
    elements when one side declares the property more than once; without
    it for [position], [visibility], [opacity], [z-index] and [display];
    and worded "Changed to Flexbox layout (was: x)" or "Changed to CSS Grid
    layout (was: x)" when [display] becomes [flex] or [grid]. *)
Theorem one_to_one_collapse (oldAST newAST : root) (prop x y : string) :
  isAnimationProp prop = false ->
  mem prop typographyProps = false ->
  distinctValues oldAST prop = [x] ->
  distinctValues newAST prop = [y] ->
  x <> y ->
  recordsAbout prop (compareDeclarations (Some oldAST) (Some newAST))
  = [collapsedRecord prop x y
       (Nat.max (List.length (valuesOf (extractDeclarations oldAST) prop))
                (List.length (valuesOf (extractDeclarations newAST) prop)))].
Proof.
  intros Hanim Htypo Hold Hnew Hxy.
  unfold compareDeclarations, recordsAbout.
  rewrite !filter_app.
  rewrite (filter_nil _ (detectDuplicateProperties newAST)).
  2:{ intros c Hc. apply detectDuplicateProperties_warnings in Hc.
      unfold is_diff_record. now rewrite Hc. }
  rewrite (filter_nil _ (analyzeAnimations newAST (Some oldAST))).
  2:{ intros c Hc. apply analyzeAnimations_about in Hc.
      destruct Hc as (q & Hq & Hanim'). apply andb_false_iff. right.
      apply (about_other prop q); [congruence | now left]. }
  rewrite (filter_nil _ (analyzeTypography newAST (Some oldAST))).
  2:{ intros c Hc. apply analyzeTypography_about in Hc.
      destruct Hc as (q & Hq & Htypo'). apply andb_false_iff. right.
      apply (about_other prop q); [congruence | now left]. }
  rewrite app_nil_r. simpl app.
  rewrite (filter_flat_map_one _ _ _ prop).
  - unfold compareProperty, collapsedRecord. rewrite Hanim.
    unfold distinctValues in Hold, Hnew. cbv zeta. rewrite Hold, Hnew.
    assert (Hneq : String.eqb x y = false) by now apply String.eqb_neq.
    destruct (String.eqb_spec prop "display") as [->|_].
    + unfold handleDisplayChanges. simpl oneToOne. rewrite Hneq.
      assert (Hdetails : forall details,
                 (forall c, In c details -> prop_of c = None) ->
                 filter (fun c => is_diff_record c && about "display" c) details = []).
      { intros details H. apply filter_nil. intros c Hc.
        unfold about. rewrite (H c Hc). apply andb_false_r. }
      destruct (String.eqb y "flex").
      { simpl. f_equal. apply Hdetails, analyzeFlexboxProperties_details. }
      destruct (String.eqb y "grid").
      { simpl. f_equal. apply Hdetails, analyzeGridProperties_details. }
      reflexivity.
    + unfold handleSpecialProperty. simpl oneToOne. rewrite Hneq.
      rewrite !length_map.
      destruct (mem prop specialProps); simpl;
        unfold about; simpl; now rewrite String.eqb_refl.
  - apply NoDup_unique.
  - apply In_unique, in_app_iff. left. eapply distinctValues_key, Hold.
  - intros q _ Hq. apply filter_nil. intros c Hc.
    apply compareProperty_about in Hc. apply andb_false_iff. right.
    apply (about_other prop q); [congruence | assumption].
Qed.

Lemma one_to_one_collapse_witness :
  distinctValues Scenarios.redSheet "color" = ["red"]
  /\ distinctValues Scenarios.blueSheet "color" = ["blue"]
  /\ recordsAbout "color"
       (compareDeclarations (Some Scenarios.redSheet) (Some Scenarios.blueSheet))
     = [PropChanged "color" "red" "blue" None]
  /\ map render (compareDeclarations (Some Scenarios.redSheet) (Some Scenarios.blueSheet))
     = ["Property changed: color from red → blue"].
Proof.
  split; [reflexivity|]. split; [reflexivity|]. split; [|reflexivity].
  apply (one_to_one_collapse Scenarios.redSheet Scenarios.blueSheet "color" "red" "blue");
    try reflexivity; discriminate.
Defined.

(** The typography properties are left out of the statement above: the
    loop reports them, and [analyzeTypography] reports them again. *)
Lemma typography_reported_twice :
  map render (compareDeclarations (Some Scenarios.smallFont) (Some Scenarios.largeFont))
  = ["Property changed: font-size from 12px → 14px";
     "Property changed: font-size from 12px → 14px"].
Proof. reflexivity. Qed.

End CollapseFacts.

(** ** Symmetry of the diff *)

Module SymmetryFacts.
Import JsString Css StringFacts Scenarios.

Lemma mirror_selectorRecords (other m : dict nat) :
  map mirror (selectorRecords SelectorAdded other m) = selectorRecords SelectorRemoved other m
  /\ map mirror (selectorRecords SelectorRemoved other m) = selectorRecords SelectorAdded other m.
Proof.
  unfold selectorRecords.
  induction m as [|[k c] m [IH1 IH2]]; simpl; [now split|].
  rewrite !map_app, IH1, IH2.
  now destruct (dict_has other k).
Qed.

Lemma selectorRecords_types (other m : dict nat) :
  filter (hasType Added) (selectorRecords SelectorAdded other m)
    = selectorRecords SelectorAdded other m
  /\ filter (hasType Removed) (selectorRecords SelectorAdded other m) = []
  /\ filter (hasType Removed) (selectorRecords SelectorRemoved other m)
    = selectorRecords SelectorRemoved other m
  /\ filter (hasType Added) (selectorRecords SelectorRemoved other m) = [].
Proof.
  unfold selectorRecords.
  induction m as [|[k c] m (IH1 & IH2 & IH3 & IH4)]; simpl; [now repeat split|].
  rewrite !filter_app, IH1, IH2, IH3, IH4.
  now destruct (dict_has other k).
Qed.

(** The selector diff is symmetric: the records of one direction are the
    mirror images of those of the other, selector paths and occurrence
    counts included. *)
Lemma compareSelectorsWithContext_mirror (oldAST newAST : option root) :
  compareSelectorsWithContext newAST oldAST
  = map mirror (filter (hasType Removed) (compareSelectorsWithContext oldAST newAST))
    ++ map mirror (filter (hasType Added) (compareSelectorsWithContext oldAST newAST)).
Proof.
  unfold compareSelectorsWithContext; cbv zeta.
  set (mo := selectorMap match oldAST with Some a => _ | None => _ end).
  set (mn := selectorMap match newAST with Some a => _ | None => _ end).
  rewrite !filter_app.
  destruct (selectorRecords_types mo mn) as (A1 & A2 & _ & _).
  destruct (selectorRecords_types mn mo) as (_ & _ & R1 & R2).
  rewrite A1, A2, R1, R2, app_nil_r. simpl app.
  destruct (mirror_selectorRecords mn mo) as (_ & M1).
  destruct (mirror_selectorRecords mo mn) as (M2 & _).
  now rewrite M1, M2.
Qed.

(** C6 fails in [handleDisplayChanges]: the removals look their count up in
    the dictionary of the new values, where a removed value is never found.
    [display: block] on two elements is added with its count and removed
    without it, while [position: fixed], which goes through
    [handleSpecialProperty], keeps the count both ways. *)
Theorem display_removal_loses_count :
  compareDeclarations (Some plainSheet) (Some blocksSheet)
    = [PropAdded "display" "block" (Some 2)]
  /\ compareDeclarations (Some blocksSheet) (Some plainSheet)
    = [PropRemoved "display" "block" None]
  /\ map render (compareDeclarations (Some plainSheet) (Some blocksSheet))
    = ["Property added: display: block (2 elements)"]
  /\ map render (compareDeclarations (Some blocksSheet) (Some plainSheet))
    = ["Property removed: display: block"]
  /\ map render (compareDeclarations (Some plainSheet) (Some fixedSheet))
    = ["Property added: position: fixed (2 elements)"]
  /\ map render (compareDeclarations (Some fixedSheet) (Some plainSheet))
    = ["Property removed: position: fixed (2 elements)"].
Proof.
  assert (Hcounts : countValues ["block"; "block"] = [("block", 2)]) by reflexivity.
  assert (Hmissing : dict_get (countValues []) "block" = None) by reflexivity.
  repeat split; vm_compute; reflexivity.
Qed.

End SymmetryFacts.

(** ** The fallback controller *)

Module ControllerFacts.
Import JsString Analyzer StringFacts Scenarios.

Section Parsers.

Variable analyzeFile : diffEntry -> string -> outcome astResult.
Variables parseHTML parseCSS parseJQuery parseJS parseReact : option parser.

Abbreviation entry := (analyzeEntry analyzeFile parseHTML parseCSS parseJQuery parseJS parseReact).
Abbreviation loop := (analyzeLoop analyzeFile parseHTML parseCSS parseJQuery parseJS parseReact).
Abbreviation run := (analyzeChanges analyzeFile parseHTML parseCSS parseJQuery parseJS parseReact).

Lemma fallbackToRegex_returns (fileType : string) (d : diffEntry) :
  exists x, fallbackToRegex parseJS parseReact fileType d = Return x.
Proof.
  unfold fallbackToRegex.
  destruct (if String.eqb fileType "react" then _ else _) as [changes|m]; simpl;
    eexists; reflexivity.
Qed.

Lemma extractCode_returns (opts : options) (fileType : string) (d : diffEntry) :
  exists x, extractCode analyzeFile parseJS parseReact opts fileType d = Return x.
Proof.
  unfold extractCode.
  destruct (analyzeFile d _) as [a|m]; simpl.
  - destruct (success a); eexists; reflexivity.
  - apply fallbackToRegex_returns.
Qed.

Lemma extractOther_returns (fileType : string) (d : diffEntry) :
  exists x, extractOther parseHTML parseCSS parseJQuery fileType d = Return x.
Proof.
  unfold extractOther.
  destruct (String.eqb fileType "html").
  { destruct (call "parseHTML" _ _ _); simpl; eexists; reflexivity. }
  destruct (String.eqb fileType "css" || String.eqb fileType "scss").
  { destruct (call "parseCSS" _ _ _); simpl; eexists; reflexivity. }
  destruct (String.eqb fileType "jquery").
  { destruct (call "parseJQuery" _ _ _); simpl; eexists; reflexivity. }
  simpl; eexists; reflexivity.
Qed.

(** Every artifact gets an entry, with at least one change record. *)
Lemma analyzeEntry_returns (opts : options) (d : diffEntry) :
  exists r, entry opts d = Return r /\ r_changes r <> [].
Proof.
  unfold analyzeEntry.
  destruct (String.eqb (status d) "added"); [eexists; split; [reflexivity | discriminate]|].
  destruct (String.eqb (status d) "deleted"); [eexists; split; [reflexivity | discriminate]|].
  destruct (String.eqb (status d) "renamed"); [eexists; split; [reflexivity | discriminate]|].
  destruct (binary d); [eexists; split; [reflexivity | discriminate]|].
  assert (H : exists x,
             (if mem (detectFileType (path d) (diff d)) ["javascript"; "typescript"; "react"]
              then extractCode analyzeFile parseJS parseReact opts
                     (detectFileType (path d) (diff d)) d
              else extractOther parseHTML parseCSS parseJQuery
                     (detectFileType (path d) (diff d)) d) = Return x).
  { destruct (mem _ _); [apply extractCode_returns | apply extractOther_returns]. }
  destruct H as ([[changes0 parseMethod] parserType] & ->). simpl.
  eexists; split; [reflexivity|]. simpl.
  destruct (ensureArray changes0); simpl; discriminate.
Qed.

Lemma analyzeLoop_returns (opts : options) (diffs : list diffEntry) (results : list result) :
  exists rs, loop opts diffs results = Return (results ++ rs)
             /\ Forall2 (fun d r => entry opts d = Return r) diffs rs
             /\ Forall (fun r => r_changes r <> []) rs.
Proof.
  revert results; induction diffs as [|d diffs IH]; intros results; simpl.
  - exists []. rewrite app_nil_r. repeat split; constructor.
  - destruct (analyzeEntry_returns opts d) as (r & Hr & Hne).
    rewrite Hr; simpl.
    destruct (IH (results ++ [r])) as (rs & Hloop & Hall & Hnonempty).
    exists (r :: rs). rewrite Hloop, <- app_assoc. simpl.
    repeat split; constructor; assumption.
Qed.

(** The records of an entry whose extraction ended in [parseGeneric]. *)
Lemma parseGeneric_shown (diff : string) :
  (if 0 <? List.length (parseGeneric diff) then parseGeneric diff else ["Code modified"])
  = (let lines := split_on (ascii_of_nat 10) diff in
     let added := countLines "+" "+++" lines in
     let removed := countLines "-" "---" lines in
     if (0 <? added) && (0 <? removed)
     then ["Modified: +" +++ nat_to_string added +++ " -" +++ nat_to_string removed +++ " lines"]
     else if 0 <? added then ["Added " +++ nat_to_string added +++ " lines"]
     else if 0 <? removed then ["Removed " +++ nat_to_string removed +++ " lines"]
     else ["Code modified"]).
Proof.
  unfold parseGeneric. cbv zeta.
  destruct (0 <? countLines "+" "+++" _), (0 <? countLines "-" "---" _); reflexivity.
Qed.

(** C9.  For every batch, whatever the parsers do (return, throw, or be
    [undefined]), [analyzeChanges] does not throw and returns exactly one
    entry per artifact, in order.  The entry of an artifact is the one the
    artifact gets when it is analysed alone, so a failure in one artifact
    alters no other entry; it names the artifact's file and carries at
    least one change record.  For a modified, non-binary artifact a
    failure is recovered by demotion: when the full-file analysis of a
    JavaScript, TypeScript or React artifact throws, the entry carries the
    records of the regex parser, tagged [regex-fallback]; when that parser
    throws as well (or is [undefined]), or when the parser of an HTML, CSS,
    SCSS or jQuery artifact throws, the entry is tagged [generic-fallback]
    and carries what the generic tier gives to an artifact of any other
    type: the line-count summary (one record with the numbers of added and
    removed lines, or "Code modified" for a diff without such lines). *)
Theorem analyzeChanges_one_entry_per_artifact (opts : options) (diffs : list diffEntry) :
  let branch := match targetBranch opts with
                | Some b => if truthy b then b else "main"
                | None => "main"
                end in
  exists results,
    run diffs opts = Return results
    /\ List.length results = List.length diffs
    /\ Forall2
         (fun d r =>
            let fileType := detectFileType (path d) (diff d) in
            let lines := split_on (ascii_of_nat 10) (diff d) in
            let added := countLines "+" "+++" lines in
            let removed := countLines "-" "---" lines in
            let lineCounts :=
              if (0 <? added) && (0 <? removed)
              then ["Modified: +" +++ nat_to_string added +++ " -"
                    +++ nat_to_string removed +++ " lines"]
              else if 0 <? added then ["Added " +++ nat_to_string added +++ " lines"]
              else if 0 <? removed then ["Removed " +++ nat_to_string removed +++ " lines"]
              else ["Code modified"] in
            let regexTier :=
              if String.eqb fileType "react"
              then call "parseReact" parseReact (diff d) (path d)
              else call "parseJS" parseJS (diff d) (path d) in
            let typedTier :=
              if String.eqb fileType "html"
              then call "parseHTML" parseHTML (diff d) (path d)
              else if String.eqb fileType "css" || String.eqb fileType "scss"
              then call "parseCSS" parseCSS (diff d) (path d)
              else call "parseJQuery" parseJQuery (diff d) (path d) in
            run [d] opts = Return [r]
            /\ r_file r = (if String.eqb (status d) "renamed" then newPath d else path d)
            /\ r_changes r <> []
            /\ (String.eqb (status d) "added" = false ->
                String.eqb (status d) "deleted" = false ->
                String.eqb (status d) "renamed" = false ->
                binary d = false ->
                r_status r = "modified" /\ r_type r = fileType
                /\ (mem fileType ["javascript"; "typescript"; "react"] = true ->
                    forall m, analyzeFile d branch = Throw m ->
                      (forall c, regexTier = Return c ->
                         r_parseMethod r = Some "regex-fallback"
                         /\ r_changes r = (if 0 <? List.length (ensureArray c)
                                           then ensureArray c else ["Code modified"]))
                      /\ (forall m', regexTier = Throw m' ->
                            r_parseMethod r = Some "generic-fallback"
                            /\ r_changes r = lineCounts))
                /\ (mem fileType ["html"; "css"; "scss"; "jquery"] = true ->
                    forall m, typedTier = Throw m ->
                      r_parseMethod r = Some "generic-fallback" /\ r_changes r = lineCounts)
                /\ (mem fileType ["javascript"; "typescript"; "react";
                                  "html"; "css"; "scss"; "jquery"] = false ->
                    r_parseMethod r = Some "generic" /\ r_changes r = lineCounts)))
         diffs results.
Proof.
  intros branch. subst branch. unfold analyzeChanges.
  destruct (analyzeLoop_returns opts diffs []) as (rs & Hloop & Hall & _).
  exists rs. split; [exact Hloop|]. split; [symmetry; eapply Forall2_length, Hall|].
  eapply Forall2_impl; [|exact Hall].
  intros d r Hentry. cbv zeta. split; [simpl; now rewrite Hentry|].
  rewrite <- parseGeneric_shown.
  destruct (analyzeEntry_returns opts d) as (r' & Hr' & Hne).
  rewrite Hentry in Hr'. injection Hr' as <-.
  revert Hentry. unfold analyzeEntry.
  destruct (String.eqb (status d) "added") eqn:Eadded.
  { apply String.eqb_eq in Eadded. rewrite Eadded. intros [= <-].
    split; [reflexivity | split; [assumption | discriminate]]. }
  destruct (String.eqb (status d) "deleted") eqn:Edeleted.
  { apply String.eqb_eq in Edeleted. rewrite Edeleted. intros [= <-].
    split; [reflexivity | split; [assumption | discriminate]]. }
  destruct (String.eqb (status d) "renamed") eqn:Erenamed.
  { intros [= <-]. split; [reflexivity | split; [assumption | discriminate]]. }
  destruct (binary d) eqn:Ebinary.
  { intros [= <-]. split; [reflexivity | split; [assumption | discriminate]]. }
  set (fileType := detectFileType (path d) (diff d)).
  intros Hentry.
  split; [|split; [assumption|intros _ _ _ _]].
  { destruct (if mem fileType _ then _ else _) as [[[c0 pm] pt]|m]; simpl in Hentry;
      [|discriminate]. now injection Hentry as <-. }
  split; [|split].
  { destruct (if mem fileType _ then _ else _) as [[[c0 pm] pt]|m]; simpl in Hentry;
      [|discriminate]. now injection Hentry as <-. }
  { destruct (if mem fileType _ then _ else _) as [[[c0 pm] pt]|m]; simpl in Hentry;
      [|discriminate]. now injection Hentry as <-. }
  split; [|split].
  - intros Hcode m Hfail. rewrite Hcode in Hentry.
    unfold extractCode, fallbackToRegex in Hentry. rewrite Hfail in Hentry.
    cbn [Js.try_catch] in Hentry.
    split.
    + intros c Hc. rewrite Hc in Hentry. simpl in Hentry.
      injection Hentry as <-. now split.
    + intros m' Hc. rewrite Hc in Hentry. simpl in Hentry.
      injection Hentry as <-. now split.
  - intros Htyped m Hfail.
    assert (Hcode : mem fileType ["javascript"; "typescript"; "react"] = false).
    { apply mem_In in Htyped.
      destruct Htyped as [<-|[<-|[<-|[<-|[]]]]]; reflexivity. }
    rewrite Hcode in Hentry. unfold extractOther in Hentry.
    unfold mem in Htyped. cbn [existsb] in Htyped.
    destruct (String.eqb fileType "html").
    { rewrite Hfail in Hentry. simpl in Hentry. injection Hentry as <-. now split. }
    destruct (String.eqb fileType "css"), (String.eqb fileType "scss");
      cbn [orb] in *;
      try (rewrite Hfail in Hentry; simpl in Hentry; injection Hentry as <-; now split).
    destruct (String.eqb fileType "jquery"); [|discriminate].
    rewrite Hfail in Hentry. simpl in Hentry. injection Hentry as <-. now split.
  - intros Hother. unfold mem in Hother. cbn [existsb] in Hother.
    unfold mem in Hentry. cbn [existsb] in Hentry. unfold extractOther in Hentry.
    destruct (String.eqb fileType "javascript"); [discriminate|].
    destruct (String.eqb fileType "typescript"); [discriminate|].
    destruct (String.eqb fileType "react"); [discriminate|].
    destruct (String.eqb fileType "html"); [discriminate|].
    destruct (String.eqb fileType "css"); [discriminate|].
    destruct (String.eqb fileType "scss"); [discriminate|].
    destruct (String.eqb fileType "jquery"); [discriminate|].
    simpl in Hentry. injection Hentry as <-. now split.
Qed.

(** The worst case of a modified artifact: when the parser chosen for it
    throws (and, for code, the regex parser throws as well), the entry is
    the line-count summary of [parseGeneric]. *)
Lemma generic_tier_is_the_worst_case (opts : options) (d : diffEntry) (x : extraction) :
  (if mem (detectFileType (path d) (diff d)) ["javascript"; "typescript"; "react"]
   then fallbackToRegex parseJS parseReact (detectFileType (path d) (diff d)) d
   else extractOther parseHTML parseCSS parseJQuery (detectFileType (path d) (diff d)) d)
  = Return x ->
  snd (fst x) = "generic-fallback" ->
  fst (fst x) = Js.Arr (parseGeneric (diff d)).
Proof.
  destruct (mem _ _).
  - unfold fallbackToRegex.
    destruct (if String.eqb _ "react" then _ else _) as [c|m]; simpl;
      intros [= <-]; simpl; [discriminate | reflexivity].
  - unfold extractOther.
    destruct (String.eqb _ "html").
    { destruct (call "parseHTML" _ _ _); simpl; intros [= <-]; simpl;
        [discriminate | reflexivity]. }
    destruct (String.eqb _ "css" || String.eqb _ "scss").
    { destruct (call "parseCSS" _ _ _); simpl; intros [= <-]; simpl;
        [discriminate | reflexivity]. }
    destruct (String.eqb _ "jquery").
    { destruct (call "parseJQuery" _ _ _); simpl; intros [= <-]; simpl;
        [discriminate | reflexivity]. }
    simpl; intros [= <-]; simpl; discriminate.
Qed.

End Parsers.

(** A batch of two artifacts whose parsers all fail. *)
Lemma analyzeChanges_witness :
  exists results,
    analyzeChanges failingAnalysis None (Some failingParser) None
                   (parseJS_import oneRecord) (Some oneRecord)
                   [brokenScript; brokenStyle] noRisk = Return results
    /\ map r_file results = ["src/app.js"; "src/app.css"]
    /\ map r_parseMethod results = [Some "generic-fallback"; Some "generic-fallback"]
    /\ map r_changes results = [["Added 1 lines"]; ["Removed 1 lines"]].
Proof.
  destruct (analyzeChanges_one_entry_per_artifact failingAnalysis None (Some failingParser)
              None (parseJS_import oneRecord) (Some oneRecord) noRisk
              [brokenScript; brokenStyle]) as (results & Hrun & _ & Hall).
  exists results. split; [exact Hrun|].
  inversion Hall as [|d1 r1 ds1 rs1 H1 Hall1]; subst.
  inversion Hall1 as [|d2 r2 ds2 rs2 H2 Hall2]; subst.
  inversion Hall2; subst.
  destruct H1 as (_ & Hfile1 & _ & H1). destruct H2 as (_ & Hfile2 & _ & H2).
  destruct (H1 eq_refl eq_refl eq_refl eq_refl) as (_ & _ & Hcode & _ & _).
  destruct (Hcode eq_refl _ eq_refl) as (_ & Hgeneric1).
  destruct (Hgeneric1 _ eq_refl) as (Hm1 & Hc1).
  destruct (H2 eq_refl eq_refl eq_refl eq_refl) as (_ & _ & _ & Htyped & _).
  destruct (Htyped eq_refl _ eq_refl) as (Hm2 & Hc2).
  simpl. rewrite Hfile1, Hfile2, Hm1, Hm2, Hc1, Hc2. repeat split.
Defined.

(** [const { parseJS } = require('./parser/jsParser')] binds [undefined]:
    the module exports [parseJSWithAST] only. *)
Lemma parseJS_is_undefined (parseJSWithAST : parser) :
  parseJS_import parseJSWithAST = None.
Proof. reflexivity. Qed.

(** C8 fails on the code.  For a modified, non-binary artifact that
    [detectFileType] classifies as plain JavaScript or TypeScript and whose
    full-file analysis throws, the controller as the repository wires it
    never produces the result of the pattern tier: the call of [parseJS]
    throws a [TypeError] (the binding is [undefined]), the inner [catch]
    takes over, and the entry is the line-count summary of [parseGeneric],
    tagged [generic-fallback]. *)
Theorem plain_js_falls_to_generic_tier
    (analyzeFile : diffEntry -> string -> outcome astResult)
    (parseHTML parseCSS parseJQuery parseReact : option parser)
    (parseJSWithAST : parser) (opts : options) (d : diffEntry) (message : string) :
  String.eqb (status d) "added" = false ->
  String.eqb (status d) "deleted" = false ->
  String.eqb (status d) "renamed" = false ->
  binary d = false ->
  detectFileType (path d) (diff d) = "javascript"
    \/ detectFileType (path d) (diff d) = "typescript" ->
  (forall branch, analyzeFile d branch = Throw message) ->
  exists r,
    analyzeEntry analyzeFile parseHTML parseCSS parseJQuery
                 (parseJS_import parseJSWithAST) parseReact opts d = Return r
    /\ r_parseMethod r = Some "generic-fallback"
    /\ r_changes r = (if 0 <? List.length (parseGeneric (diff d))
                      then parseGeneric (diff d) else ["Code modified"]).
Proof.
  intros Hadded Hdeleted Hrenamed Hbinary Htype Hfail.
  unfold analyzeEntry. rewrite Hadded, Hdeleted, Hrenamed, Hbinary.
  unfold extractCode, fallbackToRegex. rewrite Hfail.
  destruct Htype as [-> | ->]; simpl; eexists; repeat split; reflexivity.
Qed.

Lemma plain_js_witness :
  detectFileType (path brokenScript) (diff brokenScript) = "javascript"
  /\ exists r,
       analyzeEntry failingAnalysis (Some oneRecord) (Some oneRecord) (Some oneRecord)
                    (parseJS_import oneRecord) (Some oneRecord) noRisk brokenScript
         = Return r
       /\ r_parseMethod r = Some "generic-fallback"
       /\ r_changes r = ["Added 1 lines"].
Proof.
  split; [reflexivity|].
  exact (plain_js_falls_to_generic_tier failingAnalysis
           (Some oneRecord) (Some oneRecord) (Some oneRecord) (Some oneRecord)
           oneRecord noRisk brokenScript "Parser failed: Unexpected token"
           eq_refl eq_refl eq_refl eq_refl (or_introl eq_refl) (fun _ => eq_refl)).
Defined.

(** The pattern tier as the controller means it: with [parseJS] bound to a
    parser, the same artifact gets that parser's records. *)
Lemma pattern_tier_when_bound :
  exists r,
    analyzeEntry failingAnalysis None None None (Some oneRecord) None noRisk brokenScript
      = Return r
    /\ r_parseMethod r = Some "regex-fallback"
    /\ r_changes r = ["Added function: load"].
Proof. eexists. repeat split; reflexivity. Qed.

(** The React flavour does reach the pattern tier: [parseReact] is
    exported by [reactParser.js]. *)
Lemma react_reaches_pattern_tier :
  exists r,
    analyzeEntry failingAnalysis None None None (parseJS_import oneRecord)
                 (Some oneRecord) noRisk
                 (mkDiff "src/App.jsx" "src/App.jsx" "src/App.jsx" "modified" false
                         "+function load( {" 1 0)
      = Return r
    /\ r_parseMethod r = Some "regex-fallback".
Proof. eexists. repeat split; reflexivity. Qed.

End ControllerFacts.

(** ** The stylesheet entry point *)

Module EntryPointFacts.
Import JsString Css StringFacts Scenarios.

(** The diff-text fallback always has something to say. *)
Lemma parseCSSWithDiffFallback_nonempty (diffContent filepath : string) :
  parseCSSWithDiffFallback diffContent filepath <> [].
Proof.
  unfold parseCSSWithDiffFallback.
  match goal with
  | |- (if 0 <? List.length ?l then _ else _) <> [] =>
      destruct l as [|c rest] eqn:E
  end; simpl; discriminate.
Qed.

Lemma isEmpty_false (s : string) : s <> EmptyString -> isEmpty s = false.
Proof. destruct s; [congruence | reflexivity]. Qed.

(** C10.  For every non-empty diff string and every file path, whatever
    the full-file pass does, [parseCSS] does not throw and resolves to a
    non-empty list of change strings: a non-empty result of the full-file
    pass is returned as it is; when that pass throws or finds nothing, the
    result is that of the diff-text fallback, which is never empty; and a
    fallback pass that throws in its turn leaves the single record
    "Component visual changes detected". *)
Theorem parseCSS_never_throws
    (parseCSSWithFullFileAST : string -> string -> string -> outcome (list string))
    (diff filepath targetBranch : string) :
  diff <> EmptyString ->
  (exists changes,
     parseCSS parseCSSWithFullFileAST diff filepath targetBranch = Return changes
     /\ changes <> [])
  /\ (forall changes,
        parseCSSWithFullFileAST diff filepath targetBranch = Return changes ->
        changes <> [] ->
        parseCSS parseCSSWithFullFileAST diff filepath targetBranch = Return changes)
  /\ (parseCSSWithFullFileAST diff filepath targetBranch = Return []
      \/ (exists message,
            parseCSSWithFullFileAST diff filepath targetBranch = Throw message) ->
      parseCSS parseCSSWithFullFileAST diff filepath targetBranch
        = Return (parseCSSWithDiffFallback diff filepath))
  /\ (forall fallback message,
        parseCSSWithFullFileAST diff filepath targetBranch = Return []
        \/ (exists m, parseCSSWithFullFileAST diff filepath targetBranch = Throw m) ->
        fallback diff filepath = Throw message ->
        parseCSSWith parseCSSWithFullFileAST fallback diff filepath targetBranch
          = Return ["Component visual changes detected"]).
Proof.
  intros Hdiff. apply isEmpty_false in Hdiff.
  unfold parseCSS, parseCSSWith. rewrite Hdiff.
  repeat split.
  - destruct (parseCSSWithFullFileAST diff filepath targetBranch) as [[|c changes]|m];
      simpl; eexists; (split; [reflexivity|]);
      try apply parseCSSWithDiffFallback_nonempty; discriminate.
  - intros changes -> Hne. destruct changes; [contradiction | reflexivity].
  - intros [-> | (m & ->)]; reflexivity.
  - intros fallback message [-> | (m & ->)] Hfb; simpl; now rewrite Hfb.
Qed.

Lemma parseCSS_witness :
  exists changes,
    parseCSS (fun _ _ _ => Throw "Could not parse either version of the file")
             addedRule "button.css" "main" = Return changes
    /\ changes <> [].
Proof.
  assert (Hdiff : addedRule <> EmptyString) by discriminate.
  exact (proj1 (parseCSS_never_throws
                  (fun _ _ _ => Throw "Could not parse either version of the file")
                  addedRule "button.css" "main" Hdiff)).
Defined.

Lemma parseCSS_fallback_example :
  parseCSS (fun _ _ _ => Throw "Could not parse either version of the file")
           addedRule "button.css" "main"
  = Return ["Property modified: color"].
Proof. reflexivity. Qed.

End EntryPointFacts.

(** ** The value normalizer and the grid column count on literals *)

Module LiteralFacts.
Import JsString Css StringFacts Scenarios.

(** C7 holds on the tested literal forms and fails on a bare decimal that
    overflows: [parseFloat] gives [Infinity], [toFixed(2)] prints it with
    a capital letter, and the next pass lowercases it. *)
Theorem normalizeValue_on_literals (prop : string) :
  normalizeValue "#ABC" prop = "#aabbcc"
  /\ normalizeValue "#aabbcc" prop = "#aabbcc"
  /\ normalizeValue "0px" prop = "0"
  /\ normalizeValue "0" prop = "0"
  /\ normalizeValue "rgb( 1 , 2 , 3 )" prop = "rgb(1,2,3)"
  /\ normalizeValue "rgb(1,2,3)" prop = "rgb(1,2,3)"
  /\ normalizeValue ".5" prop = "0.50"
  /\ normalizeValue "0.50" prop = "0.50"
  /\ normalizeValue hugeDecimal prop = "Infinity"
  /\ normalizeValue (normalizeValue hugeDecimal prop) prop = "infinity"
  /\ normalizeValue (normalizeValue hugeDecimal prop) prop
     <> normalizeValue hugeDecimal prop.
Proof.
  assert (Hhuge : normalizeValue hugeDecimal prop = "Infinity") by (vm_compute; reflexivity).
  repeat split; try (vm_compute; reflexivity).
  rewrite Hhuge. vm_compute. discriminate.
Qed.

(** C4 holds on the three literals of the specification and fails when the
    repeated template contains a function: the lazy group [(.+?)] stops at
    the first closing parenthesis, so the template of
    [repeat(3, minmax(100px, 1fr))] is read as [minmax(100px, 1fr], counted
    as two columns, and the parenthesis left over counts as one more. *)
Theorem countGridColumns_on_literals :
  countGridColumns "repeat(3, 1fr)" = 3%Z
  /\ countGridColumns "repeat(auto-fill, 100px)" = indeterminate
  /\ countGridColumns "repeat(auto-fit, minmax(200px, 1fr))" = indeterminate
  /\ countGridColumns "200px minmax(100px,1fr) 200px" = 3%Z
  /\ countColumnsInTemplate "minmax(100px, 1fr)" = 1
  /\ find_repeat threeFlexibleColumns = Some ("3", "minmax(100px, 1fr")
  /\ countColumnsInTemplate "minmax(100px, 1fr" = 2
  /\ trim (remove_first_repeat threeFlexibleColumns) = ")"
  /\ countGridColumns threeFlexibleColumns = 7%Z
  /\ map render (analyzeGridProperties
                   [Rule ".grid" [Decl "grid-template-columns" threeFlexibleColumns]])
     = ["  └─ 7 column grid"].
Proof.
  repeat split; vm_compute; reflexivity.
Qed.

End LiteralFacts.

(** ** The value normalizer away from bare decimals *)

Module NormalizerFacts.
Import JsString Css StringFacts.

Ltac by_cases_on c := destruct c as [[] [] [] [] [] [] [] []]; reflexivity.

Lemma lower_char_idem (c : ascii) : lower_char (lower_char c) = lower_char c.
Proof. by_cases_on c. Qed.

Lemma is_space_lower (c : ascii) : is_space (lower_char c) = is_space c.
Proof. by_cases_on c. Qed.

Lemma hex_digit_not_space (c : ascii) : is_hex_digit c = true -> is_space c = false.
Proof. destruct c as [[] [] [] [] [] [] [] []]; (reflexivity || discriminate). Qed.

Lemma toLowerCase_idem (s : string) : toLowerCase (toLowerCase s) = toLowerCase s.
Proof.
  induction s as [|c s IH]; simpl; [reflexivity|].
  now rewrite lower_char_idem, IH.
Qed.

Lemma isEmpty_toLowerCase (s : string) : isEmpty (toLowerCase s) = isEmpty s.
Proof. now destruct s. Qed.

Lemma trimStart_lower (s : string) : trimStart (toLowerCase s) = toLowerCase (trimStart s).
Proof.
  induction s as [|c s IH]; simpl; [reflexivity|].
  rewrite is_space_lower. now destruct (is_space c).
Qed.

Lemma trimEnd_lower (s : string) : trimEnd (toLowerCase s) = toLowerCase (trimEnd s).
Proof.
  induction s as [|c s IH]; simpl; [reflexivity|].
  rewrite is_space_lower, IH, isEmpty_toLowerCase.
  now destruct (is_space c && isEmpty (trimEnd s)).
Qed.

Lemma trim_lower (s : string) : trim (toLowerCase s) = toLowerCase (trim s).
Proof. unfold trim. now rewrite trimStart_lower, trimEnd_lower. Qed.

Lemma trimEnd_idem (s : string) : trimEnd (trimEnd s) = trimEnd s.
Proof.
  induction s as [|c s IH]; simpl; [reflexivity|].
  destruct (is_space c && isEmpty (trimEnd s)) eqn:E; simpl; [reflexivity|].
  now rewrite IH, E.
Qed.

(** A string that does not start with white space still does not after its
    end has been trimmed. *)
Lemma trimStart_trimEnd (s : string) :
  trimStart s = s -> trimStart (trimEnd s) = trimEnd s.
Proof.
  destruct s as [|c s]; simpl; [reflexivity|].
  destruct (is_space c) eqn:E; simpl.
  - intros H. exfalso.
    assert (L : forall t, String.length (trimStart t) <= String.length t).
    { induction t as [|d t IHt]; simpl; [lia|]. destruct (is_space d); simpl; lia. }
    specialize (L s). rewrite H in L. simpl in L. lia.
  - intros _. now rewrite E.
Qed.

Lemma trimStart_idem (s : string) : trimStart (trimStart s) = trimStart s.
Proof.
  induction s as [|c s IH]; simpl; [reflexivity|].
  destruct (is_space c) eqn:E; [exact IH|]. simpl. now rewrite E.
Qed.

Lemma trim_idem (s : string) : trim (trim s) = trim s.
Proof.
  unfold trim.
  rewrite (trimStart_trimEnd (trimStart s)) by apply trimStart_idem.
  apply trimEnd_idem.
Qed.

Lemma canonical_lower_trim (v : string) : canonical (toLowerCase (trim v)).
Proof.
  split.
  - now rewrite trim_lower, trim_idem.
  - apply toLowerCase_idem.
Qed.

Lemma all_chars_double (f : ascii -> bool) (s : string) :
  all_chars f (double_chars s) = all_chars f s.
Proof.
  induction s as [|c s IH]; simpl; [reflexivity|].
  rewrite IH. now destruct (f c).
Qed.

Lemma length_double_chars (s : string) :
  String.length (double_chars s) = 2 * String.length s.
Proof. induction s as [|c s IH]; simpl; [reflexivity | rewrite IH; lia]. Qed.

Lemma trimStart_no_space (s : string) :
  all_chars (fun c => negb (is_space c)) s = true -> trimStart s = s.
Proof.
  destruct s as [|c s]; simpl; [reflexivity|].
  now destruct (is_space c).
Qed.

Lemma trimEnd_no_space (s : string) :
  all_chars (fun c => negb (is_space c)) s = true -> trimEnd s = s.
Proof.
  induction s as [|c s IH]; simpl; [reflexivity|].
  destruct (is_space c); simpl; [discriminate|].
  intros H. now rewrite IH.
Qed.

Lemma trim_no_space (s : string) :
  all_chars (fun c => negb (is_space c)) s = true -> trim s = s.
Proof.
  intros H. unfold trim. rewrite trimStart_no_space by assumption.
  now apply trimEnd_no_space.
Qed.

Lemma all_chars_impl (f g : ascii -> bool) (s : string) :
  (forall c, f c = true -> g c = true) ->
  all_chars f s = true -> all_chars g s = true.
Proof.
  intros Hfg. induction s as [|c s IH]; simpl; [reflexivity|].
  intros H. apply andb_prop in H. destruct H as [Hc Hs].
  now rewrite (Hfg c Hc), IH.
Qed.

Lemma toLowerCase_fixed_tail (c : ascii) (s : string) :
  toLowerCase (String c s) = String c s -> toLowerCase s = s.
Proof. simpl. now intros [= _ H]. Qed.

Lemma removeSpaces_no_space (s : string) :
  all_chars (fun c => negb (is_space c)) (removeSpaces s) = true.
Proof.
  induction s as [|c s IH]; simpl; [reflexivity|].
  destruct (is_space c) eqn:E; simpl; [assumption | now rewrite E].
Qed.

Lemma removeSpaces_fixed (s : string) :
  all_chars (fun c => negb (is_space c)) s = true -> removeSpaces s = s.
Proof.
  induction s as [|c s IH]; simpl; [reflexivity|].
  destruct (is_space c); simpl; [discriminate|].
  intros H. now rewrite IH.
Qed.

Lemma removeSpaces_lower (s : string) :
  toLowerCase (removeSpaces s) = removeSpaces (toLowerCase s).
Proof.
  induction s as [|c s IH]; simpl; [reflexivity|].
  rewrite is_space_lower. destruct (is_space c); simpl; now rewrite IH.
Qed.

Lemma toLowerCase_double (s : string) :
  toLowerCase (double_chars s) = double_chars (toLowerCase s).
Proof. induction s as [|c s IH]; simpl; [reflexivity | now rewrite IH]. Qed.

Lemma prefix_append (p s : string) :
  String.prefix p s = true -> exists r, s = p +++ r.
Proof.
  revert s; induction p as [|a p IH]; intros s; simpl.
  - intros _. now exists s.
  - destruct s as [|b s]; simpl; [discriminate|].
    destruct (ascii_dec a b) as [->|]; [|discriminate].
    intros H. destruct (IH s H) as (r & ->). now exists r.
Qed.

(** A string whose first character is neither a digit nor the point is no
    bare decimal. *)
Lemma decimal_parts_head (c : ascii) (s : string) :
  is_digit c = false -> Ascii.eqb c "." = false -> decimal_parts (String c s) = None.
Proof.
  intros Hd Hp. unfold decimal_parts. simpl. rewrite Hp.
  destruct (split_point s) as [[a b]|]; [|reflexivity].
  simpl. now rewrite Hd.
Qed.

(** On a canonical value that is no bare decimal the normalizer is the
    cascade of its remaining cases. *)
Lemma normalizeValue_canonical (val prop : string) :
  canonical val -> decimal_parts val = None ->
  normalizeValue val prop
  = if is_hex3 val then "#" +++ double_chars (substring_from 1 val)
    else if is_hex6 val then val
    else if is_zero val then "0"
    else if startsWith val "rgb" then removeSpaces val
    else val.
Proof.
  intros [Ht Hl] Hd. unfold normalizeValue.
  destruct val as [|c val]; [reflexivity|].
  change (isEmpty (String c val)) with false. cbv iota.
  now rewrite Ht, !Hl, Hd.
Qed.

Lemma hex6_not_hex3 (val : string) : is_hex6 val = true -> is_hex3 val = false.
Proof.
  destruct val as [|c rgb]; [discriminate|]. unfold is_hex6, is_hex3.
  destruct c as [[] [] [] [] [] [] [] []]; try discriminate.
  intros H. apply andb_prop in H. destruct H as [H _].
  apply Nat.eqb_eq in H. now rewrite H.
Qed.

(** Away from the bare decimals the normalizer is idempotent: whenever the
    trimmed, lower-cased input is not of the form [digits* "." digits+],
    normalizing the result again changes nothing. *)
Theorem normalizeValue_idempotent_off_decimals (v p q : string) :
  decimal_parts (toLowerCase (trim v)) = None ->
  normalizeValue (normalizeValue v p) q = normalizeValue v p.
Proof.
  intros Hdec. unfold normalizeValue at 2 3.
  destruct (isEmpty v) eqn:Ev; [now destruct v|].
  set (val := toLowerCase (trim v)) in *.
  pose proof (canonical_lower_trim v) as Hcan. fold val in Hcan.
  rewrite Hdec.
  destruct (is_hex3 val) eqn:E3.
  { (* "#abc" becomes "#aabbcc", which the six-digit case keeps *)
    destruct val as [|h rgb]; [discriminate|].
    assert (Hh : h = "#"%char).
    { unfold is_hex3 in E3.
      destruct h as [[] [] [] [] [] [] [] []]; (reflexivity || discriminate). }
    subst h. simpl in E3. apply andb_prop in E3. destruct E3 as [Hlen Hhex].
    apply Nat.eqb_eq in Hlen. simpl substring_from.
    destruct Hcan as [_ Hl]. apply toLowerCase_fixed_tail in Hl.
    set (out := "#" +++ double_chars rgb).
    assert (Hspace : all_chars (fun c => negb (is_space c)) out = true).
    { unfold out. simpl. rewrite all_chars_double.
      eapply all_chars_impl, Hhex.
      intros c Hc. now rewrite (hex_digit_not_space c Hc). }
    assert (Hout : canonical out).
    { split; [now apply trim_no_space|].
      unfold out. simpl. now rewrite toLowerCase_double, Hl. }
    rewrite normalizeValue_canonical;
      [| assumption | now apply decimal_parts_head].
    unfold out, is_hex3, is_hex6. simpl.
    rewrite length_double_chars, Hlen, all_chars_double, Hhex. reflexivity. }
  destruct (is_hex6 val) eqn:E6.
  { destruct Hcan as [Ht Hl]. rewrite Hl.
    rewrite normalizeValue_canonical; [| now split | assumption].
    now rewrite E3, E6. }
  destruct (is_zero val) eqn:Ez; [reflexivity|].
  destruct (startsWith val "rgb") eqn:Ergb.
  { (* "rgb..." keeps its head and has no blank left *)
    unfold startsWith in Ergb. apply prefix_append in Ergb.
    destruct Ergb as (rest & Hval).
    set (out := removeSpaces val).
    assert (Hhead : out = "rgb" +++ removeSpaces rest)
      by (unfold out; rewrite Hval; reflexivity).
    assert (Hout : canonical out).
    { split; [apply trim_no_space, removeSpaces_no_space|].
      unfold out. rewrite removeSpaces_lower. destruct Hcan as [_ Hl]. now rewrite Hl. }
    rewrite normalizeValue_canonical;
      [| assumption | rewrite Hhead; now apply decimal_parts_head].
    rewrite Hhead. simpl.
    destruct (startsWith (removeSpaces rest) EmptyString); [|reflexivity].
    now rewrite (removeSpaces_fixed _ (removeSpaces_no_space rest)). }
  rewrite normalizeValue_canonical; [| assumption | assumption].
  now rewrite E3, E6, Ez, Ergb.
Qed.

Lemma normalizeValue_idempotent_witness :
  normalizeValue (normalizeValue "  RGB( 1 , 2 , 3 ) " "color") "color"
  = normalizeValue "  RGB( 1 , 2 , 3 ) " "color".
Proof.
  apply (normalizeValue_idempotent_off_decimals "  RGB( 1 , 2 , 3 ) " "color" "color").
  reflexivity.
Defined.

End NormalizerFacts.

(** ** Grid column counting on plain templates *)

Module GridFacts.
Import JsString Css StringFacts NormalizerFacts.

Lemma strip_prefix_append (p s : string) : strip_prefix p (p +++ s) = Some s.
Proof.
  induction p as [|a p IH]; simpl; [reflexivity|].
  now rewrite Ascii.eqb_refl.
Qed.

Lemma span_append (f : ascii -> bool) (a b : string) :
  all_chars f a = true -> stops f b -> span f (a +++ b) = (a, b).
Proof.
  intros Ha Hb. induction a as [|c a IH]; simpl.
  - destruct b as [|d b]; simpl in *; [reflexivity | now rewrite Hb].
  - simpl in Ha. apply andb_prop in Ha. destruct Ha as [Hc Ha].
    now rewrite Hc, (IH Ha).
Qed.

(** The lazy group stops at the first closing parenthesis; on a template
    without one it takes the whole template. *)
Lemma lazy_template_plain (template rest : string) :
  template <> EmptyString ->
  all_chars plain_char template = true ->
  lazy_template (template +++ ")" +++ rest) = Some template.
Proof.
  induction template as [|c t IH]; [congruence|].
  intros _ H. simpl in H. apply andb_prop in H. destruct H as [Hc Ht].
  unfold plain_char in Hc. apply andb_prop in Hc. destruct Hc as [Hlt _].
  apply negb_true_iff in Hlt.
  change ((String c t) +++ ")" +++ rest) with (String c (t +++ ")" +++ rest)).
  cbn [lazy_template]. rewrite Hlt.
  destruct t as [|d t].
  - reflexivity.
  - assert (Hd : Ascii.eqb d ")" = false).
    { simpl in Ht. apply andb_prop in Ht. destruct Ht as [Hd _].
      unfold plain_char, not_rparen in Hd. apply andb_prop in Hd.
      destruct Hd as [_ Hd]. now apply negb_true_iff in Hd. }
    rewrite IH by (congruence || assumption).
    change ((String d t) +++ ")" +++ rest) with (String d (t +++ ")" +++ rest)).
    destruct d as [[] [] [] [] [] [] [] []]; (reflexivity || discriminate).
Qed.

Lemma lazy_template_some (template rest : string) :
  template <> EmptyString ->
  all_chars (fun c => negb (is_line_terminator c)) template = true ->
  exists t, lazy_template (template +++ ")" +++ rest) = Some t.
Proof.
  induction template as [|c t IH]; [congruence|].
  intros _ H. simpl in H. apply andb_prop in H. destruct H as [Hlt Ht].
  apply negb_true_iff in Hlt.
  change ((String c t) +++ ")" +++ rest) with (String c (t +++ ")" +++ rest)).
  cbn [lazy_template]. rewrite Hlt.
  destruct t as [|d t].
  - eexists; reflexivity.
  - destruct (IH ltac:(congruence) Ht) as (t' & Ht').
    rewrite Ht'.
    change ((String d t) +++ ")" +++ rest) with (String d (t +++ ")" +++ rest)).
    destruct d as [[] [] [] [] [] [] [] []]; eexists; reflexivity.
Qed.

(** After ", " the greedy [\s*] takes the blank and the group starts at
    the template, when the template starts with no blank. *)
Lemma ws_template_after_blank (s : string) (t : string) :
  stops is_space s -> lazy_template s = Some t ->
  ws_template (" " +++ s) = Some t.
Proof.
  intros Hs Hl. change (" " +++ s) with (String " " s). cbn [ws_template].
  change (is_space " ") with true. cbv iota.
  destruct s as [|c s]; [discriminate|].
  simpl in Hs. cbn [ws_template]. rewrite Hs. now rewrite Hl.
Qed.

Lemma trimEnd_rparen (s : string) : trimEnd (s +++ ")") = s +++ ")".
Proof.
  induction s as [|c s IH]; [reflexivity|].
  change ((String c s) +++ ")") with (String c (s +++ ")")).
  cbn [trimEnd]. rewrite IH.
  destruct s; simpl; now rewrite andb_false_r.
Qed.

Lemma trim_repeat (s : string) : trim ("repeat(" +++ s +++ ")") = "repeat(" +++ s +++ ")".
Proof.
  unfold trim. change (trimStart ("repeat(" +++ s +++ ")")) with ("repeat(" +++ s +++ ")").
  rewrite <- append_assoc. apply trimEnd_rparen.
Qed.

Lemma all_chars_append (f : ascii -> bool) (a b : string) :
  all_chars f (a +++ b) = all_chars f a && all_chars f b.
Proof.
  induction a as [|c a IH]; simpl; [reflexivity|].
  now rewrite IH, andb_assoc.
Qed.

Lemma digit_not_rparen (c : ascii) : is_digit c = true -> not_rparen c = true.
Proof. destruct c as [[] [] [] [] [] [] [] []]; (reflexivity || discriminate). Qed.

Lemma digits_not_keyword (count kw : string) :
  truthy count = true -> all_chars is_digit count = true ->
  kw = "auto-fill" \/ kw = "auto-fit" -> String.eqb count kw = false.
Proof.
  destruct count as [|c count]; [discriminate|].
  intros _ H Hkw. simpl in H. apply andb_prop in H. destruct H as [Hc _].
  apply String.eqb_neq. intros E. destruct Hkw; subst kw; injection E as -> _;
    discriminate.
Qed.

Lemma match_repeat_at_plain (count template : string) :
  truthy count = true ->
  all_chars is_digit count = true ->
  template <> EmptyString ->
  stops is_space template ->
  all_chars plain_char template = true ->
  match_repeat_at ("repeat(" +++ count +++ ", " +++ template +++ ")")
  = Some (count, template).
Proof.
  intros Hcount Hdigits Hne Hhead Hplain.
  unfold match_repeat_at. rewrite strip_prefix_append.
  unfold repeat_count. rewrite span_append by (assumption || reflexivity).
  rewrite Hcount.
  change (", " +++ template +++ ")") with ("," +++ " " +++ template +++ ")").
  rewrite strip_prefix_append.
  rewrite (ws_template_after_blank (template +++ ")") template).
  - reflexivity.
  - destruct template; [congruence | exact Hhead].
  - now apply (lazy_template_plain template EmptyString).
Qed.

Lemma remove_first_repeat_plain (count template : string) :
  truthy count = true ->
  all_chars is_digit count = true ->
  all_chars plain_char template = true ->
  remove_first_repeat ("repeat(" +++ count +++ ", " +++ template +++ ")") = EmptyString.
Proof.
  intros Hcount Hdigits Hplain.
  assert (Hbody : all_chars not_rparen (count +++ ", " +++ template) = true).
  { rewrite !all_chars_append.
    rewrite (all_chars_impl is_digit not_rparen count digit_not_rparen Hdigits).
    rewrite (all_chars_impl plain_char not_rparen template) by
      (assumption || (intros c Hc; unfold plain_char in Hc;
                      now apply andb_prop in Hc)).
    reflexivity. }
  replace ("repeat(" +++ count +++ ", " +++ template +++ ")")
    with (("repeat" +++ "(") +++ (count +++ ", " +++ template) +++ ")")
    by (now rewrite !append_assoc).
  set (body := count +++ ", " +++ template) in *.
  assert (Hcall : after_call "repeat" (("repeat" +++ "(") +++ body +++ ")")
                  = Some EmptyString).
  { unfold after_call. rewrite strip_prefix_append.
    rewrite span_append by (assumption || reflexivity).
    replace (truthy body) with true; [reflexivity|].
    unfold body. destruct count; [discriminate | reflexivity]. }
  change (("repeat" +++ "(") +++ body +++ ")") with (String "r" ("epeat(" +++ body +++ ")")) in *.
  cbn [remove_first_repeat]. now rewrite Hcall.
Qed.

(** For a [repeat(N, template)] whose template holds no function, the
    count is the repeat factor times the column count of the template, as
    long as the factor and the product stay below 2^53, the range in which
    [parseInt] and the multiplication of the code are exact. *)
Theorem countGridColumns_repeat_plain (count template : string) :
  truthy count = true ->
  all_chars is_digit count = true ->
  (JsNumber.digits_value count < 2 ^ 53)%Z ->
  (JsNumber.digits_value count * Z.of_nat (countColumnsInTemplate template) < 2 ^ 53)%Z ->
  template <> EmptyString ->
  stops is_space template ->
  all_chars plain_char template = true ->
  countGridColumns ("repeat(" +++ count +++ ", " +++ template +++ ")")
  = (JsNumber.digits_value count * Z.of_nat (countColumnsInTemplate template))%Z.
Proof.
  intros Hcount Hdigits _ _ Hne Hhead Hplain.
  unfold countGridColumns.
  change (isEmpty ("repeat(" +++ count +++ ", " +++ template +++ ")")) with false.
  cbv iota.
  replace (count +++ ", " +++ template +++ ")")
    with ((count +++ ", " +++ template) +++ ")") by (now rewrite !append_assoc).
  rewrite trim_repeat.
  replace ((count +++ ", " +++ template) +++ ")")
    with (count +++ ", " +++ template +++ ")") by (now rewrite !append_assoc).
  set (val := "repeat(" +++ count +++ ", " +++ template +++ ")").
  assert (Hfind : find_repeat val = Some (count, template)).
  { unfold val.
    change ("repeat(" +++ count +++ ", " +++ template +++ ")")
      with (String "r" ("epeat(" +++ count +++ ", " +++ template +++ ")")).
    cbn [find_repeat].
    change (String "r" ("epeat(" +++ count +++ ", " +++ template +++ ")"))
      with ("repeat(" +++ count +++ ", " +++ template +++ ")").
    now rewrite match_repeat_at_plain. }
  rewrite Hfind.
  rewrite !(digits_not_keyword count) by (assumption || tauto).
  cbn [orb]. cbv iota.
  unfold val. rewrite remove_first_repeat_plain by assumption.
  simpl. lia.
Qed.

Lemma countGridColumns_repeat_plain_witness :
  countGridColumns "repeat(4, 100px 1fr)" = 8%Z.
Proof.
  apply (countGridColumns_repeat_plain "4" "100px 1fr");
    (reflexivity || discriminate).
Defined.

Lemma span_stops (f : ascii -> bool) (s : string) :
  stops f s -> span f s = (EmptyString, s).
Proof. destruct s as [|c s]; simpl; [reflexivity | now intros ->]. Qed.

Lemma match_repeat_at_auto (keyword template t : string) :
  keyword = "auto-fill" \/ keyword = "auto-fit" ->
  ws_template (" " +++ template +++ ")") = Some t ->
  match_repeat_at ("repeat(" +++ keyword +++ ", " +++ template +++ ")")
  = Some (keyword, t).
Proof.
  intros Hkw Hws. unfold match_repeat_at. rewrite strip_prefix_append.
  unfold repeat_count.
  rewrite span_stops by (destruct Hkw; subst keyword; reflexivity).
  change (truthy EmptyString) with false. cbv iota.
  destruct Hkw; subst keyword.
  - rewrite strip_prefix_append.
    change (", " +++ template +++ ")") with ("," +++ " " +++ template +++ ")").
    now rewrite strip_prefix_append, Hws.
  - change (strip_prefix "auto-fill" ("auto-fit" +++ ", " +++ template +++ ")"))
      with (@None string).
    rewrite strip_prefix_append.
    change (", " +++ template +++ ")") with ("," +++ " " +++ template +++ ")").
    now rewrite strip_prefix_append, Hws.
Qed.

(** For [repeat(auto-fill, ...)] and [repeat(auto-fit, ...)] the count is
    the sentinel, whatever the template holds. *)
Theorem countGridColumns_auto (keyword template : string) :
  keyword = "auto-fill" \/ keyword = "auto-fit" ->
  template <> EmptyString ->
  stops is_space template ->
  all_chars (fun c => negb (is_line_terminator c)) template = true ->
  countGridColumns ("repeat(" +++ keyword +++ ", " +++ template +++ ")") = indeterminate.
Proof.
  intros Hkw Hne Hhead Hlt.
  unfold countGridColumns.
  change (isEmpty ("repeat(" +++ keyword +++ ", " +++ template +++ ")")) with false.
  cbv iota.
  replace (keyword +++ ", " +++ template +++ ")")
    with ((keyword +++ ", " +++ template) +++ ")") by (now rewrite !append_assoc).
  rewrite trim_repeat.
  replace ((keyword +++ ", " +++ template) +++ ")")
    with (keyword +++ ", " +++ template +++ ")") by (now rewrite !append_assoc).
  destruct (lazy_template_some template EmptyString Hne Hlt) as (t & Ht).
  assert (Hws : ws_template (" " +++ template +++ ")") = Some t).
  { apply ws_template_after_blank; [|exact Ht].
    destruct template; [congruence | exact Hhead]. }
  assert (Hfind : find_repeat ("repeat(" +++ keyword +++ ", " +++ template +++ ")")
                  = Some (keyword, t)).
  { change ("repeat(" +++ keyword +++ ", " +++ template +++ ")")
      with (String "r" ("epeat(" +++ keyword +++ ", " +++ template +++ ")")).
    cbn [find_repeat].
    change (String "r" ("epeat(" +++ keyword +++ ", " +++ template +++ ")"))
      with ("repeat(" +++ keyword +++ ", " +++ template +++ ")").
    now rewrite (match_repeat_at_auto keyword template t). }
  rewrite Hfind.
  destruct Hkw; subst keyword; reflexivity.
Qed.

Lemma countGridColumns_auto_witness :
  countGridColumns "repeat(auto-fit, minmax(200px, 1fr))" = indeterminate.
Proof.
  apply (countGridColumns_auto "auto-fit" "minmax(200px, 1fr)");
    (reflexivity || discriminate || tauto).
Defined.

End GridFacts.

(** ** The superseded parser on the scenarios *)

Module LegacyFacts.
Import JsString Css Scenarios.

(** Keyed by the bare selector, the two [.title] rules are matched against
    each other: only the parents are reported. *)
Lemma legacy_selectors_collide :
  Legacy.extractSelectorsFromAST cardSheet = [".card"; ".title"]
  /\ Legacy.extractSelectorsFromAST headerSheet = [".header"; ".title"]
  /\ Legacy.analyzeSelectorChanges headerSheet (Some cardSheet)
     = ["Property added: selector .header"; "Property removed: selector .card"].
Proof. repeat split; reflexivity. Qed.

(** The old standard handling reports a value substitution three times. *)
Lemma legacy_substitution_reported_three_times :
  Legacy.standardPropertyChanges "color" ["blue"] ["red"]
  = ["Property added: color: blue";
     "Property removed: color: red";
     "Property changed: color from red → blue"].
Proof. reflexivity. Qed.

(** The old column count splits on white space only. *)
Lemma legacy_grid_count :
  Legacy.gridColumns "repeat(3, 1fr)" = 2
  /\ Legacy.gridColumns "repeat(auto-fill, 100px)" = 2
  /\ Legacy.gridColumns "200px minmax(100px,1fr) 200px" = 3.
Proof. repeat split; reflexivity. Qed.

End LegacyFacts.

(** ** The structural diff of syntax trees *)

Module StructureFacts.
Import JsString Ast StringFacts.

Lemma flat_map_nil_iff {A B} (f : A -> list B) (l : list A) :
  flat_map f l = [] <-> (forall x, In x l -> f x = []).
Proof.
  induction l as [|a l IH]; simpl.
  - split; [intros _ x []|reflexivity].
  - split.
    + intros H. apply app_eq_nil in H. destruct H as [Ha Hl].
      intros x [<-|Hx]; [assumption|]. now apply IH.
    + intros H. rewrite (H a) by now left. apply IH. intros x Hx. apply H. now right.
Qed.

Lemma same_name_refl (n : option string) : same_name n n = true.
Proof. destruct n; simpl; [apply String.eqb_refl|reflexivity]. Qed.

Lemma same_name_eq (a b : option string) : same_name a b = true <-> a = b.
Proof.
  destruct a, b; simpl; split; try discriminate; try reflexivity.
  - intros H. apply String.eqb_eq in H. now subst.
  - intros H. injection H as ->. apply String.eqb_refl.
Qed.

(** With pairwise distinct keys, [find] by key returns the element itself. *)
Lemma find_self {A K} (key : A -> K) (eqb : K -> K -> bool)
    (eqb_eq : forall a b, eqb a b = true <-> a = b) (l : list A) (x : A) :
  NoDup (map key l) -> In x l -> find (fun y => eqb (key y) (key x)) l = Some x.
Proof.
  induction l as [|g l IH]; simpl; [contradiction|].
  intros Hnd [-> | Hin].
  - now rewrite (proj2 (eqb_eq _ _) eq_refl).
  - inversion Hnd as [|? ? Hnotin Hnd']; subst.
    destruct (eqb (key g) (key x)) eqn:E.
    + exfalso. apply Hnotin. apply eqb_eq in E. rewrite E. now apply in_map.
    + now apply IH.
Qed.

(** An element that satisfies the test is enough for [find] to answer. *)
Lemma find_is_some {A} (f : A -> bool) (l : list A) (x : A) :
  In x l -> f x = true -> exists y, find f l = Some y.
Proof.
  intros Hin Hf. destruct (find f l) as [y|] eqn:E; [now exists y|].
  rewrite (find_none f l E x Hin) in Hf. discriminate.
Qed.

Lemma compareClassMethods_same (c : classInfo) : compareClassMethods c c = [].
Proof.
  unfold compareClassMethods.
  rewrite !FunctionFacts.flat_map_nil; [reflexivity | |]; intros m Hm; unfold findMethod;
    destruct (find_is_some (fun m' => same_name (m_name m') (m_name m)) _ m Hm
                (same_name_refl _)) as [y ->]; reflexivity.
Qed.

Lemma diffClasses_self (cs : list classInfo) :
  NoDup (map c_name cs) -> diffClasses cs cs = [].
Proof.
  intros Hnd. unfold diffClasses, findClass.
  rewrite !FunctionFacts.flat_map_nil; [reflexivity | |]; intros c Hc;
    rewrite (find_self c_name String.eqb String.eqb_eq cs c Hnd Hc); [reflexivity|].
  now rewrite compareClassMethods_same.
Qed.

Lemma diffImports_self (imps : list importInfo) : diffImports imps imps = [].
Proof.
  unfold diffImports, findImport.
  rewrite !FunctionFacts.flat_map_nil; [reflexivity | |]; intros i Hi;
    destruct (find_is_some (fun j => String.eqb (source j) (source i)) _ i Hi
                (String.eqb_refl _)) as [y ->]; reflexivity.
Qed.

Lemma diffExports_self (es : list exportInfo) : diffExports es es = [].
Proof. unfold diffExports. now destruct (findDefault es). Qed.

Lemma diffVariables_self (vs : list variable) :
  NoDup (map v_name vs) -> diffVariables vs vs = [].
Proof.
  intros Hnd. unfold diffVariables, findVariable.
  apply FunctionFacts.flat_map_nil. intros v Hv.
  rewrite (find_self v_name same_name same_name_eq vs v Hnd Hv).
  now rewrite String.eqb_refl.
Qed.

Lemma diffReactComponents_self (cs : list classInfo) : diffReactComponents cs cs = [].
Proof.
  unfold diffReactComponents, findClass.
  apply FunctionFacts.flat_map_nil. intros c Hc.
  destruct (find_is_some (fun c' => String.eqb (c_name c') (c_name c)) _ c Hc
              (String.eqb_refl _)) as [y ->]; reflexivity.
Qed.

Lemma diffHooks_self (hs : list hook) : diffHooks hs hs = [].
Proof.
  unfold diffHooks. apply FunctionFacts.flat_map_nil. intros t _.
  now rewrite Nat.ltb_irrefl.
Qed.

(** One scope declares [x] with [const], another one with [let]: the
    variable diff of that structure against itself reports a change. *)
Lemma diffVariables_shadowed :
  diffVariables [mkVariable (Some "x") "const"; mkVariable (Some "x") "let"]
                [mkVariable (Some "x") "const"; mkVariable (Some "x") "let"]
  = ["Changed x from 'const' to 'let'"].
Proof. reflexivity. Qed.

Section SemanticDiffFacts.

Variable ast : Type.
Variable extractCodeStructure : ast -> structure.

(** Diffing a syntax tree against itself.  When the functions, the
    classes and the variables extracted from a tree have pairwise distinct
    names, [performSemanticDiff] of the tree against itself returns no
    record at all: functions, classes, imports, exports, variables,
    components and hooks are all silent. *)
Theorem semantic_self_diff_is_empty (tree : ast) (affectedRanges : list range)
    (filepath : string) :
  NoDup (map Ast.name (functions (extractCodeStructure tree))) ->
  NoDup (map c_name (classes (extractCodeStructure tree))) ->
  NoDup (map v_name (variables (extractCodeStructure tree))) ->
  performSemanticDiff ast extractCodeStructure tree tree affectedRanges filepath = [].
Proof.
  intros Hf Hc Hv. unfold performSemanticDiff.
  rewrite (FunctionFacts.diffFunctions_self _ Hf), (diffClasses_self _ Hc),
    diffImports_self, diffExports_self, (diffVariables_self _ Hv),
    diffReactComponents_self, diffHooks_self.
  now destruct (isReact _ || isReact _).
Qed.

End SemanticDiffFacts.

Lemma semantic_self_diff_witness :
  performSemanticDiff structure (fun s => s)
    (mkStructure [mkFunc "render" false [] true 1 false]
                 [mkClass "List" true [mkClassMethod (Some "render") false]]
                 [mkImport "react" ["React"]] [DefaultExport "List"]
                 [mkVariable (Some "x") "const"]
                 [mkClass "List" true [mkClassMethod (Some "render") false]]
                 [mkHook "useState" 1] true)
    (mkStructure [mkFunc "render" false [] true 1 false]
                 [mkClass "List" true [mkClassMethod (Some "render") false]]
                 [mkImport "react" ["React"]] [DefaultExport "List"]
                 [mkVariable (Some "x") "const"]
                 [mkClass "List" true [mkClassMethod (Some "render") false]]
                 [mkHook "useState" 1] true)
    [] "src/List.jsx"
  = [].
Proof.
  apply (semantic_self_diff_is_empty structure (fun s => s));
    simpl; repeat constructor; simpl; tauto.
Defined.

End StructureFacts.

(** ** What the structural diff does not report *)

Module SilenceFacts.
Import JsString Ast StringFacts StructureFacts.

Lemma find_none_iff {A} (f : A -> bool) (l : list A) :
  find f l = None <-> (forall x, In x l -> f x = false).
Proof.
  split; [apply find_none|].
  induction l as [|a l IH]; simpl; intros H; [reflexivity|].
  rewrite (H a) by now left. apply IH. intros x Hx. apply H. now right.
Qed.

(** The hook diff is silent exactly when the two versions call each of
    the six built-in hooks equally often; calls of any other hook are never
    reported. *)
Theorem diffHooks_silent_iff (oldHooks newHooks : list hook) :
  diffHooks oldHooks newHooks = []
  <-> (forall hookType, In hookType hookTypes ->
         countHooks hookType newHooks = countHooks hookType oldHooks).
Proof.
  unfold diffHooks. rewrite flat_map_nil_iff.
  split; intros H t Ht; specialize (H t Ht).
  - destruct (countHooks t oldHooks <? countHooks t newHooks) eqn:E1; [discriminate|].
    destruct (countHooks t newHooks <? countHooks t oldHooks) eqn:E2; [discriminate|].
    apply Nat.ltb_ge in E1, E2. lia.
  - rewrite H. now rewrite Nat.ltb_irrefl.
Qed.

(** The import diff is silent exactly when the two versions import from
    the same set of sources: a change of the names imported from a source
    that stays is never reported. *)
Theorem diffImports_silent_iff (oldImports newImports : list importInfo) :
  diffImports oldImports newImports = []
  <-> (forall i, In i newImports -> exists j, In j oldImports /\ source j = source i)
      /\ (forall i, In i oldImports -> exists j, In j newImports /\ source j = source i).
Proof.
  assert (Hside : forall here there : list importInfo, forall mk : importInfo -> string,
    flat_map (fun i => match findImport there (source i) with
                       | None => [mk i] | Some _ => [] end) here = []
    <-> (forall i, In i here -> exists j, In j there /\ source j = source i)).
  { intros here there mk. rewrite flat_map_nil_iff.
    split; intros H i Hi; specialize (H i Hi).
    - unfold findImport in H.
      destruct (find _ there) as [j|] eqn:E; [|discriminate].
      apply find_some in E. destruct E as [Hj E]. apply String.eqb_eq in E. now exists j.
    - destruct H as (j & Hj & E). unfold findImport.
      destruct (find_is_some (fun j' => String.eqb (source j') (source i)) there j Hj)
        as [y ->]; [|reflexivity].
      rewrite E. apply String.eqb_refl. }
  unfold diffImports. split.
  - intros H. apply app_eq_nil in H. destruct H as [Hn Ho].
    split; [eapply Hside, Hn | eapply Hside, Ho].
  - intros [Hn Ho].
    rewrite (proj2 (Hside newImports oldImports _) Hn).
    now rewrite (proj2 (Hside oldImports newImports _) Ho).
Qed.

(** [list.some(q => q.name === p.name)] holds for the parameters of the
    list itself. *)
Lemma filter_hasParam_nil (here there : list param) :
  (forall p, In p here -> hasParam there p = true) ->
  filter (fun p => negb (hasParam there p)) here = [].
Proof.
  intros H. apply DeclarationFacts.filter_nil. intros p Hp.
  now rewrite (H p Hp).
Qed.

(** What the function comparison never reports.  When the two versions
    of a function have the same parameter names (in any order, with or
    without defaults), the same async flag and the same answer to "has a
    return statement", when the complexity has not grown by more than two
    and no API call has appeared, [compareFunctions] returns nothing: a
    reordering of parameters, a changed default, a drop in complexity and
    the removal of API calls are all silent. *)
Theorem compareFunctions_silent (oldFunc newFunc : func) :
  async oldFunc = async newFunc ->
  (forall p, In p (params newFunc) -> hasParam (params oldFunc) p = true) ->
  (forall p, In p (params oldFunc) -> hasParam (params newFunc) p = true) ->
  complexity newFunc <= complexity oldFunc + 2 ->
  (callsAPI newFunc = true -> callsAPI oldFunc = true) ->
  hasReturn oldFunc = hasReturn newFunc ->
  compareFunctions oldFunc newFunc = [].
Proof.
  intros Hasync Hnew Hold Hcx Hapi Hret. unfold compareFunctions.
  rewrite Hasync, Hret, !Bool.eqb_reflx.
  rewrite (filter_hasParam_nil _ _ Hnew), (filter_hasParam_nil _ _ Hold).
  replace (complexity oldFunc + 2 <? complexity newFunc) with false
    by (symmetry; apply Nat.ltb_ge; lia).
  assert (Hcalls : negb (callsAPI oldFunc) && callsAPI newFunc = false).
  { destruct (callsAPI newFunc); [|apply andb_false_r].
    now rewrite (Hapi eq_refl). }
  rewrite Hcalls. now destruct (String.eqb _ _).
Qed.

Lemma compareFunctions_silent_witness :
  compareFunctions
    (mkFunc "move" false [mkParam "x" false; mkParam "y" false] true 6 true)
    (mkFunc "move" false [mkParam "y" true; mkParam "x" false] true 2 false)
  = [].
Proof.
  apply compareFunctions_silent; simpl; try reflexivity; try lia; try discriminate;
    intros p [<-|[<-|[]]]; reflexivity.
Defined.

End SilenceFacts.

(** ** Removals and the risk level *)

Module RemovalFacts.
Import JsString Ast Analyzer StringFacts StructureFacts.

(** A record that contains "Removed" makes the risk HIGH. *)
Lemma assessRisk_removed (filepath : string) (changes : list string) (c : string) :
  In c changes -> includes c "Removed" = true -> assessRisk filepath changes = "HIGH".
Proof.
  intros Hin Hc. unfold assessRisk.
  destruct (existsb _ _); [reflexivity|].
  match goal with |- (if ?b then _ else _) = _ => assert (Hb : b = true) end.
  { apply existsb_exists. exists c. split; [assumption|]. now rewrite Hc. }
  now rewrite Hb.
Qed.

Section Removal.

Variable ast : Type.
Variable extractCodeStructure : ast -> structure.

(** Removals and the risk level.  When a function, a class or an import
    source of the old tree has no namesake in the new tree, the records of
    [performSemanticDiff] make [assessRisk] answer HIGH, for every file
    path. *)
Theorem removal_is_high_risk (oldAST newAST : ast) (affectedRanges : list range)
    (filepath : string) :
  (exists f, In f (functions (extractCodeStructure oldAST))
             /\ findByName (functions (extractCodeStructure newAST)) (Ast.name f) = None)
  \/ (exists c, In c (classes (extractCodeStructure oldAST))
                /\ findClass (classes (extractCodeStructure newAST)) (c_name c) = None)
  \/ (exists i, In i (imports (extractCodeStructure oldAST))
                /\ findImport (imports (extractCodeStructure newAST)) (source i) = None) ->
  assessRisk filepath
    (performSemanticDiff ast extractCodeStructure oldAST newAST affectedRanges filepath)
  = "HIGH".
Proof.
  intros H. unfold performSemanticDiff.
  destruct H as [(f & Hf & Hnone) | [(c & Hc & Hnone) | (i & Hi & Hnone)]].
  - apply (assessRisk_removed _ _ ("Removed function: " +++ Ast.name f)); [|reflexivity].
    apply in_or_app. left. unfold diffFunctions. apply in_or_app. right.
    apply in_flat_map. exists f. split; [assumption|]. rewrite Hnone. now left.
  - apply (assessRisk_removed _ _ ("Removed class: " +++ c_name c)); [|reflexivity].
    apply in_or_app. right. apply in_or_app. left.
    unfold diffClasses. apply in_or_app. right.
    apply in_flat_map. exists c. split; [assumption|]. rewrite Hnone. now left.
  - apply (assessRisk_removed _ _ ("Removed import from '" +++ source i +++ "'"));
      [|reflexivity].
    apply in_or_app. right. apply in_or_app. right. apply in_or_app. left.
    unfold diffImports. apply in_or_app. right.
    apply in_flat_map. exists i. split; [assumption|]. rewrite Hnone. now left.
Qed.

End Removal.

Lemma removal_is_high_risk_witness :
  assessRisk "src/views/list.js"
    (performSemanticDiff structure (fun s => s)
       (mkStructure [mkFunc "render" false [] true 1 false] [] [] [] [] [] [] false)
       (mkStructure [] [] [] [] [] [] [] false)
       [] "src/views/list.js")
  = "HIGH".
Proof.
  apply removal_is_high_risk. left.
  exists (mkFunc "render" false [] true 1 false). split; [now left | reflexivity].
Defined.

End RemovalFacts.

(** ** Changed line ranges *)

Module RangeFacts.
Import JsString Ast Analyzer StringFacts.
Local Open Scope Z_scope.

Lemma expand_extend (s e : Z) (t : string) :
  s <= e ->
  expand (mkRange s (e + 1) t) = expand (mkRange s e t) ++ [(e + 1, t)].
Proof.
  intros Hle. unfold expand; simpl.
  replace (Z.to_nat (e + 1 - s + 1)) with (S (Z.to_nat (e - s + 1))) by lia.
  rewrite seq_S, map_app. simpl. rewrite Z2Nat.id by lia.
  do 3 f_equal. lia.
Qed.

Lemma expand_single (n : Z) (t : string) : expand (mkRange n n t) = [(n, t)].
Proof.
  unfold expand; simpl. rewrite Z.sub_diag. simpl. now rewrite Z.add_0_r.
Qed.

Lemma groupLoop_expand (rs : list changedLine) (current : range) (grouped : list range) :
  start current <= end_ current ->
  Forall (fun g => start g <= end_ g) grouped ->
  flat_map expand (groupLoop current rs grouped)
    = flat_map expand grouped ++ expand current ++ map (fun r => (line r, l_type r)) rs
  /\ Forall (fun g => start g <= end_ g) (groupLoop current rs grouped).
Proof.
  revert current grouped.
  induction rs as [|r rs IH]; intros current grouped Hcur Hgr; simpl.
  - rewrite flat_map_app; simpl. rewrite !app_nil_r. split; [reflexivity|].
    apply Forall_app. split; [assumption|]. now constructor.
  - destruct ((line r =? end_ current + 1) && String.eqb (l_type r) (g_type current)) eqn:E.
    + apply andb_prop in E. destruct E as [E1 E2].
      apply Z.eqb_eq in E1. apply String.eqb_eq in E2.
      destruct (IH (mkRange (start current) (line r) (g_type current)) grouped)
        as [IH1 IH2]; [simpl; lia | assumption |].
      split; [|assumption]. rewrite IH1, E1.
      destruct current as [s e t]; simpl in *.
      rewrite (expand_extend s e t Hcur), <- app_assoc. simpl.
      now rewrite E2.
    + destruct (IH (mkRange (line r) (line r) (l_type r)) (grouped ++ [current]))
        as [IH1 IH2]; [simpl; lia | apply Forall_app; split; [assumption | now constructor] |].
      split; [|assumption]. rewrite IH1, flat_map_app; simpl.
      rewrite app_nil_r, expand_single, <- app_assoc. reflexivity.
Qed.

(** Two groups that [groupRanges] would have merged. *)
Abbreviation mergeable g1 g2 :=
  (start g2 = end_ g1 + 1 /\ g_type g2 = g_type g1).

Abbreviation separated l :=
  (forall a g1 g2 b, l = a ++ g1 :: g2 :: b -> ~ mergeable g1 g2).

Lemma separated_one (g : range) : separated [g].
Proof.
  intros a g1 g2 b H. exfalso.
  apply (f_equal (@List.length range)) in H. rewrite length_app in H. simpl in H. lia.
Qed.

Lemma separated_snoc (l : list range) (x y : range) :
  separated (l ++ [x]) -> ~ mergeable x y -> separated ((l ++ [x]) ++ [y]).
Proof.
  intros Hl Hxy a g1 g2 b H.
  destruct b as [|z b _] using rev_ind.
  - change (a ++ [g1; g2]) with (a ++ [g1] ++ [g2]) in H.
    rewrite app_assoc in H.
    apply app_inj_tail in H. destruct H as [H <-].
    apply app_inj_tail in H. destruct H as [_ <-]. exact Hxy.
  - change (a ++ g1 :: g2 :: b ++ [z]) with (a ++ (g1 :: g2 :: b) ++ [z]) in H.
    rewrite app_assoc in H.
    apply app_inj_tail in H. destruct H as [H _].
    exact (Hl a g1 g2 b H).
Qed.

Lemma separated_extend (l : list range) (s e e' : Z) (t : string) :
  separated (l ++ [mkRange s e t]) -> separated (l ++ [mkRange s e' t]).
Proof.
  intros Hl a g1 g2 b H.
  destruct b as [|z b _] using rev_ind.
  - change (a ++ [g1; g2]) with (a ++ [g1] ++ [g2]) in H.
    rewrite app_assoc in H.
    apply app_inj_tail in H. destruct H as [H <-]. subst l.
    apply (Hl a g1 (mkRange s e t) []).
    now rewrite <- app_assoc.
  - change (a ++ g1 :: g2 :: b ++ [z]) with (a ++ (g1 :: g2 :: b) ++ [z]) in H.
    rewrite app_assoc in H.
    apply app_inj_tail in H. destruct H as [H _]. subst l.
    apply (Hl a g1 g2 (b ++ [mkRange s e t])).
    now rewrite <- app_assoc.
Qed.

Lemma groupLoop_separated (rs : list changedLine) (current : range) (grouped : list range) :
  separated (grouped ++ [current]) -> separated (groupLoop current rs grouped).
Proof.
  revert current grouped.
  induction rs as [|r rs IH]; intros current grouped Hsep; simpl; [exact Hsep|].
  destruct ((line r =? end_ current + 1) && String.eqb (l_type r) (g_type current)) eqn:E.
  - apply IH. destruct current as [s e t]; simpl.
    exact (separated_extend grouped s e (line r) t Hsep).
  - apply IH. apply separated_snoc; [exact Hsep|].
    simpl. intros [H1 H2].
    rewrite H1, H2, Z.eqb_refl, String.eqb_refl in E. discriminate.
Qed.

Lemma groupRanges_partition_lemma (ranges : list changedLine) :
  flat_map expand (groupRanges ranges) = map (fun r => (line r, l_type r)) ranges
  /\ Forall (fun g => start g <= end_ g) (groupRanges ranges).
Proof.
  destruct ranges as [|r rs]; simpl.
  - split; [reflexivity | constructor].
  - destruct (groupLoop_expand rs (mkRange (line r) (line r) (l_type r)) [])
      as [H1 H2]; [simpl; lia | constructor |].
    split; [|assumption]. rewrite H1. simpl. now rewrite expand_single.
Qed.

(** [groupRanges] is the maximal grouping of the changed lines.  The
    groups, expanded to the line numbers from [start] to [end], give back
    the numbered lines in order, each with its type; every group has
    [start <= end]; and no two neighbouring groups could have been merged
    (the second starting right after the first, with the same type). *)
Theorem groupRanges_is_the_maximal_grouping (ranges : list changedLine) :
  flat_map expand (groupRanges ranges) = map (fun r => (line r, l_type r)) ranges
  /\ Forall (fun g => start g <= end_ g) (groupRanges ranges)
  /\ (forall a g1 g2 b,
        groupRanges ranges = a ++ g1 :: g2 :: b ->
        ~ (start g2 = end_ g1 + 1 /\ g_type g2 = g_type g1)).
Proof.
  destruct (groupRanges_partition_lemma ranges) as [H1 H2].
  repeat split; try assumption.
  destruct ranges as [|r rs]; simpl.
  - intros a g1 g2 b H. now destruct a.
  - apply groupLoop_separated. simpl. apply separated_one.
Qed.

(** *** The extractor and the line counts of [parseGeneric] *)

Lemma length_expand (g : range) :
  start g <= end_ g ->
  Z.of_nat (List.length (expand g)) = end_ g - start g + 1.
Proof. intros H. unfold expand. rewrite length_map, length_seq. lia. Qed.

Lemma filter_expand (g : range) (t : string) :
  filter (fun p => String.eqb (snd p) t) (expand g)
  = if String.eqb (g_type g) t then expand g else [].
Proof.
  unfold expand. induction (seq 0 _) as [|k ks IH]; simpl.
  - now destruct (String.eqb _ _).
  - rewrite IH. now destruct (String.eqb (g_type g) t).
Qed.

Lemma linesOfType_expand (t : string) (groups : list range) :
  Forall (fun g => start g <= end_ g) groups ->
  linesOfType t groups
  = Z.of_nat (List.length (filter (fun p => String.eqb (snd p) t) (flat_map expand groups))).
Proof.
  induction 1 as [|g groups Hg _ IH]; simpl; [reflexivity|].
  rewrite filter_app, length_app, Nat2Z.inj_add, <- IH, filter_expand.
  destruct (String.eqb (g_type g) t); simpl; [|reflexivity].
  now rewrite length_expand.
Qed.

Lemma startsWith_char (c a : ascii) (text : string) :
  startsWith (String c text) (String a EmptyString) = Ascii.eqb a c.
Proof.
  unfold startsWith; simpl.
  destruct (Ascii.eqb_spec a c) as [->|Hne].
  - destruct (ascii_dec c c); [|congruence]. now destruct text.
  - destruct (ascii_dec a c); [congruence|reflexivity].
Qed.

Lemma header_is_no_change (text : string) (h : string * string) :
  match_hunk_header text = Some h ->
  startsWith text "+" = false /\ startsWith text "-" = false.
Proof.
  destruct text as [|c text]; [discriminate|].
  rewrite !startsWith_char.
  destruct (Ascii.eqb_spec "+" c) as [<-|_]; [discriminate|].
  destruct (Ascii.eqb_spec "-" c) as [<-|_]; [discriminate|].
  now split.
Qed.

Lemma diffStep_counts (t c ccc : string) (lines : list string)
    (st : list changedLine * Z * Z) :
  (t = "added" /\ c = "+" /\ ccc = "+++") \/ (t = "removed" /\ c = "-" /\ ccc = "---") ->
  List.length (filter (fun r => String.eqb (l_type r) t)
                 (fst (fst (fold_left diffStep lines st))))
  = (List.length (filter (fun r => String.eqb (l_type r) t) (fst (fst st)))
     + countLines c ccc lines)%nat.
Proof.
  intros Ht. revert st. unfold countLines.
  induction lines as [|text lines IH]; intros [[ranges n] o]; simpl; [lia|].
  rewrite IH. clear IH. unfold diffStep.
  destruct (match_hunk_header text) as [[oldStart newStart]|] eqn:Eh.
  - destruct (header_is_no_change _ _ Eh) as [Hp Hm]. simpl.
    destruct Ht as [(-> & -> & ->) | (-> & -> & ->)]; [rewrite Hp | rewrite Hm]; simpl; lia.
  - destruct (startsWith text "+" && negb (startsWith text "+++")) eqn:Ep.
    + simpl. rewrite filter_app, length_app. simpl.
      destruct Ht as [(-> & -> & ->) | (-> & -> & ->)].
      * rewrite Ep. simpl. lia.
      * apply andb_prop in Ep. destruct Ep as [Ep _].
        destruct text as [|a text]; [discriminate|].
        rewrite startsWith_char in Ep |- *.
        apply Ascii.eqb_eq in Ep. subst a. simpl. lia.
    + destruct (startsWith text "-" && negb (startsWith text "---")) eqn:Em.
      * simpl. rewrite filter_app, length_app. simpl.
        destruct Ht as [(-> & -> & ->) | (-> & -> & ->)].
        -- rewrite Ep. simpl. lia.
        -- rewrite Em. simpl. lia.
      * destruct Ht as [(-> & -> & ->) | (-> & -> & ->)];
          [rewrite Ep | rewrite Em]; destruct (negb (startsWith text "\")); simpl; lia.
Qed.

Lemma diffStep_types (lines : list string) (st : list changedLine * Z * Z) :
  Forall (fun r => l_type r = "added" \/ l_type r = "removed") (fst (fst st)) ->
  Forall (fun r => l_type r = "added" \/ l_type r = "removed")
         (fst (fst (fold_left diffStep lines st))).
Proof.
  revert st. induction lines as [|text lines IH]; intros [[ranges n] o] H; simpl; [exact H|].
  apply IH. unfold diffStep.
  destruct (match_hunk_header text) as [[oldStart newStart]|]; [exact H|].
  destruct (startsWith text "+" && negb (startsWith text "+++")).
  { simpl. apply Forall_app. split; [exact H|]. constructor; [now left | constructor]. }
  destruct (startsWith text "-" && negb (startsWith text "---")).
  { simpl. apply Forall_app. split; [exact H|]. constructor; [now right | constructor]. }
  now destruct (negb (startsWith text "\")).
Qed.

Lemma typed_lines_nil (rs : list changedLine) :
  Forall (fun r => l_type r = "added" \/ l_type r = "removed") rs ->
  filter (fun r => String.eqb (l_type r) "added") rs = [] ->
  filter (fun r => String.eqb (l_type r) "removed") rs = [] ->
  rs = [].
Proof.
  destruct 1 as [|r rs [E|E] _]; [reflexivity| |]; simpl; rewrite E; simpl; discriminate.
Qed.

Lemma filter_tags (t : string) (rs : list changedLine) :
  List.length (filter (fun p => String.eqb (snd p) t) (map (fun r => (line r, l_type r)) rs))
  = List.length (filter (fun r => String.eqb (l_type r) t) rs).
Proof.
  induction rs as [|r rs IH]; simpl; [reflexivity|].
  destruct (String.eqb (l_type r) t); simpl; now rewrite IH.
Qed.

Lemma linesOfType_changedLines (t c ccc diff : string) :
  (t = "added" /\ c = "+" /\ ccc = "+++") \/ (t = "removed" /\ c = "-" /\ ccc = "---") ->
  linesOfType t (extractDiffRanges diff)
  = Z.of_nat (countLines c ccc (split_on (ascii_of_nat 10) diff)).
Proof.
  intros Ht. unfold extractDiffRanges.
  destruct (groupRanges_partition_lemma (changedLines diff)) as [Hexp Hle].
  rewrite (linesOfType_expand t _ Hle), Hexp, filter_tags.
  unfold changedLines. now rewrite (diffStep_counts t c ccc _ _ Ht).
Qed.

(** The range extractor and the generic parser count the same lines.
    For every diff text, the groups of type "added" returned by
    [extractDiffRanges] cover as many lines as [parseGeneric] counts as
    added (the lines that start with "+" but not with "+++"), the groups of
    type "removed" as many as it counts as removed; no range is found
    exactly when [parseGeneric] has nothing to report. *)
Theorem ranges_agree_with_line_counts (diff : string) :
  linesOfType "added" (extractDiffRanges diff)
    = Z.of_nat (countLines "+" "+++" (split_on (ascii_of_nat 10) diff))
  /\ linesOfType "removed" (extractDiffRanges diff)
       = Z.of_nat (countLines "-" "---" (split_on (ascii_of_nat 10) diff))
  /\ (extractDiffRanges diff = [] <-> parseGeneric diff = []).
Proof.
  assert (Ha := linesOfType_changedLines "added" "+" "+++" diff
                  (or_introl (conj eq_refl (conj eq_refl eq_refl)))).
  assert (Hr := linesOfType_changedLines "removed" "-" "---" diff
                  (or_intror (conj eq_refl (conj eq_refl eq_refl)))).
  repeat split; try assumption.
  - intros Hnil. rewrite Hnil in Ha, Hr. simpl in Ha, Hr.
    unfold parseGeneric.
    replace (countLines "+" "+++" _) with 0%nat by lia.
    replace (countLines "-" "---" _) with 0%nat by lia.
    reflexivity.
  - intros Hgen. unfold extractDiffRanges.
    replace (changedLines diff) with (@nil changedLine); [reflexivity|].
    symmetry. apply typed_lines_nil.
    + apply diffStep_types. constructor.
    + apply length_zero_iff_nil. unfold changedLines.
      rewrite (diffStep_counts "added" "+" "+++" _ _
                 (or_introl (conj eq_refl (conj eq_refl eq_refl)))). simpl.
      unfold parseGeneric in Hgen.
      destruct (countLines "+" "+++" _) as [|a]; [reflexivity|].
      destruct (countLines "-" "---" _); discriminate.
    + apply length_zero_iff_nil. unfold changedLines.
      rewrite (diffStep_counts "removed" "-" "---" _ _
                 (or_intror (conj eq_refl (conj eq_refl eq_refl)))). simpl.
      unfold parseGeneric in Hgen.
      destruct (countLines "-" "---" _) as [|a]; [reflexivity|].
      destruct (countLines "+" "+++" _); discriminate.
Qed.

End RangeFacts.

(** ** The at-rule diff *)

Module AtRuleFacts.
Import JsString Css StringFacts.

Lemma filter_not_mem_nil (here there : list string) :
  filter (fun x => negb (mem x there)) here = [] <-> (forall x, In x here -> In x there).
Proof.
  split.
  - intros H x Hx. apply mem_In.
    destruct (mem x there) eqn:E; [reflexivity|].
    assert (Hin : In x (filter (fun y => negb (mem y there)) here)).
    { apply filter_In. split; [assumption|]. now rewrite E. }
    rewrite H in Hin. contradiction.
  - intros H. apply DeclarationFacts.filter_nil. intros x Hx.
    apply negb_false_iff, mem_In, H, Hx.
Qed.

Lemma map_nil_iff {A B} (f : A -> B) (l : list A) : map f l = [] <-> l = [].
Proof. destruct l; simpl; split; (reflexivity || discriminate). Qed.

Lemma flat_map_cons_nil_iff {A B} (f : A -> B) (g : A -> list B) (l : list A) :
  flat_map (fun x => f x :: g x) l = [] <-> l = [].
Proof. destruct l; simpl; split; (reflexivity || discriminate). Qed.

(** What the at-rule diff is blind to.  [compareAtRules] returns nothing
    exactly when the two versions have the same set of [@media] queries, of
    [@keyframes] names and of [@import] targets (quotes left out), and the
    new version has no more [@font-face] rules than the old one: a removed
    font face, a change in the number of copies of a query, and every
    [@supports] or [@container] rule go unreported. *)
Theorem compareAtRules_silent_iff (oldAST newAST : option root) :
  let oldAtRules := match oldAST with Some a => extractAtRules a | None => noAtRules end in
  let newAtRules := match newAST with Some a => extractAtRules a | None => noAtRules end in
  compareAtRules oldAST newAST = []
  <-> (forall m, In m (media newAtRules) <-> In m (media oldAtRules))
      /\ (forall k, In k (keyframes newAtRules) <-> In k (keyframes oldAtRules))
      /\ (forall i, In i (import newAtRules) <-> In i (import oldAtRules))
      /\ List.length (fontFace newAtRules) <= List.length (fontFace oldAtRules).
Proof.
  cbv zeta. unfold compareAtRules.
  set (o := match oldAST with Some a => extractAtRules a | None => noAtRules end).
  set (n := match newAST with Some a => extractAtRules a | None => noAtRules end).
  split.
  - intros H.
    apply app_eq_nil in H. destruct H as [Ham H].
    apply app_eq_nil in H. destruct H as [Hrm H].
    apply app_eq_nil in H. destruct H as [Hak H].
    apply app_eq_nil in H. destruct H as [Hrk H].
    apply app_eq_nil in H. destruct H as [Hff H].
    apply app_eq_nil in H. destruct H as [Hai Hri].
    apply flat_map_cons_nil_iff in Ham.
    apply map_nil_iff in Hrm, Hak, Hrk, Hai, Hri.
    pose proof (proj1 (filter_not_mem_nil _ _) Ham).
    pose proof (proj1 (filter_not_mem_nil _ _) Hrm).
    pose proof (proj1 (filter_not_mem_nil _ _) Hak).
    pose proof (proj1 (filter_not_mem_nil _ _) Hrk).
    pose proof (proj1 (filter_not_mem_nil _ _) Hai).
    pose proof (proj1 (filter_not_mem_nil _ _) Hri).
    repeat split; try (intros; auto).
    destruct (List.length (fontFace o) <? List.length (fontFace n)) eqn:E; [discriminate|].
    now apply Nat.ltb_ge in E.
  - intros (Hm & Hk & Hi & Hf).
    rewrite (proj2 (filter_not_mem_nil (media n) (media o))) by (intros; now apply Hm).
    rewrite (proj2 (filter_not_mem_nil (media o) (media n))) by (intros; now apply Hm).
    rewrite (proj2 (filter_not_mem_nil (keyframes n) (keyframes o))) by (intros; now apply Hk).
    rewrite (proj2 (filter_not_mem_nil (keyframes o) (keyframes n))) by (intros; now apply Hk).
    rewrite (proj2 (filter_not_mem_nil (import n) (import o))) by (intros; now apply Hi).
    rewrite (proj2 (filter_not_mem_nil (import o) (import n))) by (intros; now apply Hi).
    apply Nat.ltb_ge in Hf. rewrite Hf. reflexivity.
Qed.

End AtRuleFacts.

(** ** Rebuilding both versions from a diff *)

Module DiffTextFacts.
Import JsString Css StringFacts.

Lemma includes_char_false (c d : ascii) (s : string) :
  includes (String d s) (String c EmptyString) = false ->
  Ascii.eqb d c = false /\ includes s (String c EmptyString) = false.
Proof.
  simpl. intros H. apply orb_false_iff in H. destruct H as [H1 H2].
  split; [|exact H2].
  destruct (Ascii.eqb_spec d c) as [->|]; [|reflexivity].
  destruct (ascii_dec c c); [|congruence]. now destruct s.
Qed.

Lemma split_on_plain (c : ascii) (s : string) :
  includes s (String c EmptyString) = false -> split_on c s = [s].
Proof.
  induction s as [|d s IH]; [reflexivity|].
  intros H. apply includes_char_false in H. destruct H as [Hd Hs].
  simpl. rewrite Hd, (IH Hs). reflexivity.
Qed.

Lemma split_on_append (c : ascii) (a b : string) :
  includes a (String c EmptyString) = false ->
  split_on c (a +++ String c b) = a :: split_on c b.
Proof.
  induction a as [|d a IH]; intros H.
  - simpl. now rewrite Ascii.eqb_refl.
  - apply includes_char_false in H. destruct H as [Hd Ha].
    simpl. rewrite Hd, (IH Ha). reflexivity.
Qed.

Lemma split_on_join (c : ascii) (lines : list string) :
  lines <> [] ->
  (forall l, In l lines -> includes l (String c EmptyString) = false) ->
  split_on c (join (String c EmptyString) lines) = lines.
Proof.
  induction lines as [|l lines IH]; [congruence|]. intros _ H.
  destruct lines as [|l' lines].
  - simpl. apply split_on_plain, H. now left.
  - change (join (String c EmptyString) (l :: l' :: lines))
      with (l +++ String c (join (String c EmptyString) (l' :: lines))).
    rewrite split_on_append by (apply H; now left).
    f_equal. apply IH; [discriminate|]. intros x Hx. apply H. now right.
Qed.

Lemma startsWith_same (c : ascii) (s p : string) :
  startsWith (String c s) (String c p) = startsWith s p.
Proof. unfold startsWith; simpl. destruct (ascii_dec c c); congruence. Qed.

Lemma startsWith_diff (c d : ascii) (s p : string) :
  c <> d -> startsWith (String c s) (String d p) = false.
Proof. intros H. unfold startsWith; simpl. destruct (ascii_dec d c); congruence. Qed.

Lemma startsWith_nil (s : string) : startsWith s EmptyString = true.
Proof. now destruct s. Qed.

Ltac starts :=
  repeat (rewrite startsWith_same || rewrite startsWith_nil
          || rewrite startsWith_diff by discriminate).

Lemma reconstructStep_writeLine (l : diffLine) (oldLines newLines : list string) :
  faithfulLine l ->
  reconstructStep (oldLines, newLines) (writeLine l)
  = (oldLines ++ oldSide l, newLines ++ newSide l).
Proof.
  intros [_ H]. unfold reconstructStep.
  destruct l as [name|name|header|text|text|text]; simpl writeLine; simpl oldSide;
    simpl newSide; starts; rewrite ?app_nil_r; try reflexivity.
  - rewrite H. reflexivity.
  - rewrite H. reflexivity.
Qed.

Lemma reconstruct_fold (body : list diffLine) (oldLines newLines : list string) :
  Forall faithfulLine body ->
  fold_left reconstructStep (map writeLine body) (oldLines, newLines)
  = (oldLines ++ flat_map oldSide body, newLines ++ flat_map newSide body).
Proof.
  intros H. revert oldLines newLines.
  induction H as [|l body Hl _ IH]; intros oldLines newLines; cbn [map fold_left flat_map].
  - now rewrite !app_nil_r.
  - rewrite (reconstructStep_writeLine l _ _ Hl), IH, <- !app_assoc. reflexivity.
Qed.

Lemma includes_append_char (c : ascii) (a b : string) :
  includes (a +++ b) (String c EmptyString)
  = includes a (String c EmptyString) || includes b (String c EmptyString).
Proof.
  induction a as [|d a IH].
  - simpl. destruct b; reflexivity.
  - change (String d a +++ b) with (String d (a +++ b)).
    destruct (Ascii.eqb_spec d c) as [->|Hne].
    + assert (E : forall s, includes (String c s) (String c EmptyString) = true).
      { intros s. simpl. destruct (ascii_dec c c); [|congruence]. now destruct s. }
      now rewrite !E.
    + assert (E : forall s, includes (String d s) (String c EmptyString)
                            = includes s (String c EmptyString)).
      { intros s. simpl. destruct (ascii_dec c d); [congruence | reflexivity]. }
      now rewrite !E.
Qed.

Lemma writeLine_one_line (l : diffLine) :
  faithfulLine l -> includes (writeLine l) newline = false.
Proof.
  intros [Htext H]. unfold newline in *.
  destruct l as [name|name|header|text|text|text]; cbn [writeLine];
    rewrite includes_append_char.
  - now rewrite H.
  - now rewrite H.
  - now rewrite H.
  - rewrite (Htext text); [reflexivity | simpl; tauto].
  - rewrite (Htext text); [reflexivity | simpl; tauto].
  - rewrite (Htext text); [reflexivity | simpl; tauto].
Qed.

(** The reconstruction is exact on well-behaved diff bodies.  For every
    body of a unified diff (file headers, hunk headers, context, added and
    removed lines) whose lines hold no line break, whose removed lines do
    not start with "--" and whose added lines do not start with "++",
    [reconstructFromDiff] returns the old text (context and removed lines)
    and the new text (context and added lines), line for line. *)
Theorem reconstructFromDiff_round_trip (body : list diffLine) :
  Forall faithfulLine body ->
  reconstructFromDiff (DiffText (join newline (map writeLine body)))
  = (join newline (flat_map oldSide body), join newline (flat_map newSide body)).
Proof.
  intros H. unfold reconstructFromDiff.
  destruct body as [|l body]; [reflexivity|].
  unfold newline at 1. rewrite split_on_join.
  - now rewrite (reconstruct_fold _ [] [] H).
  - discriminate.
  - intros x Hx. apply in_map_iff in Hx. destruct Hx as (l' & <- & Hl').
    apply writeLine_one_line. rewrite Forall_forall in H. now apply H.
Qed.

Lemma reconstructFromDiff_witness :
  reconstructFromDiff
    (DiffText (join newline
                 (map writeLine [HunkHeader " -1,3 +1,3 @@"; ContextLine ".a {";
                                 RemovedLine "  color: red;";
                                 AddedLine "  color: blue;"; ContextLine "}"])))
  = (join newline [".a {"; "  color: red;"; "}"],
     join newline [".a {"; "  color: blue;"; "}"]).
Proof.
  apply (reconstructFromDiff_round_trip
           [HunkHeader " -1,3 +1,3 @@"; ContextLine ".a {"; RemovedLine "  color: red;";
            AddedLine "  color: blue;"; ContextLine "}"]).
  repeat constructor; simpl; intros; intuition (subst; reflexivity).
Defined.

(** A removed line that starts with "--", such as the declaration of a
    custom property, is read as a file header and lost. *)
Lemma reconstructFromDiff_loses_custom_property :
  reconstructFromDiff (DiffText (writeLine (RemovedLine "--accent: red;")))
  = (EmptyString, EmptyString).
Proof. reflexivity. Qed.

End DiffTextFacts.

(** ** The nesting depth *)

Module NestingFacts.
Import JsString Css StringFacts.
Local Open Scope Z_scope.

Ltac split_ifs :=
  repeat match goal with
         | |- context [if ?b then _ else _] => destruct b eqn:?
         end.

Lemma scanDepth_bounds (css : string) (st : scan) (prev : option ascii) (skip : bool) :
  maxDepth st <= scanDepth st prev skip css
  /\ scanDepth st prev skip css
     <= Z.max (maxDepth st) (currentDepth st + Z.of_nat (countChar "{" css)).
Proof.
  revert st prev skip.
  induction css as [|char rest IH]; intros st prev skip.
  - simpl. lia.
  - cbn [scanDepth countChar].
    destruct (Ascii.eqb char "{") eqn:Ebrace;
      split_ifs;
      match goal with
      | |- context [scanDepth ?st' ?p ?k rest] => specialize (IH st' p k)
      end; cbn [maxDepth currentDepth] in IH; lia.
Qed.

(** The nesting depth found is never negative and never exceeds the
    number of opening braces of the text, whatever the text holds
    (strings, comments, unbalanced braces). *)
Theorem detectNestingDepth_bounds (css : string) :
  0 <= detectNestingDepth css <= Z.of_nat (countChar "{" css).
Proof.
  unfold detectNestingDepth.
  pose proof (scanDepth_bounds css (mkScan 0 0 false false None) None false) as H.
  cbn [maxDepth currentDepth] in H. lia.
Qed.

Lemma balance_cons (c : ascii) (s : string) :
  balance (String c s)
  = (if Ascii.eqb c "{" then 1 else 0) - (if Ascii.eqb c "}" then 1 else 0) + balance s.
Proof.
  unfold balance; cbn [countChar].
  destruct (Ascii.eqb c "{"), (Ascii.eqb c "}"); lia.
Qed.

Lemma scanDepth_plain (css : string) (max cur : Z) (sc prev : option ascii) :
  plainText css = true ->
  cur <= max ->
  let depth := scanDepth (mkScan max cur false false sc) prev false css in
  max <= depth
  /\ (forall p q, css = p +++ q -> cur + balance p <= depth)
  /\ (depth = max \/ exists p q, css = p +++ q /\ cur + balance p = depth).
Proof.
  revert max cur prev.
  induction css as [|char rest IH]; intros max cur prev Hplain Hle; cbv zeta.
  - simpl. split; [lia|]. split; [|now left].
    intros p q H. destruct p; [|discriminate]. unfold balance; simpl. lia.
  - simpl in Hplain. apply andb_prop in Hplain. destruct Hplain as [Hc Hrest].
    apply andb_prop in Hc. destruct Hc as [Hq Hs].
    apply negb_true_iff in Hq, Hs.
    cbn [scanDepth inString inComment maxDepth currentDepth stringChar negb andb].
    rewrite Hq, Hs. cbn [andb].
    destruct (Ascii.eqb char "{") eqn:Eo; [|destruct (Ascii.eqb char "}") eqn:Ec].
    + specialize (IH (Z.max max (cur + 1)) (cur + 1) (Some char) Hrest ltac:(lia)).
      cbv zeta in IH. destruct IH as (H1 & H2 & H3).
      split; [lia|]. split.
      * intros [|c p] q E.
        -- unfold balance; simpl. lia.
        -- simpl in E. injection E as <- E. rewrite balance_cons, Eo.
           assert (Hc : Ascii.eqb char "}" = false).
           { apply Ascii.eqb_eq in Eo. now subst char. }
           rewrite Hc. specialize (H2 p q E). lia.
      * destruct H3 as [H3 | (p & q & E & H3)].
        -- destruct (Z.max_spec max (cur + 1)) as [[_ Hm]|[_ Hm]].
           ++ right. exists (String char EmptyString), rest. split; [reflexivity|].
              rewrite balance_cons, Eo.
              assert (Hc : Ascii.eqb char "}" = false).
              { apply Ascii.eqb_eq in Eo. now subst char. }
              rewrite Hc. unfold balance; simpl. lia.
           ++ left. lia.
        -- right. exists (String char p), q. split; [simpl; now rewrite E|].
           rewrite balance_cons, Eo.
           assert (Hc : Ascii.eqb char "}" = false).
           { apply Ascii.eqb_eq in Eo. now subst char. }
           rewrite Hc. lia.
    + specialize (IH max (cur - 1) (Some char) Hrest ltac:(lia)).
      cbv zeta in IH. destruct IH as (H1 & H2 & H3).
      split; [lia|]. split.
      * intros [|c p] q E.
        -- unfold balance; simpl. lia.
        -- simpl in E. injection E as <- E. rewrite balance_cons, Eo, Ec.
           specialize (H2 p q E). lia.
      * destruct H3 as [H3 | (p & q & E & H3)]; [now left|].
        right. exists (String char p), q. split; [simpl; now rewrite E|].
        rewrite balance_cons, Eo, Ec. lia.
    + specialize (IH max cur (Some char) Hrest Hle).
      cbv zeta in IH. destruct IH as (H1 & H2 & H3).
      split; [lia|]. split.
      * intros [|c p] q E.
        -- unfold balance; simpl. lia.
        -- simpl in E. injection E as <- E. rewrite balance_cons, Eo, Ec.
           specialize (H2 p q E). lia.
      * destruct H3 as [H3 | (p & q & E & H3)]; [now left|].
        right. exists (String char p), q. split; [simpl; now rewrite E|].
        rewrite balance_cons, Eo, Ec. lia.
Qed.

(** On a text without quotes and slashes the nesting depth is the
    greatest excess of opening over closing braces that a prefix of the
    text reaches: no prefix exceeds it, and it is either zero or reached by
    some prefix. *)
Theorem detectNestingDepth_plain (css : string) :
  plainText css = true ->
  (forall p q, css = p +++ q -> balance p <= detectNestingDepth css)
  /\ (detectNestingDepth css = 0
      \/ exists p q, css = p +++ q /\ balance p = detectNestingDepth css).
Proof.
  intros Hplain. unfold detectNestingDepth.
  destruct (scanDepth_plain css 0 0 None None Hplain ltac:(lia)) as (_ & H2 & H3).
  cbv zeta in H2, H3. split; [exact H2 | exact H3].
Qed.

Lemma detectNestingDepth_plain_witness :
  (forall p q, ".a { .b { } } .c { }" = p +++ q ->
     balance p <= detectNestingDepth ".a { .b { } } .c { }")
  /\ (detectNestingDepth ".a { .b { } } .c { }" = 0
      \/ exists p q, ".a { .b { } } .c { }" = p +++ q
                     /\ balance p = detectNestingDepth ".a { .b { } } .c { }").
Proof.
  apply detectNestingDepth_plain. reflexivity.
Defined.

End NestingFacts.

(** ** Comments and the nesting depth *)

Module CommentFacts.
Import JsString Css StringFacts.
Local Open Scope Z_scope.

(** Outside a string the character before the current one is not read. *)
Lemma scanDepth_prev (css : string) (st : scan) (prev prev' : option ascii) :
  inString st = false ->
  scanDepth st prev false css = scanDepth st prev' false css.
Proof.
  intros H. destruct css as [|char rest]; [reflexivity|].
  cbn [scanDepth]. rewrite H. reflexivity.
Qed.

(** Inside a comment, a text without stars and slashes changes nothing. *)
Lemma scanDepth_in_comment (c rest : string) (max cur : Z) (sc prev : option ascii) :
  all_chars (fun x => negb (Ascii.eqb x "*") && negb (Ascii.eqb x "/")) c = true ->
  exists prev',
    scanDepth (mkScan max cur false true sc) prev false (c +++ rest)
    = scanDepth (mkScan max cur false true sc) prev' false rest.
Proof.
  revert prev. induction c as [|x c IH]; intros prev H.
  - now exists prev.
  - simpl in H. apply andb_prop in H. destruct H as [Hx Hc].
    apply andb_prop in Hx. destruct Hx as [Hstar Hslash].
    apply negb_true_iff in Hstar, Hslash.
    destruct (IH (Some x) Hc) as [prev' E]. exists prev'. rewrite <- E.
    change (String x c +++ rest) with (String x (c +++ rest)).
    cbn [scanDepth inString inComment negb andb].
    rewrite Hstar, Hslash, andb_false_r. reflexivity.
Qed.

(** A whole block comment is passed over. *)
Lemma scanDepth_comment (c rest : string) (max cur : Z) (sc prev : option ascii) :
  all_chars (fun x => negb (Ascii.eqb x "*") && negb (Ascii.eqb x "/")) c = true ->
  scanDepth (mkScan max cur false false sc) prev false ("/*" +++ c +++ "*/" +++ rest)
  = scanDepth (mkScan max cur false false sc) prev false rest.
Proof.
  intros Hc.
  change ("/*" +++ c +++ "*/" +++ rest) with (String "/" (String "*" (c +++ "*/" +++ rest))).
  cbn [scanDepth inString inComment maxDepth currentDepth stringChar negb andb is_quote
       char_is].
  replace (is_quote "/") with false by reflexivity.
  replace (Ascii.eqb "/" "/") with true by reflexivity.
  replace (Ascii.eqb "*" "*") with true by reflexivity.
  cbn [andb negb].
  destruct (scanDepth_in_comment c ("*/" +++ rest) max cur sc (Some "*"%char) Hc) as [prev' E].
  rewrite E.
  change ("*/" +++ rest) with (String "*" (String "/" rest)).
  cbn [scanDepth inString inComment maxDepth currentDepth stringChar negb andb is_quote
       char_is].
  replace (is_quote "*") with false by reflexivity.
  replace (Ascii.eqb "*" "/") with false by reflexivity.
  replace (Ascii.eqb "/" "/") with true by reflexivity.
  replace (Ascii.eqb "*" "*") with true by reflexivity.
  cbn [andb negb].
  apply scanDepth_prev. reflexivity.
Qed.

(** After a plain text the scan goes on in a state that does not depend
    on what follows. *)
Lemma scanDepth_after_plain (a x y : string) :
  plainText a = true ->
  (forall max cur sc prev,
     scanDepth (mkScan max cur false false sc) prev false x
     = scanDepth (mkScan max cur false false sc) prev false y) ->
  forall max cur sc prev,
    scanDepth (mkScan max cur false false sc) prev false (a +++ x)
    = scanDepth (mkScan max cur false false sc) prev false (a +++ y).
Proof.
  intros Ha Hxy. induction a as [|char a IH]; intros max cur sc prev.
  - apply Hxy.
  - simpl in Ha. apply andb_prop in Ha. destruct Ha as [Hc Ha].
    apply andb_prop in Hc. destruct Hc as [Hq Hs].
    apply negb_true_iff in Hq, Hs.
    change (String char a +++ x) with (String char (a +++ x)).
    change (String char a +++ y) with (String char (a +++ y)).
    cbn [scanDepth inString inComment maxDepth currentDepth stringChar negb andb].
    rewrite Hq, Hs. cbn [andb].
    destruct (Ascii.eqb char "{"); [apply (IH Ha)|].
    destruct (Ascii.eqb char "}"); apply (IH Ha).
Qed.

(** Braces inside a block comment are not counted.  After a text without
    quotes and slashes, a block comment whose body holds no star and no
    slash can be taken out without changing the nesting depth, whatever the
    comment holds otherwise (braces, quotes) and whatever follows it. *)
Theorem detectNestingDepth_skips_comments (before body after : string) :
  plainText before = true ->
  all_chars (fun x => negb (Ascii.eqb x "*") && negb (Ascii.eqb x "/")) body = true ->
  detectNestingDepth (before +++ "/*" +++ body +++ "*/" +++ after)
  = detectNestingDepth (before +++ after).
Proof.
  intros Hbefore Hbody. unfold detectNestingDepth.
  apply scanDepth_after_plain; [assumption|].
  intros max cur sc prev. now apply scanDepth_comment.
Qed.

Lemma detectNestingDepth_skips_comments_witness :
  detectNestingDepth (".a { " +++ "/*" +++ " .old { .x { 'it" +++ "*/" +++ " .b { } }")
  = detectNestingDepth (".a { " +++ " .b { } }").
Proof.
  apply detectNestingDepth_skips_comments; reflexivity.
Defined.

End CommentFacts.

(** ** SCSS variables *)

Module ScssFacts.
Import JsString Css JsObject StringFacts.

Lemma dict_get_set {V} (m : dict V) (k k' : string) (v : V) :
  dict_get (dict_set m k v) k' = if String.eqb k' k then Some v else dict_get m k'.
Proof.
  induction m as [|[k0 v0] m IH]; simpl.
  - reflexivity.
  - destruct (String.eqb k k0) eqn:E0; simpl.
    + apply String.eqb_eq in E0; subst k0.
      now destruct (String.eqb k' k).
    + destruct (String.eqb k' k0) eqn:E1.
      * apply String.eqb_eq in E1; subst k0.
        rewrite String.eqb_sym in E0. now rewrite E0.
      * exact IH.
Qed.

(** A name of [Object.prototype] is never a key of the dictionary: the
    first time it is met, the extraction throws. *)
Abbreviation clean vars :=
  (forall k, mem k objectPrototypeKeys = true -> dict_get vars k = None).

Lemma addVariable_clean (vars vars' : dict (list string)) (m : string * string) :
  clean vars -> addVariable vars m = Return vars' -> clean vars'.
Proof.
  destruct m as [varName value]. unfold addVariable. intros Hclean H k Hk.
  destruct (dict_get vars varName) as [values|] eqn:E.
  - injection H as <-. rewrite dict_get_set.
    destruct (String.eqb_spec k varName) as [->|_]; [|now apply Hclean].
    rewrite (Hclean _ Hk) in E. discriminate.
  - destruct (mem varName objectPrototypeKeys) eqn:Em; [discriminate|].
    injection H as <-. rewrite dict_get_set.
    destruct (String.eqb_spec k varName) as [->|_]; [congruence | now apply Hclean].
Qed.

Lemma addVariables_throws (ms : list (string * string)) (vars : dict (list string))
    (name : string) :
  clean vars ->
  In name (map fst ms) -> mem name objectPrototypeKeys = true ->
  addVariables vars ms = Throw "TypeError: vars[varName].push is not a function".
Proof.
  revert vars. induction ms as [|[varName value] ms IH]; intros vars Hclean Hin Hname;
    [contradiction|].
  cbn [addVariables].
  destruct (addVariable vars (varName, value)) as [vars'|msg] eqn:E.
  - simpl. apply (IH vars'); [eapply addVariable_clean; eassumption | | assumption].
    destruct Hin as [Hin|Hin]; [|assumption]. simpl in Hin. subst varName.
    unfold addVariable in E. rewrite (Hclean _ Hname), Hname in E. discriminate.
  - simpl. unfold addVariable in E.
    destruct (dict_get vars varName); [discriminate|].
    destruct (mem varName objectPrototypeKeys); [|discriminate].
    now injection E as <-.
Qed.

Lemma addVariables_returns (ms : list (string * string)) (vars : dict (list string)) :
  (forall name, In name (map fst ms) -> mem name objectPrototypeKeys = false) ->
  exists vars', addVariables vars ms = Return vars'.
Proof.
  revert vars. induction ms as [|[varName value] ms IH]; intros vars H.
  - now exists vars.
  - cbn [addVariables]. unfold addVariable.
    rewrite (H varName) by now left.
    destruct (dict_get vars varName); simpl; apply IH; intros name Hn; apply H; now right.
Qed.

Lemma includes_char_split (c d : ascii) (s : string) :
  includes (String d s) (String c EmptyString) = false ->
  d <> c /\ includes s (String c EmptyString) = false.
Proof.
  intros H. apply DiffTextFacts.includes_char_false in H. destruct H as [H1 H2].
  split; [|assumption]. intros ->. now rewrite Ascii.eqb_refl in H1.
Qed.

Lemma variableMatches_skip_plain (pre rest : string) :
  includes pre "$" = false ->
  variableMatches 0 (pre +++ rest) = variableMatches 0 rest.
Proof.
  induction pre as [|c pre IH]; intros H; [reflexivity|].
  apply includes_char_split in H. destruct H as [Hc Hpre].
  change (String c pre +++ rest) with (String c (pre +++ rest)).
  cbn [variableMatches].
  replace (match_variable_at (String c (pre +++ rest))) with (@None (string * string * nat)).
  - now apply IH.
  - unfold match_variable_at. cbn [strip_prefix].
    destruct (Ascii.eqb_spec "$" c) as [<-|_]; [congruence | reflexivity].
Qed.

Lemma all_chars_not_semicolon (value : string) :
  includes value ";" = false -> all_chars not_semicolon value = true.
Proof.
  induction value as [|c value IH]; intros H; [reflexivity|].
  apply DiffTextFacts.includes_char_false in H. destruct H as [Hc Hv].
  simpl. unfold not_semicolon at 1. rewrite Hc. simpl. now apply IH.
Qed.

Lemma prototype_names_are_words (name : string) :
  In name objectPrototypeKeys ->
  all_chars is_prop_char name = true /\ truthy name = true
  /\ mem name objectPrototypeKeys = true.
Proof.
  intros H. split; [|split]; [| |now apply mem_In];
    simpl in H; repeat (destruct H as [<-|H]; [reflexivity|]); contradiction.
Qed.

Lemma match_variable_at_definition (name value post : string) :
  all_chars is_prop_char name = true -> truthy name = true ->
  value <> EmptyString -> includes value ";" = false ->
  match_variable_at ("$" +++ name +++ ":" +++ value +++ ";" +++ post)
  = Some (name, trim value, String.length name + String.length value + 3).
Proof.
  intros Hname Hne Hvalue Hsemi. unfold match_variable_at.
  change ("$" +++ name +++ ":" +++ value +++ ";" +++ post)
    with (String "$" (name +++ ":" +++ value +++ ";" +++ post)).
  cbn [strip_prefix]. rewrite Ascii.eqb_refl.
  rewrite (GridFacts.span_append is_prop_char name (":" +++ value +++ ";" +++ post) Hname)
    by reflexivity.
  rewrite Hne.
  change (":" +++ value +++ ";" +++ post) with (String ":" (value +++ ";" +++ post)).
  cbn [strip_prefix]. rewrite Ascii.eqb_refl.
  rewrite (GridFacts.span_append not_semicolon value (";" +++ post)
             (all_chars_not_semicolon _ Hsemi)) by reflexivity.
  replace (truthy value) with true by (destruct value; [congruence | reflexivity]).
  change (";" +++ post) with (String ";" post).
  now rewrite DiffTextFacts.startsWith_same, DiffTextFacts.startsWith_nil.
Qed.

(** A variable named like a member of [Object.prototype].  When the
    first SCSS variable of a text is called [constructor], [toString],
    [__proto__] or any other name that [Object.prototype] defines, reading
    [vars[varName]] finds the inherited member, the text never gets its
    array, and the extraction throws a [TypeError]; so does the comparison
    of SCSS features with that text on either side. *)
Theorem prototype_named_variable_throws (pre name value post : string) :
  In name objectPrototypeKeys ->
  includes pre "$" = false ->
  value <> EmptyString -> includes value ";" = false ->
  let content := pre +++ "$" +++ name +++ ":" +++ value +++ ";" +++ post in
  extractSCSSVariablesWithDuplicates content
    = Throw "TypeError: vars[varName].push is not a function"
  /\ (forall other, exists message,
        comparePreprocessorFeatures other content = Throw message)
  /\ (forall other, exists message,
        comparePreprocessorFeatures content other = Throw message).
Proof.
  intros Hin Hpre Hvalue Hsemi content.
  destruct (prototype_names_are_words name Hin) as (Hword & Hne & Hmem).
  assert (Hthrow : extractSCSSVariablesWithDuplicates content
                   = Throw "TypeError: vars[varName].push is not a function").
  { unfold extractSCSSVariablesWithDuplicates, content.
    rewrite (variableMatches_skip_plain pre _ Hpre).
    change ("$" +++ name +++ ":" +++ value +++ ";" +++ post)
      with (String "$" (name +++ ":" +++ value +++ ";" +++ post)).
    cbn [variableMatches].
    change (String "$" (name +++ ":" +++ value +++ ";" +++ post))
      with ("$" +++ name +++ ":" +++ value +++ ";" +++ post).
    rewrite (match_variable_at_definition name value post Hword Hne Hvalue Hsemi).
    apply (addVariables_throws _ [] name); [intros k _; reflexivity | now left | assumption]. }
  split; [exact Hthrow|]. split; intros other; unfold comparePreprocessorFeatures.
  - rewrite Hthrow.
    destruct (extractSCSSVariablesWithDuplicates other); simpl; eexists; reflexivity.
  - rewrite Hthrow. simpl. eexists; reflexivity.
Qed.

Lemma prototype_named_variable_witness :
  extractSCSSVariablesWithDuplicates
    (".a { color: red; } " +++ "$" +++ "constructor" +++ ":" +++ " Roboto" +++ ";" +++ " .b { }")
  = Throw "TypeError: vars[varName].push is not a function".
Proof.
  apply (prototype_named_variable_throws ".a { color: red; } " "constructor" " Roboto" " .b { }");
    [simpl; tauto | reflexivity | discriminate | reflexivity].
Defined.

Lemma same_value_refl (v : option string) : same_value v v = true.
Proof. destruct v; simpl; [apply String.eqb_refl | reflexivity]. Qed.

Lemma compareVariable_same (vars : dict (list string)) (varName r : string) :
  In r (compareVariable vars vars varName) -> startsWith r "⚠ SCSS variable " = true.
Proof.
  unfold compareVariable. rewrite in_app_iff. intros [H|H].
  - destruct (_ && _); [|contradiction]. destruct H as [<-|[]].
    cbn [String.append]. now DiffTextFacts.starts.
  - rewrite same_value_refl in H.
    destruct (present (lastValue (valuesOf vars varName))); simpl in H; contradiction.
Qed.

(** Comparing a text with itself.  When no SCSS variable of a text is
    named like a member of [Object.prototype], the comparison of the SCSS
    features of that text with itself returns, and returns nothing but the
    warnings about variables defined several times with different values:
    no variable is added, removed or changed, no mixin is new, and the
    nesting warning stays out whatever the depth. *)
Theorem preprocessor_self_comparison (content : string) :
  (forall name, In name (map fst (variableMatches 0 content)) ->
                mem name objectPrototypeKeys = false) ->
  exists changes,
    comparePreprocessorFeatures content content = Return changes
    /\ forall r, In r changes -> startsWith r "⚠ SCSS variable " = true.
Proof.
  intros H. unfold comparePreprocessorFeatures.
  destruct (addVariables_returns _ [] H) as [vars Hvars].
  unfold extractSCSSVariablesWithDuplicates. rewrite Hvars. simpl.
  eexists. split; [reflexivity|].
  intros r Hr. rewrite !DeclarationFacts.filter_not_mem_self in Hr. simpl in Hr.
  apply in_app_iff in Hr. destruct Hr as [Hr|Hr].
  - apply in_flat_map in Hr. destruct Hr as (varName & _ & Hr).
    now apply compareVariable_same in Hr.
  - rewrite Z.ltb_irrefl in Hr.
    destruct (4 <? detectNestingDepth content)%Z eqn:E; [|contradiction].
    apply Z.ltb_lt in E.
    replace (detectNestingDepth content <=? 4)%Z with false in Hr
      by (symmetry; apply Z.leb_gt; exact E).
    contradiction.
Qed.

Lemma preprocessor_self_comparison_witness :
  exists changes,
    comparePreprocessorFeatures "$gap: 4px; .a { $gap: 8px; margin: $gap; }"
                                "$gap: 4px; .a { $gap: 8px; margin: $gap; }"
      = Return changes
    /\ forall r, In r changes -> startsWith r "⚠ SCSS variable " = true.
Proof.
  apply preprocessor_self_comparison.
  simpl. intros name [<-|[<-|[]]]; reflexivity.
Defined.

End ScssFacts.

(** ** The diff-text fallback on removals *)

Module FallbackFacts.
Import JsString Css StringFacts.

(** The diff-text fallback never describes a removal.  When no line of
    the diff is an added line (every line that starts with "+" is a "+++"
    file header), the fallback returns the single record "Component visual
    changes detected", whatever was removed. *)
Theorem fallback_ignores_removals (diffContent filepath : string) :
  (forall line, In line (split_on (ascii_of_nat 10) diffContent) ->
                startsWith line "+" = true -> startsWith line "+++" = true) ->
  parseCSSWithDiffFallback diffContent filepath = ["Component visual changes detected"].
Proof.
  intros H. unfold parseCSSWithDiffFallback.
  rewrite (DeclarationFacts.filter_nil
             (fun line => startsWith line "+" && negb (startsWith line "+++"))).
  - reflexivity.
  - intros line Hline. specialize (H line Hline).
    destruct (startsWith line "+"); [|reflexivity]. now rewrite H.
Qed.

Lemma fallback_ignores_removals_witness :
  parseCSSWithDiffFallback
    ("--- a/button.css" +++ newline +++ "+++ b/button.css" +++ newline +++
     "-.button { display: flex; color: red; }")
    "button.css"
  = ["Component visual changes detected"].
Proof.
  apply fallback_ignores_removals.
  simpl. intros line [<-|[<-|[<-|[]]]]; (reflexivity || discriminate).
Defined.

End FallbackFacts.

(** ** Symmetry of the per-property comparison *)

Module MirrorFacts.
Import JsString Css StringFacts.

Lemma oneToOne_swap (a b : list string) :
  oneToOne b a = match oneToOne a b with Some (x, y) => Some (y, x) | None => None end.
Proof.
  destruct a as [|x [|? ?]], b as [|y [|? ?]]; try reflexivity. simpl.
  rewrite (String.eqb_sym y x). now destruct (String.eqb x y).
Qed.

Lemma flat_map_ext_In {A B} (f g : A -> list B) (l : list A) :
  (forall x, In x l -> f x = g x) -> flat_map f l = flat_map g l.
Proof.
  induction l as [|a l IH]; simpl; intros H; [reflexivity|].
  rewrite (H a) by now left. rewrite IH; [reflexivity|]. intros x Hx. apply H. now right.
Qed.

(** The records for the values of [here] that [there] lacks. *)
Lemma mirror_missing (mk mk' : string -> option nat -> change) (counts : dict nat)
    (here there : list string) :
  (forall v s, In v here -> mirror (mk v s) = mk' v s) ->
  map mirror
    (flat_map (fun value => if negb (mem value there)
                            then [mk value (suffix_of (dict_get counts value))] else [])
              here)
  = flat_map (fun value => if negb (mem value there)
                           then [mk' value (suffix_of (dict_get counts value))] else [])
             here.
Proof.
  intros H. induction here as [|v here IH]; [reflexivity|].
  simpl. rewrite map_app, IH by (intros; apply H; now right).
  destruct (negb (mem v there)); [|reflexivity].
  simpl. rewrite H by now left. reflexivity.
Qed.

Lemma mirror_counted (prop : string) (counts : dict nat) (values : list string) :
  map mirror (countedRecords (PropAdded prop) counts values)
    = countedRecords (PropRemoved prop) counts values
  /\ map mirror (countedRecords (PropRemoved prop) counts values)
     = countedRecords (PropAdded prop) counts values.
Proof.
  unfold countedRecords. rewrite !map_map. split; reflexivity.
Qed.

Lemma handleSpecialProperty_mirror (prop : string) (newVals oldVals : list string)
    (newCounts oldCounts : dict nat) :
  (prop = "visibility" -> ~ In "hidden" newVals /\ ~ In "hidden" oldVals) ->
  Permutation
    (map mirror (handleSpecialProperty prop newVals oldVals newCounts oldCounts))
    (handleSpecialProperty prop oldVals newVals oldCounts newCounts).
Proof.
  intros Hvis. unfold handleSpecialProperty.
  rewrite (oneToOne_swap oldVals newVals).
  destruct (oneToOne oldVals newVals) as [[o n]|]; [apply Permutation_refl|].
  rewrite map_app.
  assert (Hshown : forall vals, ~ (prop = "visibility" /\ In "hidden" vals) ->
    forall counts other,
    flat_map (fun value =>
                if negb (mem value other) then
                  if String.eqb prop "visibility" && String.eqb value "hidden"
                  then [HiddenWarning "visibility" "hidden" (suffix_of (dict_get counts value))]
                  else [PropAdded prop value (suffix_of (dict_get counts value))]
                else [])
             vals
    = flat_map (fun value => if negb (mem value other)
                             then [PropAdded prop value (suffix_of (dict_get counts value))]
                             else [])
               vals).
  { intros vals Hno counts other. apply flat_map_ext_In. intros v Hv.
    destruct (negb (mem v other)); [|reflexivity].
    destruct (String.eqb_spec prop "visibility") as [E|_]; [|reflexivity].
    destruct (String.eqb_spec v "hidden") as [->|_]; [|reflexivity].
    exfalso. apply Hno. now split. }
  rewrite !Hshown by (intros [E Hin]; destruct (Hvis E); contradiction).
  rewrite (mirror_missing (PropAdded prop) (PropRemoved prop)) by reflexivity.
  rewrite (mirror_missing (PropRemoved prop) (PropAdded prop)) by reflexivity.
  apply Permutation_app_comm.
Qed.

(** The per-property comparison of [compareDeclarations] is symmetric
    outside [display].  For every property other than [display], and for
    [visibility] as long as no value normalizes to [hidden], the records
    that the body of the property loop produces for (old, new) are, up to
    their order, the mirror images (Added <-> Removed, [from X -> Y] <->
    [from Y -> X], same occurrence counts) of the records it produces for
    (new, old). *)
Theorem compareProperty_mirror (oldProps newProps : dict (list string))
    (oldAST newAST : option root) (prop : string) :
  prop <> "display" ->
  (prop = "visibility" ->
   forall v, In v (valuesOf oldProps prop ++ valuesOf newProps prop) ->
             normalizeValue v prop <> "hidden") ->
  Permutation (map mirror (compareProperty oldProps newProps newAST prop))
              (compareProperty newProps oldProps oldAST prop).
Proof.
  intros Hdisplay Hvis. unfold compareProperty.
  destruct (isAnimationProp prop); [apply Permutation_refl|].
  destruct (String.eqb_spec prop "display") as [E|_]; [contradiction|].
  destruct (mem prop specialProps).
  { apply handleSpecialProperty_mirror. intros E.
    specialize (Hvis E).
    split; intros Hin; apply DeclarationFacts.In_unique, in_map_iff in Hin;
      destruct Hin as (v & Hv & Hin); apply (Hvis v); [| assumption | | assumption];
      apply in_or_app; [right | left]; assumption. }
  rewrite (oneToOne_swap (unique _) (unique _)).
  destruct (oneToOne _ _) as [[o n]|].
  { simpl. rewrite Nat.max_comm. apply Permutation_refl. }
  set (oldU := unique (map _ (valuesOf oldProps prop))).
  set (newU := unique (map _ (valuesOf newProps prop))).
  destruct oldU as [|o oldU], newU as [|n newU]; simpl List.length;
    cbn [Nat.eqb Nat.ltb Nat.leb andb].
  - apply Permutation_refl.
  - rewrite (proj1 (mirror_counted _ _ _)). apply Permutation_refl.
  - rewrite (proj2 (mirror_counted _ _ _)). apply Permutation_refl.
  - rewrite map_app, (proj1 (mirror_counted _ _ _)), (proj2 (mirror_counted _ _ _)).
    apply Permutation_app_comm.
Qed.

Lemma compareProperty_mirror_witness :
  Permutation
    (map mirror (compareProperty [("position", ["fixed"; "static"])]
                                 [("position", ["sticky"; "sticky"; "static"])]
                                 None "position"))
    (compareProperty [("position", ["sticky"; "sticky"; "static"])]
                     [("position", ["fixed"; "static"])]
                     None "position").
Proof.
  apply compareProperty_mirror; [discriminate | intros E; discriminate E].
Defined.

End MirrorFacts.

(** ** Grouping of declarations and selectors *)

Module GroupingFacts.
Import JsString Css StringFacts.

Lemma valuesOf_set (m : dict (list string)) (k p : string) (v : list string) :
  valuesOf (dict_set m k v) p = if String.eqb p k then v else valuesOf m p.
Proof.
  unfold valuesOf. rewrite ScssFacts.dict_get_set. now destruct (String.eqb p k).
Qed.

Lemma valuesOf_pushed (ds : list (string * string)) (m : dict (list string)) (p : string) :
  valuesOf (fold_left pushValue ds m) p
  = valuesOf m p ++ map snd (filter (fun d => String.eqb (fst d) p) ds).
Proof.
  revert m. induction ds as [|[k v] ds IH]; intros m; simpl.
  - now rewrite app_nil_r.
  - rewrite IH. unfold pushValue at 1. simpl. rewrite valuesOf_set.
    rewrite (String.eqb_sym k p).
    destruct (String.eqb_spec p k) as [->|_]; simpl.
    + now rewrite <- app_assoc.
    + reflexivity.
Qed.

(** The declaration dictionary loses nothing.  For every stylesheet and
    every property, the entry of [extractDeclarations] for the property
    lists, in document order, the value of every declaration of that
    property, wherever the declaration is nested; a property that is never
    declared has no values. *)
Theorem extractDeclarations_groups_by_property (ast : root) (prop : string) :
  valuesOf (extractDeclarations ast) prop
  = map snd (filter (fun d => String.eqb (fst d) prop) (declsOf ast)).
Proof.
  unfold extractDeclarations. now rewrite valuesOf_pushed.
Qed.

(** *** The selector maps *)

Lemma dict_get_incr (m : dict nat) (k p : string) :
  dict_get (dict_incr m k) p
  = if String.eqb p k
    then Some (match dict_get m k with Some c => c | None => 0 end + 1)
    else dict_get m p.
Proof. unfold dict_incr. apply ScssFacts.dict_get_set. Qed.

Lemma keys_dict_set {V} (m : dict V) (k : string) (v : V) :
  dict_keys (dict_set m k v)
  = if dict_has m k then dict_keys m else dict_keys m ++ [k].
Proof.
  unfold dict_keys, dict_has.
  induction m as [|[k0 v0] m IH]; simpl; [reflexivity|].
  destruct (String.eqb k k0) eqn:E; simpl; [reflexivity|].
  rewrite IH. now destruct (dict_get m k).
Qed.

Lemma NoDup_dict_set {V} (m : dict V) (k : string) (v : V) :
  NoDup (dict_keys m) -> NoDup (dict_keys (dict_set m k v)).
Proof.
  intros H. rewrite keys_dict_set.
  destruct (dict_has m k) eqn:E; [assumption|].
  apply NoDup_app; [assumption | repeat constructor; intros [] |].
  intros x Hx [<-|[]]. rewrite dict_has_keys in E.
  apply mem_false in E. contradiction.
Qed.

Abbreviation count_at m p := (match dict_get m p with Some c => c | None => 0 end).

Lemma counted (paths : list string) (m : dict nat) (p : string) :
  NoDup (dict_keys m) ->
  (forall k c, dict_get m k = Some c -> 0 < c) ->
  NoDup (dict_keys (fold_left dict_incr paths m))
  /\ (forall k c, dict_get (fold_left dict_incr paths m) k = Some c -> 0 < c)
  /\ count_at (fold_left dict_incr paths m) p
     = count_at m p + List.length (filter (String.eqb p) paths).
Proof.
  revert m. induction paths as [|k paths IH]; intros m Hnd Hpos; simpl.
  - repeat split; [assumption | assumption | lia].
  - destruct (IH (dict_incr m k)) as (H1 & H2 & H3).
    + now apply NoDup_dict_set.
    + intros k' c'. rewrite dict_get_incr.
      destruct (String.eqb k' k); [intros [= <-]; lia | apply Hpos].
    + repeat split; try assumption.
      rewrite H3, dict_get_incr.
      destruct (String.eqb p k) eqn:E; simpl; [|reflexivity].
      apply String.eqb_eq in E. subst k. lia.
Qed.

Lemma selectorMap_paths (sels : list selectorEntry) :
  selectorMap sels = fold_left dict_incr (map fullPath sels) [].
Proof.
  unfold selectorMap. generalize (@nil (string * nat)).
  induction sels as [|s sels IH]; intros m; simpl; [reflexivity | apply IH].
Qed.

Lemma In_dict_get {V} (m : dict V) (k : string) (v : V) :
  NoDup (dict_keys m) -> In (k, v) m -> dict_get m k = Some v.
Proof.
  induction m as [|[k0 v0] m IH]; simpl; [contradiction|].
  intros Hnd [[= -> ->] | Hin].
  - now rewrite String.eqb_refl.
  - inversion Hnd as [|? ? Hnot Hnd']; subst.
    destruct (String.eqb_spec k k0) as [->|_].
    + exfalso. apply Hnot. apply in_map_iff. now exists (k0, v).
    + now apply IH.
Qed.

(** The map built from a version: its keys are distinct, and the value
    at a path is the number of rules with that path. *)
Lemma selectorMap_of (ast : option root) (p : string) :
  let m := selectorMap (match ast with
                        | Some a => extractSelectorsWithContext a | None => [] end) in
  NoDup (dict_keys m)
  /\ (forall c, In (p, c) m <-> (c = instances p ast /\ 0 < c))
  /\ (dict_has m p = false <-> instances p ast = 0).
Proof.
  cbv zeta. rewrite selectorMap_paths.
  assert (Hpaths : map fullPath (match ast with
                                  | Some a => extractSelectorsWithContext a
                                  | None => []
                                  end) = pathsOf ast) by now destruct ast.
  rewrite Hpaths.
  destruct (counted (pathsOf ast) [] p (NoDup_nil _)) as (H1 & H2 & H3);
    [intros k c; discriminate|].
  simpl in H3. fold (instances p ast) in H3.
  split; [assumption|]. split.
  - intros c. split.
    + intros Hin. apply (In_dict_get _ _ _ H1) in Hin.
      rewrite Hin in H3. split; [assumption | now apply (H2 p)].
    + intros [-> Hpos]. apply dict_get_In.
      destruct (dict_get _ p) as [c|]; [now subst | lia].
  - unfold dict_has. split.
    + intros Hhas. destruct (dict_get _ p); [discriminate | now symmetry].
    + intros Hzero. destruct (dict_get _ p) as [c|] eqn:E; [|reflexivity].
      apply H2 in E. lia.
Qed.

Lemma In_selectorRecords (mk : string -> option nat -> change) (other m : dict nat)
    (r : change) :
  In r (selectorRecords mk other m)
  <-> exists p c, In (p, c) m /\ dict_has other p = false /\ r = mk p (suffix_of (Some c)).
Proof.
  unfold selectorRecords. rewrite in_flat_map. split.
  - intros ([p c] & Hin & Hr).
    destruct (dict_has other p) eqn:E; simpl in Hr; [contradiction|].
    destruct Hr as [<-|[]]. now exists p, c.
  - intros (p & c & Hin & Hhas & ->). exists (p, c). split; [assumption|].
    rewrite Hhas. now left.
Qed.

(** What the selector diff reports.  A path is reported as added exactly
    when the new version has rules with that path and the old version has
    none, and the record carries the number of those rules when there are
    several; removals are the same with the versions exchanged.  (A path
    present on both sides is never reported, however its number of rules
    changes.) *)
Theorem compareSelectorsWithContext_records (oldAST newAST : option root)
    (path : string) (suffix : option nat) :
  (In (SelectorAdded path suffix) (compareSelectorsWithContext oldAST newAST)
   <-> 0 < instances path newAST /\ instances path oldAST = 0
       /\ suffix = suffix_of (Some (instances path newAST)))
  /\ (In (SelectorRemoved path suffix) (compareSelectorsWithContext oldAST newAST)
      <-> 0 < instances path oldAST /\ instances path newAST = 0
          /\ suffix = suffix_of (Some (instances path oldAST))).
Proof.
  unfold compareSelectorsWithContext.
  destruct (selectorMap_of oldAST path) as (_ & Hold & Hold0).
  destruct (selectorMap_of newAST path) as (_ & Hnew & Hnew0).
  cbv zeta in Hold, Hold0, Hnew, Hnew0.
  split; rewrite in_app_iff, !In_selectorRecords; split.
  - intros [(p & c & Hin & Hhas & E) | (p & c & _ & _ & E)]; [|discriminate].
    injection E as -> ->. apply Hnew in Hin. destruct Hin as [-> Hpos].
    apply Hold0 in Hhas. now repeat split.
  - intros (Hpos & Hzero & ->). left.
    exists path, (instances path newAST). repeat split.
    + now apply Hnew.
    + now apply Hold0.
  - intros [(p & c & _ & _ & E) | (p & c & Hin & Hhas & E)]; [discriminate|].
    injection E as -> ->. apply Hold in Hin. destruct Hin as [-> Hpos].
    apply Hnew0 in Hhas. now repeat split.
  - intros (Hpos & Hzero & ->). right.
    exists path, (instances path oldAST). repeat split.
    + now apply Hold.
    + now apply Hnew0.
Qed.

End GroupingFacts.

(** ** The typography pass repeats the main loop *)

Module TypographyFacts.
Import JsString Css StringFacts DeclarationFacts CollapseFacts GroupingFacts.

(** A list whose distinct values are the single value [a] holds [a] and
    nothing else, and so does its image under any function. *)
Lemma unique_single (l : list string) (a : string) :
  unique l = [a] -> l <> [] /\ (forall x, In x l -> x = a).
Proof.
  intros H. split.
  - intros ->. discriminate H.
  - intros x Hx. apply (proj2 (In_unique x l)) in Hx. rewrite H in Hx.
    destruct Hx as [<-|[]]. reflexivity.
Qed.

Lemma unique_constant (l : list string) (a : string) :
  l <> [] -> (forall x, In x l -> x = a) -> unique l = [a].
Proof.
  induction l as [|x l IH]; intros Hne Hall; [contradiction|].
  simpl. rewrite (Hall x) by now left. f_equal.
  apply filter_nil. intros y Hy. apply (proj1 (In_unique y l)) in Hy.
  rewrite (Hall y) by now right. now rewrite String.eqb_refl.
Qed.

Lemma unique_map_single (f : string -> string) (l : list string) (a : string) :
  unique l = [a] -> unique (map f l) = [f a].
Proof.
  intros H. apply unique_single in H. destruct H as [Hne Hall].
  apply unique_constant.
  - destruct l; [contradiction | discriminate].
  - intros y Hy. apply in_map_iff in Hy. destruct Hy as (x & <- & Hx).
    now rewrite (Hall x Hx).
Qed.

(** [extractTypographyProps] keeps, for a property it is asked for, the
    values that [extractDeclarations] keeps. *)
Lemma valuesOf_extractProps (keep : string -> bool) (ast : root) (prop : string) :
  keep prop = true ->
  valuesOf (extractProps keep ast) prop = valuesOf (extractDeclarations ast) prop.
Proof.
  intros Hkeep. unfold extractProps, extractDeclarations.
  rewrite !valuesOf_pushed. f_equal. f_equal.
  induction (declsOf ast) as [|[k v] ds IH]; simpl; [reflexivity|].
  destruct (keep k) eqn:Ek; simpl.
  - now rewrite IH.
  - rewrite IH. destruct (String.eqb_spec k prop) as [->|_]; [congruence | reflexivity].
Qed.

Lemma NoDup_keys_pushed (ds : list (string * string)) (m : dict (list string)) :
  NoDup (dict_keys m) -> NoDup (dict_keys (fold_left pushValue ds m)).
Proof.
  revert m. induction ds as [|d ds IH]; intros m H; simpl; [assumption|].
  apply IH. unfold pushValue. now apply NoDup_dict_set.
Qed.

Lemma valuesOf_key (m : dict (list string)) (prop : string) :
  valuesOf m prop <> [] -> In prop (dict_keys m).
Proof.
  unfold valuesOf. intros H.
  apply mem_In. rewrite <- dict_has_keys. unfold dict_has.
  destruct (dict_get m prop); [reflexivity | contradiction].
Qed.

Lemma typography_is_plain (prop : string) :
  mem prop typographyProps = true ->
  isAnimationProp prop = false /\ String.eqb prop "display" = false
  /\ mem prop specialProps = false.
Proof.
  intros H. apply mem_In in H.
  repeat (destruct H as [<-|H]; [repeat split; reflexivity|]). contradiction.
Qed.

(** A typography property changed 1-to-1 is reported twice.  For each
    of the eight typography properties: when the old version declares the
    property with the single value [a] (any number of times), the new
    version with the single value [b], and the two differ after
    normalization, the declaration diff holds exactly two records about
    the property among its Added, Removed and Modified records: the
    "Property changed" record of the main loop (normalized values, with the
    number of elements when a version declares the property more than
    once), and then the "Property changed" record of [analyzeTypography]
    (raw values, no count). *)
Theorem typography_change_reported_twice (oldAST newAST : root) (prop a b : string) :
  mem prop typographyProps = true ->
  unique (valuesOf (extractDeclarations oldAST) prop) = [a] ->
  unique (valuesOf (extractDeclarations newAST) prop) = [b] ->
  normalizeValue a prop <> normalizeValue b prop ->
  recordsAbout prop (compareDeclarations (Some oldAST) (Some newAST))
  = [PropChanged prop (normalizeValue a prop) (normalizeValue b prop)
       (suffix_of (Some (Nat.max (List.length (valuesOf (extractDeclarations oldAST) prop))
                                 (List.length (valuesOf (extractDeclarations newAST) prop)))));
     PropChanged prop a b None].
Proof.
  intros Htypo Hold Hnew Hdiff.
  destruct (typography_is_plain prop Htypo) as (Hanim & Hdisplay & Hspecial).
  assert (Hab : String.eqb a b = false).
  { apply String.eqb_neq. intros ->. now apply Hdiff. }
  assert (Hnorm : String.eqb (normalizeValue a prop) (normalizeValue b prop) = false)
    by now apply String.eqb_neq.
  assert (Holdkey : In prop (dict_keys (extractDeclarations oldAST))).
  { apply valuesOf_key. now apply unique_single in Hold. }
  assert (Hnewkey : valuesOf (extractDeclarations newAST) prop <> [])
    by now apply unique_single in Hnew.
  unfold compareDeclarations, recordsAbout.
  rewrite !filter_app.
  rewrite (filter_nil _ (detectDuplicateProperties newAST)).
  2:{ intros c Hc. apply detectDuplicateProperties_warnings in Hc.
      unfold is_diff_record. now rewrite Hc. }
  rewrite (filter_nil _ (analyzeAnimations newAST (Some oldAST))).
  2:{ intros c Hc. apply analyzeAnimations_about in Hc.
      destruct Hc as (q & Hq & Hanim'). apply andb_false_iff. right.
      apply (about_other prop q); [congruence | now left]. }
  simpl app.
  rewrite (filter_flat_map_one _ _ _ prop).
  2:{ apply NoDup_unique. }
  2:{ apply In_unique, in_app_iff. now left. }
  2:{ intros q _ Hq. apply filter_nil. intros c Hc.
      apply compareProperty_about in Hc. apply andb_false_iff. right.
      apply (about_other prop q); [congruence | assumption]. }
  unfold analyzeTypography.
  rewrite (filter_flat_map_one _ _ _ prop).
  2:{ apply NoDup_keys_pushed. constructor. }
  2:{ apply valuesOf_key. unfold extractTypographyProps.
      now rewrite (valuesOf_extractProps _ _ _ Htypo). }
  2:{ intros q _ Hq. apply filter_nil. intros c Hc.
      apply rawValueChanges_about in Hc. apply andb_false_iff. right.
      apply (about_other prop q); [congruence | now left]. }
  unfold extractTypographyProps.
  rewrite !(valuesOf_extractProps _ _ _ Htypo).
  unfold rawValueChanges. rewrite Hold, Hnew. simpl oneToOne. rewrite Hab.
  unfold compareProperty. rewrite Hanim, Hdisplay, Hspecial.
  cbv zeta.
  rewrite (unique_map_single _ _ _ Hold), (unique_map_single _ _ _ Hnew).
  simpl oneToOne. rewrite Hnorm. rewrite !length_map.
  unfold about. simpl. now rewrite String.eqb_refl.
Qed.

Lemma typography_change_witness :
  map render (recordsAbout "font-size"
                (compareDeclarations (Some Scenarios.smallFont) (Some Scenarios.largeFont)))
  = ["Property changed: font-size from 12px → 14px";
     "Property changed: font-size from 12px → 14px"].
Proof.
  rewrite (typography_change_reported_twice Scenarios.smallFont Scenarios.largeFont
             "font-size" "12px" "14px");
    [reflexivity | reflexivity | reflexivity | reflexivity | discriminate].
Defined.

End TypographyFacts.

(** ** Risk levels and the report *)

Module RiskFacts.
Import JsString Analyzer Formatter StringFacts.

Lemma existsb_app_l {A} (f : A -> bool) (l more : list A) :
  existsb f l = true -> existsb f (l ++ more) = true.
Proof. intros H. rewrite existsb_app, H. reflexivity. Qed.

(** More records never lower the risk.  For every file path, the risk
    level that [assessRisk] gives to a list of change records is at most
    the level it gives to that list followed by further records. *)
Theorem assessRisk_monotone (filepath : string) (changes more : list string) :
  riskLevel (assessRisk filepath changes)
  <= riskLevel (assessRisk filepath (changes ++ more)).
Proof.
  unfold assessRisk.
  destruct (existsb _ ["auth"; "login"; "password"; "token"; "api"; "database"; "config"]);
    [reflexivity|].
  rewrite !existsb_app, length_app.
  match goal with
  | |- context [existsb ?f changes] => generalize (existsb f changes) (existsb f more)
  end.
  intros b b'.
  match goal with
  | |- context [existsb ?f changes] => generalize (existsb f changes) (existsb f more)
  end.
  intros c c'.
  destruct (5 <? List.length changes) eqn:E1;
    destruct (5 <? List.length changes + List.length more) eqn:E2;
    destruct b, b', c, c'; try (cbv; lia);
    apply Nat.ltb_lt in E1; apply Nat.ltb_ge in E2; lia.
Qed.

Lemma assessRisk_range (filepath : string) (changes : list string) :
  assessRisk filepath changes = "HIGH" \/ assessRisk filepath changes = "MEDIUM"
  \/ assessRisk filepath changes = "LOW".
Proof.
  unfold assessRisk.
  destruct (existsb _ _); [now left|].
  destruct (existsb _ _); [now left|].
  destruct (_ || _); [right; now left | right; now right].
Qed.

(** The keys that [groupByRisk] can file an entry under. *)
Abbreviation filed item :=
  (riskKey item = "HIGH" \/ riskKey item = "MEDIUM" \/ riskKey item = "LOW").

Lemma pushItems_filed (analysis : list result) (grouped : riskGroups) :
  Forall (fun item => filed item) analysis ->
  pushItems grouped analysis
  = Return (mkGroups
              (HIGH grouped ++ filter (fun i => String.eqb (riskKey i) "HIGH") analysis)
              (MEDIUM grouped ++ filter (fun i => String.eqb (riskKey i) "MEDIUM") analysis)
              (LOW grouped ++ filter (fun i => String.eqb (riskKey i) "LOW") analysis)).
Proof.
  intros H. revert grouped.
  induction H as [|item analysis Hitem _ IH]; intros grouped; simpl.
  - rewrite !app_nil_r. now destruct grouped.
  - unfold pushItem.
    destruct Hitem as [E|[E|E]]; rewrite E; simpl; rewrite IH; simpl;
      rewrite <- ?app_assoc; reflexivity.
Qed.

Lemma filed_lengths (analysis : list result) :
  Forall (fun item => filed item) analysis ->
  List.length (filter (fun i => String.eqb (riskKey i) "HIGH") analysis)
  + List.length (filter (fun i => String.eqb (riskKey i) "MEDIUM") analysis)
  + List.length (filter (fun i => String.eqb (riskKey i) "LOW") analysis)
  = List.length analysis.
Proof.
  induction 1 as [|item analysis Hitem _ IH]; [reflexivity|].
  simpl. destruct Hitem as [E|[E|E]]; rewrite E; simpl; lia.
Qed.

Section Parsers.

Variable analyzeFile : diffEntry -> string -> outcome astResult.
Variables parseHTML parseCSS parseJQuery parseJS parseReact : option parser.

Lemma analyzeEntry_filed (opts : options) (d : diffEntry) (r : result) :
  analyzeEntry analyzeFile parseHTML parseCSS parseJQuery parseJS parseReact opts d = Return r ->
  filed r.
Proof.
  unfold analyzeEntry, riskKey.
  destruct (String.eqb (status d) "added").
  { intros [= <-]. simpl. destruct (risk opts); simpl; tauto. }
  destruct (String.eqb (status d) "deleted").
  { intros [= <-]. simpl. destruct (risk opts); simpl; [|tauto].
    destruct (assessRisk_range (path d) ["File deleted"]) as [E|[E|E]]; rewrite E; simpl; tauto. }
  destruct (String.eqb (status d) "renamed").
  { intros [= <-]. simpl. destruct (risk opts); simpl; tauto. }
  destruct (binary d).
  { intros [= <-]. simpl. tauto. }
  destruct (if mem _ _ then _ else _) as [[[changes0 parseMethod] parserType]|m]; simpl;
    [|discriminate].
  intros [= <-]. simpl. destruct (risk opts); simpl; [|tauto].
  destruct (assessRisk_range (path d) (ensureArray changes0)) as [E|[E|E]];
    rewrite E; simpl; tauto.
Qed.

(** The report can always be grouped.  For every batch and whatever the
    parsers do, [groupByRisk] applied to the result of [analyzeChanges], or
    to the entries of it that a filter keeps (the report keeps the modified
    ones), does not throw: each entry is filed under HIGH, MEDIUM or LOW
    (an entry without risk under LOW), in order, and none is lost. *)
Theorem analysis_can_be_grouped (opts : options) (diffs : list diffEntry)
    (keep : result -> bool) :
  exists results groups,
    analyzeChanges analyzeFile parseHTML parseCSS parseJQuery parseJS parseReact diffs opts
      = Return results
    /\ groupByRisk (filter keep results) = Return groups
    /\ HIGH groups = filter (fun i => String.eqb (riskKey i) "HIGH") (filter keep results)
    /\ MEDIUM groups = filter (fun i => String.eqb (riskKey i) "MEDIUM") (filter keep results)
    /\ LOW groups = filter (fun i => String.eqb (riskKey i) "LOW") (filter keep results)
    /\ List.length (HIGH groups) + List.length (MEDIUM groups) + List.length (LOW groups)
       = List.length (filter keep results).
Proof.
  unfold analyzeChanges.
  destruct (ControllerFacts.analyzeLoop_returns analyzeFile parseHTML parseCSS parseJQuery
              parseJS parseReact opts diffs []) as (rs & Hloop & Hall & _).
  simpl in Hloop.
  assert (Hfiled : Forall (fun item => filed item) (filter keep rs)).
  { apply Forall_forall. intros r Hr. apply filter_In in Hr. destruct Hr as [Hr _].
    clear Hloop. induction Hall as [|d r' ds rs' Hd _ IH]; [contradiction|].
    destruct Hr as [<-|Hr]; [|now apply IH].
    eapply analyzeEntry_filed, Hd. }
  exists rs. eexists. split; [exact Hloop|].
  unfold groupByRisk. rewrite (pushItems_filed _ _ Hfiled). simpl.
  repeat split. now apply filed_lengths.
Qed.

End Parsers.

End RiskFacts.

(** ** The complexity metric and the file type *)

Module MetricFacts.
Import JsString Analyzer StringFacts.

(** Without the word "complexity" the metric is N/A, 1, 3 or 5.  When
    the lower-cased text of the change records does not contain
    "complexity", [calculateComplexityFromChanges] answers from the six
    keyword indicators: their weights add up to 9 at most, so the answer is
    one of N/A, 1, 3 and 5, and the raw score is never returned. *)
Theorem complexity_metric_range (changes : list string) :
  includes (toLowerCase (join " " changes)) "complexity" = false ->
  In (calculateComplexityFromChanges changes) [NA; Score 1; Score 3; Score 5].
Proof.
  intros H. unfold calculateComplexityFromChanges. rewrite H.
  generalize (functionChanged (toLowerCase (join " " changes))). intros f.
  repeat match goal with
         | |- context [includes ?a ?b] => generalize (includes a b); intro
         end.
  repeat match goal with
         | b : bool |- _ => destruct b
         end; simpl; tauto.
Qed.

Lemma complexity_metric_range_witness :
  In (calculateComplexityFromChanges
        ["Function load changed:"; "  └─ Changed to async"; "  └─ Added API calls"])
     [NA; Score 1; Score 3; Score 5].
Proof. apply complexity_metric_range. reflexivity. Defined.

Lemma split_on_nonempty (c : ascii) (s : string) : split_on c s <> [].
Proof.
  induction s as [|x s IH]; simpl; [discriminate|].
  destruct (Ascii.eqb x c); [discriminate|].
  destruct (split_on c s); discriminate.
Qed.

Lemma last_cons_nonempty {A} (x d : A) (l : list A) : l <> [] -> last (x :: l) d = last l d.
Proof. destruct l; [congruence | reflexivity]. Qed.

Lemma split_on_last (c : ascii) (stem ext : string) (d : string) :
  exists p ps,
    split_on c (stem +++ String c ext) = p :: ps
    /\ ps <> [] /\ last ps d = last (split_on c ext) d.
Proof.
  induction stem as [|x stem IH].
  - exists EmptyString, (split_on c ext). simpl. rewrite Ascii.eqb_refl.
    repeat split. apply split_on_nonempty.
  - destruct IH as (p & ps & E & Hne & Hlast).
    change (String x stem +++ String c ext) with (String x (stem +++ String c ext)).
    cbn [split_on]. rewrite E.
    destruct (Ascii.eqb x c).
    + exists EmptyString, (p :: ps). repeat split; [discriminate|].
      now rewrite (last_cons_nonempty p d ps Hne).
    + exists (String x p), ps. now repeat split.
Qed.

Lemma extension_of (stem ext : string) :
  includes ext "." = false -> extension (stem +++ "." +++ ext) = toLowerCase ext.
Proof.
  intros H. unfold extension.
  change (stem +++ "." +++ ext) with (stem +++ String "." ext).
  destruct (split_on_last "." stem ext EmptyString) as (p & ps & E & Hne & Hlast).
  rewrite E, (last_cons_nonempty p EmptyString ps Hne), Hlast.
  now rewrite (DiffTextFacts.split_on_plain "." ext H).
Qed.

(** The classification reads the last extension, whatever its letter
    case.  Two paths whose text after the last dot is the same up to letter
    case are classified alike on the same content, whatever comes before
    the dot (directories, earlier extensions). *)
Theorem detectFileType_reads_the_last_extension
    (stem1 stem2 ext1 ext2 content : string) :
  includes ext1 "." = false -> includes ext2 "." = false ->
  toLowerCase ext1 = toLowerCase ext2 ->
  detectFileType (stem1 +++ "." +++ ext1) content
  = detectFileType (stem2 +++ "." +++ ext2) content.
Proof.
  intros H1 H2 E. unfold detectFileType.
  now rewrite (extension_of stem1 ext1 H1), (extension_of stem2 ext2 H2), E.
Qed.

Lemma detectFileType_witness :
  detectFileType ("src/views/List.test" +++ "." +++ "JSX") "<div/>"
  = detectFileType ("a" +++ "." +++ "jsx") "<div/>".
Proof.
  apply detectFileType_reads_the_last_extension; reflexivity.
Defined.

End MetricFacts.

(** ** Decimal digits *)

Module DigitFacts.
Import JsString Css StringFacts.

Lemma string_of_uint_digits (d : Decimal.uint) :
  all_chars is_digit (NilEmpty.string_of_uint d) = true.
Proof. induction d; simpl; try reflexivity; assumption. Qed.

Lemma digits_fold (d : Decimal.uint) (acc : nat) :
  fold_left (fun acc c => (10 * acc + JsNumber.digit_value c)%Z)
            (list_ascii_of_string (NilEmpty.string_of_uint d)) (Z.of_nat acc)
  = Z.of_nat (Nat.of_uint_acc d acc).
Proof.
  revert acc. induction d; intros acc;
    cbn [NilEmpty.string_of_uint list_ascii_of_string fold_left Nat.of_uint_acc];
    [reflexivity| | | | | | | | | |];
    rewrite <- IHd; f_equal; rewrite Nat.tail_mul_spec;
    match goal with
    | |- context [JsNumber.digit_value ?c] =>
        let v := eval vm_compute in (JsNumber.digit_value c) in
        change (JsNumber.digit_value c) with v
    end; lia.
Qed.

(** Printing a natural number and reading it back. *)
Lemma digits_value_nat_to_string (n : nat) :
  JsNumber.digits_value (nat_to_string n) = Z.of_nat n.
Proof.
  unfold JsNumber.digits_value, nat_to_string.
  change 0%Z with (Z.of_nat 0). rewrite digits_fold.
  change (Nat.of_uint_acc (Nat.to_uint n) 0) with (Nat.of_uint (Nat.to_uint n)).
  now rewrite Unsigned.of_to.
Qed.

Lemma nat_to_string_digits (n : nat) : all_chars is_digit (nat_to_string n) = true.
Proof. apply string_of_uint_digits. Qed.

Lemma nat_to_string_nonempty (n : nat) : truthy (nat_to_string n) = true.
Proof.
  unfold nat_to_string.
  destruct (Nat.to_uint n) eqn:E; try reflexivity.
  exfalso. pose proof (Unsigned.of_to n) as H. rewrite E in H. simpl in H. subst n.
  discriminate E.
Qed.

Lemma toLowerCase_digits (s : string) :
  all_chars is_digit s = true -> toLowerCase s = s.
Proof.
  induction s as [|c s IH]; [reflexivity|]. simpl.
  intros H. apply andb_prop in H. destruct H as [Hc Hs].
  rewrite (IH Hs). f_equal.
  destruct c as [[] [] [] [] [] [] [] []]; (reflexivity || discriminate).
Qed.

Lemma toLowerCase_append (a b : string) :
  toLowerCase (a +++ b) = toLowerCase a +++ toLowerCase b.
Proof. induction a as [|c a IH]; simpl; [reflexivity | now rewrite IH]. Qed.

End DigitFacts.

(** ** Searching a text *)

Module SearchFacts.
Import JsString Css Analyzer StringFacts.

Lemma prefix_nil (s : string) : String.prefix EmptyString s = true.
Proof. now destruct s. Qed.

Lemma prefix_long (p s t : string) :
  String.length p <= String.length s -> String.prefix p (s +++ t) = String.prefix p s.
Proof.
  revert s. induction p as [|a p IH]; intros s H.
  - now rewrite !prefix_nil.
  - destruct s as [|c s]; [simpl in H; lia|].
    simpl. destruct (ascii_dec a c); [|reflexivity].
    apply IH. simpl in H. lia.
Qed.

Lemma strip_prefix_none (p s : string) :
  String.prefix p s = false -> strip_prefix p s = None.
Proof.
  revert s. induction p as [|a p IH]; intros s H.
  - now rewrite prefix_nil in H.
  - destruct s as [|c s]; [reflexivity|].
    simpl in H |- *. destruct (ascii_dec a c) as [->|Hne].
    + rewrite Ascii.eqb_refl. now apply IH.
    + destruct (Ascii.eqb_spec a c); [contradiction | reflexivity].
Qed.

Lemma after_first_eq (p s : string) :
  after_first p s
  = match strip_prefix p s with
    | Some rest => Some rest
    | None => match s with
              | EmptyString => None
              | String _ s' => after_first p s'
              end
    end.
Proof. now destruct s. Qed.

Lemma includes_eq (s p : string) :
  includes s p
  = String.prefix p s || match s with
                         | EmptyString => false
                         | String _ s' => includes s' p
                         end.
Proof. now destruct s. Qed.

Lemma prefix_self (p rest : string) : String.prefix p (p +++ rest) = true.
Proof.
  induction p as [|a p IH]; [apply prefix_nil|].
  simpl. destruct (ascii_dec a a); [assumption | congruence].
Qed.

(** The first occurrence of a pattern: when the pattern does not occur in
    [pre] followed by all but the last character of the pattern, the text
    after the first occurrence in [pre ++ pattern ++ rest] is [rest]. *)
Lemma after_first_found (q : string) (c : ascii) (pre rest : string) :
  includes (pre +++ q) (q +++ String c EmptyString) = false ->
  after_first (q +++ String c EmptyString) (pre +++ (q +++ String c EmptyString) +++ rest)
  = Some rest.
Proof.
  induction pre as [|x pre IH]; intros H.
  - change (EmptyString +++ (q +++ String c EmptyString) +++ rest)
      with ((q +++ String c EmptyString) +++ rest).
    now rewrite after_first_eq, GridFacts.strip_prefix_append.
  - change (String x pre +++ q) with (String x (pre +++ q)) in H.
    cbn [includes] in H. apply orb_false_iff in H. destruct H as [Hp Hi].
    change (String x pre +++ (q +++ String c EmptyString) +++ rest)
      with (String x (pre +++ (q +++ String c EmptyString) +++ rest)).
    rewrite after_first_eq.
    rewrite strip_prefix_none; [now apply IH|].
    replace (String x (pre +++ (q +++ String c EmptyString) +++ rest))
      with (String x (pre +++ q) +++ String c rest).
    + rewrite prefix_long; [exact Hp|].
      simpl. rewrite !length_append. simpl. lia.
    + simpl. f_equal. now rewrite !append_assoc.
Qed.

Lemma includes_found (p pre rest : string) :
  includes (pre +++ p +++ rest) p = true.
Proof.
  induction pre as [|x pre IH].
  - change (EmptyString +++ p +++ rest) with (p +++ rest).
    now rewrite includes_eq, prefix_self.
  - change (String x pre +++ p +++ rest) with (String x (pre +++ p +++ rest)).
    cbn [includes]. rewrite IH. apply orb_true_r.
Qed.

(** A pattern without a space does not straddle a space. *)
Lemma prefix_space (p s y : string) :
  includes p " " = false ->
  p <> EmptyString ->
  String.prefix p (s +++ String " " y) = String.prefix p s.
Proof.
  revert s. induction p as [|a p IH]; intros s Hsp Hne; [congruence|].
  apply DiffTextFacts.includes_char_false in Hsp. destruct Hsp as [Ha Hp].
  destruct s as [|c s].
  - simpl. destruct (ascii_dec a " ") as [->|_]; [discriminate | reflexivity].
  - simpl. destruct (ascii_dec a c); [|reflexivity].
    destruct p as [|b p].
    + now rewrite !prefix_nil.
    + apply IH; [assumption | discriminate].
Qed.

Lemma includes_at_space (p x y : string) :
  includes p " " = false ->
  p <> EmptyString ->
  includes (x +++ String " " y) p = includes x p || includes y p.
Proof.
  intros Hsp Hne. induction x as [|c x IH].
  - change (EmptyString +++ String " " y) with (String " " y).
    rewrite (includes_eq (String " " y)), (includes_eq EmptyString).
    change (String " " y) with (EmptyString +++ String " " y) at 1.
    rewrite (prefix_space p EmptyString y Hsp Hne). now rewrite orb_false_r.
  - change (String c x +++ String " " y) with (String c (x +++ String " " y)).
    cbn [includes]. rewrite IH.
    change (String c (x +++ String " " y)) with (String c x +++ String " " y).
    rewrite (prefix_space p (String c x) y Hsp Hne).
    now rewrite orb_assoc.
Qed.

End SearchFacts.

(** ** The complexity metric of a function that grew *)

Module OldValueFacts.
Import JsString Css Ast Analyzer StringFacts DigitFacts SearchFacts.

Lemma complexityNumber_found (pre mid digits rest : string) :
  includes (pre +++ "complexit") "complexity" = false ->
  all_chars (fun c => negb (is_digit c)) mid = true ->
  all_chars is_digit digits = true -> truthy digits = true ->
  stops is_digit rest ->
  complexityNumber (pre +++ "complexity" +++ mid +++ digits +++ rest)
  = Some (JsNumber.digits_value digits).
Proof.
  intros Hpre Hmid Hdigits Hne Hrest. unfold complexityNumber.
  change (after_first "complexity" (pre +++ "complexity" +++ mid +++ digits +++ rest))
    with (after_first ("complexit" +++ String "y" EmptyString)
            (pre +++ ("complexit" +++ String "y" EmptyString) +++ mid +++ digits +++ rest)).
  rewrite (after_first_found "complexit" "y" pre (mid +++ digits +++ rest) Hpre).
  rewrite (GridFacts.span_append (fun c => negb (is_digit c)) mid (digits +++ rest) Hmid).
  - rewrite (GridFacts.span_append is_digit digits rest Hdigits Hrest).
    now rewrite Hne.
  - destruct digits as [|d digits]; [discriminate|].
    simpl in Hdigits |- *. apply andb_prop in Hdigits. destruct Hdigits as [Hd _].
    now rewrite Hd.
Qed.

(** The complexity metric of a function that grew is its old complexity.
    Take two versions of a function that differ in complexity only, the
    new one above the threshold, with a name that does not contain
    "complexity".  The function diff reports the function with the single
    detail "Complexity increased (old → new)", and from these records
    [calculateComplexityFromChanges] returns the old complexity: the first
    number that follows the word. *)
Theorem complexity_metric_shows_the_old_value (oldFunc newFunc : func) :
  name oldFunc = name newFunc ->
  includes (toLowerCase (name newFunc)) "complexity" = false ->
  async oldFunc = async newFunc ->
  params oldFunc = params newFunc ->
  callsAPI oldFunc = callsAPI newFunc ->
  hasReturn oldFunc = hasReturn newFunc ->
  complexity oldFunc + 2 < complexity newFunc ->
  diffFunctions [oldFunc] [newFunc]
    = ["Function " +++ name newFunc +++ " changed:";
       "  └─ Complexity increased (" +++ nat_to_string (complexity oldFunc) +++ " → " +++
       nat_to_string (complexity newFunc) +++ ")"]
  /\ calculateComplexityFromChanges (diffFunctions [oldFunc] [newFunc])
     = Score (Z.of_nat (complexity oldFunc)).
Proof.
  intros Hname Hword Hasync Hparams Hapi Hret Hcx.
  assert (Hdiff : diffFunctions [oldFunc] [newFunc]
    = ["Function " +++ name newFunc +++ " changed:";
       "  └─ Complexity increased (" +++ nat_to_string (complexity oldFunc) +++ " → " +++
       nat_to_string (complexity newFunc) +++ ")"]).
  { unfold diffFunctions, findByName. cbn [flat_map find].
    rewrite Hname, String.eqb_refl. cbn [name].
    unfold compareFunctions.
    rewrite Hasync, Hparams, Hapi, Hret, !Bool.eqb_reflx, String.eqb_refl.
    replace (complexity oldFunc + 2 <? complexity newFunc) with true
      by (symmetry; now apply Nat.ltb_lt).
    replace (negb (callsAPI newFunc) && callsAPI newFunc) with false
      by now destruct (callsAPI newFunc).
    reflexivity. }
  split; [exact Hdiff|]. rewrite Hdiff. unfold calculateComplexityFromChanges.
  set (a := nat_to_string (complexity oldFunc)).
  set (b := nat_to_string (complexity newFunc)).
  assert (Htext : toLowerCase (join " " ["Function " +++ name newFunc +++ " changed:";
                                         "  └─ Complexity increased (" +++ a +++ " → " +++
                                         b +++ ")"])
    = ("function " +++ toLowerCase (name newFunc) +++ " changed:   └─ ")
        +++ "complexity" +++ " increased (" +++ a +++ " → " +++ b +++ ")").
  { cbn [join]. rewrite !toLowerCase_append.
    rewrite (toLowerCase_digits a (nat_to_string_digits _)).
    rewrite (toLowerCase_digits b (nat_to_string_digits _)).
    rewrite !append_assoc. reflexivity. }
  rewrite Htext, includes_found.
  rewrite complexityNumber_found.
  - unfold a. now rewrite digits_value_nat_to_string.
  - rewrite !append_assoc.
    change ("function " +++ toLowerCase (name newFunc) +++ " changed:   └─ " +++ "complexit")
      with ("function" +++ String " " (toLowerCase (name newFunc)
                                       +++ String " " "changed:   └─ complexit")).
    rewrite !includes_at_space by (reflexivity || discriminate).
    rewrite Hword. reflexivity.
  - reflexivity.
  - apply nat_to_string_digits.
  - apply nat_to_string_nonempty.
  - reflexivity.
Qed.

Lemma complexity_metric_witness :
  calculateComplexityFromChanges
    (diffFunctions [mkFunc "load" false [] true 1 false]
                   [mkFunc "load" false [] true 9 false])
  = Score 1.
Proof.
  apply (complexity_metric_shows_the_old_value
           (mkFunc "load" false [] true 1 false) (mkFunc "load" false [] true 9 false));
    try reflexivity. simpl. lia.
Defined.

End OldValueFacts.
